(** * PreprossingBlender: a shallow embedding of the GLB batch pipeline

    The script [PreprossingBlender.py] drives Blender through [bpy]: for
    every [*.glb] file of a folder it clears the scene, imports the file,
    joins the mesh objects, decimates and welds the joined mesh, strips the
    image textures, stages a plane and a sun, renders one still and writes
    the mesh as JSON.

    The embedding keeps the script's functions under their names.  The
    process-wide Blender state (objects, active object, mode, materials,
    render settings), the file system and standard output are one explicit
    [State], threaded by a state-and-exception monad.  What Blender itself
    computes (the glTF importer, the join, the decimation, the weld, the
    rasteriser) and what the operating system decides (directory listing,
    whether a path can be written) are the fields of the class [Host].

    Python integers are [Z].  The floats of the scene (coordinates,
    matrices, colors, ratios) are idealised as exact rationals ([Q]), and
    arithmetic on them is exact: the single precision Blender stores them
    in, negative zero, infinities and NaN are not modelled there.  A float
    handed to [json.dump] is a rational, or the negative zero [round]
    gives for a negative number that rounds to zero; it is written as
    [repr] writes the double nearest to it. *)

From Stdlib Require Import ZArith QArith Qabs List String Ascii Lia Bool.
From Stdlib Require Import DecimalString DecimalZ.
From stdpp Require Import base gmap strings list.

Open Scope string_scope.
Open Scope list_scope.

(** ** Numbers, vectors, matrices *)

(** [mathutils.Vector] of size three. *)
Record Vector := mkVector { vx : Q; vy : Q; vz : Q }.

(** [mathutils.Color]-like RGBA tuple, as assigned to [diffuse_color]. *)
Record RGBA := mkRGBA { cr : Q; cg : Q; cb : Q; ca : Q }.

(** One row of a 4x4 [mathutils.Matrix]. *)
Record Row4 := mkRow4 { c0 : Q; c1 : Q; c2 : Q; c3 : Q }.

Record Matrix := mkMatrix { row0 : Row4; row1 : Row4; row2 : Row4; row3 : Row4 }.

(** A row of a 4x4 matrix applied to a 3D vector: the vector is extended
    with a fourth component [1]. *)
Definition row_apply (r : Row4) (v : Vector) : Q :=
  (c0 r * vx v + c1 r * vy v + c2 r * vz v + c3 r)%Q.

(** [M @ v] for a 4x4 matrix and a 3D vector; the result is 3D. *)
Definition mat_vec (m : Matrix) (v : Vector) : Vector :=
  mkVector (row_apply (row0 m) v) (row_apply (row1 m) v) (row_apply (row2 m) v).

Definition identity_matrix : Matrix :=
  mkMatrix (mkRow4 1 0 0 0) (mkRow4 0 1 0 0) (mkRow4 0 0 1 0) (mkRow4 0 0 0 1).

(** Round half to even of the rational [n/d] to an integer. *)
Definition round_half_even (x : Q) : Z :=
  let n := Qnum x in
  let d := Z.pos (Qden x) in
  let f := (n / d)%Z in
  let r := (n mod d)%Z in
  match (2 * r ?= d)%Z with
  | Lt => f
  | Gt => (f + 1)%Z
  | Eq => if Z.even f then f else (f + 1)%Z
  end.

(** [10 ** ndigits] as a positive. *)
Definition pow10 (ndigits : nat) : positive := Pos.pow 10 (Pos.of_nat ndigits).

(** The builtin [round(x, ndigits)] on a float, for [ndigits > 0]: the
    nearest multiple of [10 ** -ndigits], ties to even. *)
Definition round (x : Q) (ndigits : nat) : Q :=
  match ndigits with
  | O => inject_Z (round_half_even x)
  | S _ => round_half_even (x * inject_Z (Z.pos (pow10 ndigits))) # pow10 ndigits
  end.

(** A Python [float] as it is written: an exact rational, or negative
    zero ([-0.0]), which is zero as a number and differs from it only in
    its sign. *)
Inductive pyfloat := Finite (q : Q) | NegZero.

(** [round(x, ndigits)] as the float it returns: the rounded number;
    [round] keeps the sign of its argument, so a negative number that
    rounds to zero gives [-0.0]. *)
Definition round_float (x : Q) (ndigits : nat) : pyfloat :=
  let r := round x ndigits in
  if (Qnum r =? 0)%Z && (Qnum x <? 0)%Z then NegZero else Finite r.

(** ** Meshes, materials, objects *)

Definition ObjId := nat.
Definition MatId := nat.
Definition ModId := nat.

(** Vertices (their [co]), edges (pairs of vertex indices) and polygons
    (lists of vertex indices) of [bpy.types.Mesh]. *)
Record Geometry := mkGeometry {
  vertices : list Vector;
  edges : list (nat * nat);
  polygons : list (list nat)
}.

(** A mesh datablock: geometry, material slots ([None] is an empty slot)
    and the edit-mode vertex selection (indices of selected vertices). *)
Record Mesh := mkMesh {
  mesh_geom : Geometry;
  materials : list (option MatId);
  mesh_selected : list nat
}.

Inductive NodeType := TEX_IMAGE | BSDF_PRINCIPLED | OUTPUT_MATERIAL | NORMAL_MAP | MIX_SHADER.

Record Node := mkNode { node_name : string; node_type : NodeType }.

(** A shading graph: its nodes and the links between them, by node name. *)
Record NodeTree := mkNodeTree {
  nodes : list Node;
  links : list (string * string)
}.

Record Material := mkMaterial {
  mat_name : string;
  use_nodes : bool;
  node_tree : option NodeTree;
  diffuse_color : RGBA
}.

Inductive ObjType := MESH | CAMERA | LIGHT | EMPTY | ARMATURE.

(** What an object carries: a mesh, or a datablock of another kind, of
    which the script reads nothing but the kind. *)
Inductive ObjData :=
| MeshData (m : Mesh)
| CameraData
| LightData
| NoData
| ArmatureData.

Inductive DecimateType := COLLAPSE | UNSUBDIV | DISSOLVE.

Inductive ModifierKind :=
| DECIMATE (decimate_type : DecimateType) (ratio : Q) (use_collapse_triangulate : bool)
| OTHER_MODIFIER.

Record Modifier := mkModifier {
  mod_id : ModId;
  mod_name : string;
  mod_kind : ModifierKind
}.

Inductive TrackAxis := TRACK_Y | TRACK_NEGATIVE_Z.
Inductive UpAxis := UP_Z | UP_Y.

(** A [TRACK_TO] constraint. *)
Record Constraint := mkConstraint {
  target : option ObjId;
  track_axis : TrackAxis;
  up_axis : UpAxis
}.

Record Object := mkObject {
  obj_name : string;
  obj_data : ObjData;
  location : Vector;
  rotation_euler : Vector;
  scale : Vector;
  matrix_world : Matrix;
  obj_select : bool;
  modifiers : list Modifier;
  constraints : list Constraint
}.

(** [obj.type] is fixed by the kind of data the object carries. *)
Definition obj_type (o : Object) : ObjType :=
  match obj_data o with
  | MeshData _ => MESH
  | CameraData => CAMERA
  | LightData => LIGHT
  | NoData => EMPTY
  | ArmatureData => ARMATURE
  end.

#[global] Instance ObjType_eq_dec : EqDecision ObjType.
Proof. solve_decision. Defined.

#[global] Instance NodeType_eq_dec : EqDecision NodeType.
Proof. solve_decision. Defined.

(** ** The world: Blender, the file system, standard output *)

Inductive Mode := OBJECT | EDIT.

Inductive SelectAction := SELECT | DESELECT.

(** Lines printed by the script. *)
Inductive LogMsg :=
| MsgNoMeshToMerge
| MsgWithinTarget (initial : nat) (target : Z)
| MsgReduced (initial final : nat)
| MsgNoMaterials
| MsgRendered (image_path : string)
| MsgExported (output_filepath : string)
| MsgNoGlb
| MsgProcessing (glb_file : string)
| MsgSkipping (glb_file : string).

(** What one [bpy.ops.render.render] call was asked for: where the scene
    camera stands, where the target of its tracking constraint stands, and
    the file the still goes to. *)
Record RenderRequest := mkRenderRequest {
  camera_location : option Vector;
  look_at : option Vector;
  output_path : string
}.

(** History of the Blender operators and host edits that were run; a ghost
    record used to count passes. *)
Inductive HostCall :=
| CallImport (filepath : string)
| CallJoin
| CallDecimate (decimate_type : DecimateType) (ratio : Q) (triangulate : bool)
| CallRemoveDoubles (threshold : Q)
| CallRender (req : RenderRequest).

Record State := mkState {
  st_objects : list (ObjId * Object);
  st_active : option ObjId;
  st_mode : Mode;
  st_materials : gmap MatId Material;
  st_camera : option ObjId;
  st_filepath : string;
  st_dirs : gset string;
  st_files : gmap string string;
  st_stdout : list LogMsg;
  st_calls : list HostCall
}.

(** ** Exceptions and the monad of the script *)

Inductive Exc :=
  TypeError | OSError | RuntimeError | ValueError | AttributeError | ReferenceError
| ZeroDivisionError.

Inductive Outcome (A : Type) :=
| Ret (a : A)
| Raise (e : Exc).
Arguments Ret {A} a.
Arguments Raise {A} e.

Definition M (A : Type) : Type := State -> Outcome A * State.

Definition ret {A} (a : A) : M A := fun s => (Ret a, s).
Definition raise {A} (e : Exc) : M A := fun s => (Raise e, s).
Definition bind {A B} (k : A -> M B) (c : M A) : M B :=
  fun s => match c s with
           | (Ret a, s') => k a s'
           | (Raise e, s') => (Raise e, s')
           end.
Definition get : M State := fun s => (Ret s, s).
Definition modify (f : State -> State) : M unit := fun s => (Ret tt, f s).

#[global] Instance M_ret : MRet M := @ret.
#[global] Instance M_bind : MBind M := @bind.

(** [for x in xs: body x]; an exception leaves the loop. *)
Fixpoint for_each {A} (xs : list A) (body : A -> M unit) : M unit :=
  match xs with
  | [] => ret tt
  | x :: rest => body x ;; for_each rest body
  end.

(** ** Reading and updating the state *)

Definition set_objects (f : list (ObjId * Object) -> list (ObjId * Object)) (s : State) : State :=
  mkState (f (st_objects s)) (st_active s) (st_mode s) (st_materials s) (st_camera s)
          (st_filepath s) (st_dirs s) (st_files s) (st_stdout s) (st_calls s).
Definition set_active (a : option ObjId) (s : State) : State :=
  mkState (st_objects s) a (st_mode s) (st_materials s) (st_camera s)
          (st_filepath s) (st_dirs s) (st_files s) (st_stdout s) (st_calls s).
Definition set_mode (m : Mode) (s : State) : State :=
  mkState (st_objects s) (st_active s) m (st_materials s) (st_camera s)
          (st_filepath s) (st_dirs s) (st_files s) (st_stdout s) (st_calls s).
Definition set_materials (f : gmap MatId Material -> gmap MatId Material) (s : State) : State :=
  mkState (st_objects s) (st_active s) (st_mode s) (f (st_materials s)) (st_camera s)
          (st_filepath s) (st_dirs s) (st_files s) (st_stdout s) (st_calls s).
Definition set_camera (c : option ObjId) (s : State) : State :=
  mkState (st_objects s) (st_active s) (st_mode s) (st_materials s) c
          (st_filepath s) (st_dirs s) (st_files s) (st_stdout s) (st_calls s).
Definition set_filepath (p : string) (s : State) : State :=
  mkState (st_objects s) (st_active s) (st_mode s) (st_materials s) (st_camera s)
          p (st_dirs s) (st_files s) (st_stdout s) (st_calls s).
Definition add_dir (d : string) (s : State) : State :=
  mkState (st_objects s) (st_active s) (st_mode s) (st_materials s) (st_camera s)
          (st_filepath s) ({[ d ]} ∪ st_dirs s) (st_files s) (st_stdout s) (st_calls s).
Definition write_file (p content : string) (s : State) : State :=
  mkState (st_objects s) (st_active s) (st_mode s) (st_materials s) (st_camera s)
          (st_filepath s) (st_dirs s) (<[ p := content ]> (st_files s)) (st_stdout s) (st_calls s).
Definition add_stdout (m : LogMsg) (s : State) : State :=
  mkState (st_objects s) (st_active s) (st_mode s) (st_materials s) (st_camera s)
          (st_filepath s) (st_dirs s) (st_files s) (st_stdout s ++ [m]) (st_calls s).
Definition add_call (c : HostCall) (s : State) : State :=
  mkState (st_objects s) (st_active s) (st_mode s) (st_materials s) (st_camera s)
          (st_filepath s) (st_dirs s) (st_files s) (st_stdout s) (st_calls s ++ [c]).

(** The builtin [print]. *)
Definition print (m : LogMsg) : M unit := modify (add_stdout m).

(** Dereference an object handle. *)
Fixpoint find_object (objs : list (ObjId * Object)) (i : ObjId) : option Object :=
  match objs with
  | [] => None
  | (j, o) :: rest => if Nat.eqb i j then Some o else find_object rest i
  end.

Fixpoint update_object (f : Object -> Object) (i : ObjId)
    (objs : list (ObjId * Object)) : list (ObjId * Object) :=
  match objs with
  | [] => []
  | (j, o) :: rest =>
      if Nat.eqb i j then (j, f o) :: rest else (j, o) :: update_object f i rest
  end.

Definition remove_object (i : ObjId) (objs : list (ObjId * Object)) : list (ObjId * Object) :=
  filter (fun p => negb (Nat.eqb i (fst p))) objs.

(** The names of the objects of a scene, in scene order. *)
Definition object_names (objs : list (ObjId * Object)) : list string :=
  map (fun p => obj_name (snd p)) objs.

(** Reading an attribute of an object through its handle; a handle whose
    object was removed raises [ReferenceError]. *)
Definition deref (i : ObjId) : M Object :=
  fun s => match find_object (st_objects s) i with
           | Some o => (Ret o, s)
           | None => (Raise ReferenceError, s)
           end.

Definition with_data (d : ObjData) (o : Object) : Object :=
  mkObject (obj_name o) d (location o) (rotation_euler o) (scale o)
           (matrix_world o) (obj_select o) (modifiers o) (constraints o).
Definition with_name (n : string) (o : Object) : Object :=
  mkObject n (obj_data o) (location o) (rotation_euler o) (scale o)
           (matrix_world o) (obj_select o) (modifiers o) (constraints o).
Definition with_location (l : Vector) (o : Object) : Object :=
  mkObject (obj_name o) (obj_data o) l (rotation_euler o) (scale o)
           (matrix_world o) (obj_select o) (modifiers o) (constraints o).
Definition with_select (b : bool) (o : Object) : Object :=
  mkObject (obj_name o) (obj_data o) (location o) (rotation_euler o) (scale o)
           (matrix_world o) b (modifiers o) (constraints o).
Definition with_modifiers (f : list Modifier -> list Modifier) (o : Object) : Object :=
  mkObject (obj_name o) (obj_data o) (location o) (rotation_euler o) (scale o)
           (matrix_world o) (obj_select o) (f (modifiers o)) (constraints o).
Definition with_constraints (f : list Constraint -> list Constraint) (o : Object) : Object :=
  mkObject (obj_name o) (obj_data o) (location o) (rotation_euler o) (scale o)
           (matrix_world o) (obj_select o) (modifiers o) (f (constraints o)).

Definition with_geom (g : Geometry) (m : Mesh) : Mesh :=
  mkMesh g (materials m) (mesh_selected m).
Definition with_selected (sel : list nat) (m : Mesh) : Mesh :=
  mkMesh (mesh_geom m) (materials m) sel.
Definition with_materials (f : list (option MatId) -> list (option MatId)) (m : Mesh) : Mesh :=
  mkMesh (mesh_geom m) (f (materials m)) (mesh_selected m).

(** Edit the mesh datablock of an object; other data is left alone. *)
Definition on_mesh (f : Mesh -> Mesh) (o : Object) : Object :=
  match obj_data o with
  | MeshData m => with_data (MeshData (f m)) o
  | _ => o
  end.

(** Handles mentioned by the constraints of an object. *)
Definition constraint_targets (o : Object) : list ObjId :=
  omap target (constraints o).

Definition option_to_list {A} (o : option A) : list A :=
  match o with Some a => [a] | None => [] end.

(** A handle no object of the state has and nothing in the state mentions. *)
Definition fresh_object_id (s : State) : ObjId :=
  S (max_list (map fst (st_objects s)
               ++ concat (map (fun p => constraint_targets (snd p)) (st_objects s))
               ++ option_to_list (st_active s)
               ++ option_to_list (st_camera s))).

Definition fresh_material_id (mats : gmap MatId Material) : MatId :=
  fresh (dom mats).

Definition fresh_modifier_id (mods : list Modifier) : ModId :=
  S (max_list (map mod_id mods)).

Definition zero_vector : Vector := mkVector 0 0 0.
Definition one_vector : Vector := mkVector 1 1 1.

(** [bpy.data.objects.new(name, data)]: a new object at the origin,
    not yet linked. *)
Definition new_object (name : string) (data : ObjData) : Object :=
  mkObject name data zero_vector zero_vector one_vector identity_matrix false [] [].

(** ** JSON documents and [json.dump]

    The text of a file is a [string]; the encoder and the reader work on
    its characters. *)

Definition text := list ascii.

(** A Python value as [json.dump] meets it here: [str], [int], [float],
    [list], and [dict] with [str] keys in insertion order. *)
#[warnings="-register-all"]
Inductive json :=
| JStr (s : string)
| JInt (z : Z)
| JFloat (x : pyfloat)
| JList (l : list json)
| JDict (d : list (string * json)).

Definition chars (s : string) : text := list_ascii_of_string s.

Definition digit_char (d : Z) : ascii := ascii_of_nat (48 + Z.to_nat (d mod 10)).

(** The [n] low decimal digits of [a], most significant first. *)
Fixpoint low_digits (n : nat) (a : Z) : text :=
  match n with
  | O => []
  | S n' => low_digits n' (a / 10) ++ [digit_char a]
  end.

(** [repr] of an [int]. *)
Definition int_repr (z : Z) : text := chars (NilZero.string_of_int (Z.to_int z)).

(** [q * b ** z], for an exponent of either sign. *)
Definition times_power (b : Z) (q : Q) (z : Z) : Q :=
  if (0 <=? z)%Z then (q * inject_Z (b ^ z))%Q else (q / inject_Z (b ^ (- z)))%Q.

Definition scale2 (q : Q) (z : Z) : Q := times_power 2 q z.
Definition scale10 (q : Q) (z : Z) : Q := times_power 10 q z.

(** The least [j] from [j] on, within [fuel] steps, that passes [test]. *)
Fixpoint least_from (fuel : nat) (test : Z -> bool) (j : Z) : Z :=
  match fuel with
  | O => j
  | S fuel' => if test j then j else least_from fuel' test (j + 1)%Z
  end.

(** The decimal exponent of a positive rational [a/b]: the [e] with
    [10 ** e <= a/b < 10 ** (e + 1)]. *)
Definition exponent10 (q : Q) : Z :=
  let a := Qnum q in
  let b := Z.pos (Qden q) in
  if (b <=? a)%Z
  then least_from (Z.to_nat (Z.log2 a)) (fun j => (a <? b * 10 ^ (j + 1))%Z) 0
  else (- least_from (Z.to_nat (Z.log2 b)) (fun j => (b <=? a * 10 ^ j)%Z) 1)%Z.

(** The binary exponent of a positive rational [a/b]: the [e] with
    [2 ** e <= a/b < 2 ** (e + 1)]. *)
Definition exponent2 (q : Q) : Z :=
  let e := (Z.log2 (Qnum q) - Z.log2 (Z.pos (Qden q)))%Z in
  if Qle_bool (scale2 1 e) q then e else (e - 1)%Z.

(** The float nearest to a positive rational, ties to even: a double has
    53 significant bits and no binary exponent below [-1022].  The
    exponent is not bounded above: a rational beyond the largest double,
    where Python has [inf], is not met among the numbers of a scene, which
    are single precision. *)
Definition nearest_float (q : Q) : Q :=
  let z := (52 - Z.max (exponent2 q) (-1022))%Z in
  scale2 (inject_Z (round_half_even (scale2 q z))) (- z).

Definition is_integral (q : Q) : bool := (Qnum q mod Z.pos (Qden q) =? 0)%Z.

(** The integer part of a rational, rounded down. *)
Definition int_part (q : Q) : Z := (Qnum q / Z.pos (Qden q))%Z.

(** Whether the decimal [j * 10 ** (e + 1 - n)] reads as the float [d]. *)
Definition reads_as (d : Q) (e : Z) (n : nat) (j : Z) : bool :=
  Qeq_bool (nearest_float (scale10 (inject_Z j) (e + 1 - Z.of_nat n))) d.

(** The decimals of [n] significant digits that read as the float [d],
    nearest to the rational [q] and of decimal exponent [e], as integers
    in units of [10 ** (e + 1 - n)]: of the two decimals of [n] digits
    next to [d] those that read as [d], and [q] itself when [n] digits
    write it. *)
Definition candidates (q d : Q) (e : Z) (n : nat) : list Z :=
  let z := (Z.of_nat n - e - 1)%Z in
  let lo := int_part (scale10 d z) in
  List.filter (fun j => (10 ^ Z.of_nat (n - 1) <=? j)%Z && (j <=? 10 ^ Z.of_nat n)%Z
                        && reads_as d e n j)
              [lo; (lo + 1)%Z]
  ++ (if is_integral (scale10 q z) then [int_part (scale10 q z)] else []).

(** Of two integers the one nearer to [x], the even one when both are
    as near. *)
Definition nearer (x : Q) (j k : Z) : Z :=
  match (Qabs (inject_Z j - x) ?= Qabs (inject_Z k - x))%Q with
  | Lt => j
  | Gt => k
  | Eq => if Z.even j then j else k
  end.

Definition closest (x : Q) (cs : list Z) : option Z :=
  match cs with
  | [] => None
  | c :: rest => Some (fold_left (nearer x) rest c)
  end.

(** The shortest decimal that reads as the float [d], the nearest to [d]
    among the shortest: its digits as an integer and their count, from
    [n] digits on; with seventeen digits every float is told from its
    neighbours. *)
Fixpoint shortest_from (fuel n : nat) (q d : Q) (e : Z) : Z * nat :=
  match fuel with
  | O => (round_half_even (scale10 d (Z.of_nat n - e - 1)), n)
  | S fuel' =>
      match closest (scale10 d (Z.of_nat n - e - 1)) (candidates q d e n) with
      | Some j => (j, n)
      | None => shortest_from fuel' (S n) q d e
      end
  end.

(** The count of trailing decimal zeros of [m], at most [fuel]. *)
Fixpoint trailing_zeros (fuel : nat) (m : Z) : nat :=
  match fuel with
  | O => O
  | S fuel' => if (m mod 10 =? 0)%Z then S (trailing_zeros fuel' (m / 10)) else O
  end.

(** The exponent of the exponent notation: a sign and at least two
    digits. *)
Definition exponent_repr (e : Z) : text :=
  (if (e <? 0)%Z then "-"%char else "+"%char)
    :: (if (Z.abs e <? 10)%Z then ["0"%char] else []) ++ int_repr (Z.abs e).

(** The decimal [j * 10 ** (e + 1 - n)] as [repr] writes it, [j] having
    [n] digits, or being [10 ** n]: without trailing zeros, in fixed
    notation with at least one fractional digit when its decimal exponent
    is at least [-4] and below [16], in exponent notation otherwise. *)
Definition decimal_repr (j : Z) (n : nat) (e : Z) : text :=
  let wide := (10 ^ Z.of_nat n <=? j)%Z in
  let e' := if wide then (e + 1)%Z else e in
  let digits := if wide then S n else n in
  let p := Z.to_nat (Z.of_nat n - e - 1) in
  let tz := trailing_zeros (p + 17) j in
  if ((-4 <=? e') && (e' <? 16))%Z
  then
    let nfrac := Nat.max 1 (p - tz) in
    int_repr (j * 10 ^ Z.max 0 (e + 1 - Z.of_nat n) / 10 ^ Z.of_nat p)
      ++ "."%char :: low_digits nfrac (j * 10 ^ Z.of_nat (nfrac - p) / 10 ^ Z.of_nat (p - nfrac))
  else
    let rest := (digits - 1 - tz)%nat in
    int_repr (j / 10 ^ Z.of_nat (digits - 1))
      ++ (match rest with
          | O => []
          | _ => "."%char :: low_digits rest (j / 10 ^ Z.of_nat (digits - 1 - rest))
          end)
      ++ "e"%char :: exponent_repr e'.

(** [repr] of the float nearest to a positive rational. *)
Definition positive_repr (q : Q) : text :=
  let d := nearest_float q in
  let e := exponent10 d in
  let '(j, n) := shortest_from 16 1 q d e in
  decimal_repr j n e.

(** [repr] of a [float], which is what [json.dump] writes for it: of a
    rational, [repr] of the float nearest to it. *)
Definition float_repr (x : pyfloat) : text :=
  match x with
  | NegZero => chars "-0.0"
  | Finite q =>
      if (Qnum q =? 0)%Z then chars "0.0"
      else (if (Qnum q <? 0)%Z then ["-"%char] else []) ++ positive_repr (Qabs q)
  end.

(** One hexadecimal digit, lower case. *)
Definition hex_char (n : nat) : ascii := nth n (chars "0123456789abcdef") "0"%char.

(** [json.encoder.py_encode_basestring_ascii] on one character of a
    [str]: the quote, the backslash and every character outside
    [' '..'~'] are escaped.  A character of a [string] stands for the
    code point of its number, below 256. *)
Definition escape_char (c : ascii) : text :=
  let n := nat_of_ascii c in
  if Ascii.eqb c "034"%char then chars "\" ++ ["034"%char]
  else if Ascii.eqb c "\"%char then chars "\\"
  else if Ascii.eqb c "008"%char then chars "\b"
  else if Ascii.eqb c "012"%char then chars "\f"
  else if Ascii.eqb c "010"%char then chars "\n"
  else if Ascii.eqb c "013"%char then chars "\r"
  else if Ascii.eqb c "009"%char then chars "\t"
  else if (n <? 32)%nat || (126 <? n)%nat
       then chars "\u00" ++ [hex_char (n / 16); hex_char (n mod 16)]
       else [c].

Fixpoint escape (s : text) : text :=
  match s with
  | [] => []
  | c :: rest => escape_char c ++ escape rest
  end.

Definition encode_string (s : string) : text :=
  "034"%char :: escape (chars s) ++ ["034"%char].

(** A line break followed by [indent * level] spaces, [indent = 4]. *)
Definition newline_indent (level : nat) : text :=
  "010"%char :: repeat " "%char (4 * level).

Fixpoint join_text (sep : text) (parts : list text) : text :=
  match parts with
  | [] => []
  | [p] => p
  | p :: rest => p ++ sep ++ join_text sep rest
  end.

(** The encoder of [json.dump(data, f, indent=4)]: item separator [","],
    key separator [": "]. *)
Fixpoint encode (level : nat) (v : json) : text :=
  match v with
  | JStr s => encode_string s
  | JInt z => int_repr z
  | JFloat x => float_repr x
  | JList [] => chars "[]"
  | JList l =>
      "["%char :: newline_indent (S level)
        ++ join_text (","%char :: newline_indent (S level)) (map (encode (S level)) l)
        ++ newline_indent level ++ ["]"%char]
  | JDict [] => chars "{}"
  | JDict d =>
      "{"%char :: newline_indent (S level)
        ++ join_text (","%char :: newline_indent (S level))
             (map (fun kv => encode_string (fst kv) ++ chars ": " ++ encode (S level) (snd kv)) d)
        ++ newline_indent level ++ ["}"%char]
  end.

Definition dumps (v : json) : string := string_of_list_ascii (encode 0 v).

(** ** The host

    What Blender and the operating system compute for the script. *)

Class Host := {
  (** The glTF importer: the objects it creates for a file and the material
      store after the import, or nothing when the file cannot be read. *)
  gltf_import : string -> State -> option (list Object * gmap MatId Material);
  (** The mesh the join operator leaves in the active object, from the
      active object and the other selected mesh objects. *)
  join_meshes : Object -> list Object -> Mesh;
  (** The Decimate modifier, applied. *)
  decimate : DecimateType -> Q -> bool -> Geometry -> Geometry;
  (** Merge-by-distance on the selected vertices. *)
  remove_doubles : Q -> list nat -> Geometry -> Geometry;
  (** The rendered still. *)
  rasterize : State -> string;
  (** Whether a directory can be created at a path; whether a file can be
      opened for writing at a path and written to the end. *)
  can_write : string -> bool;
  (** For a file that cannot be written to the end: how many characters
      reach it before the write fails, or nothing when it cannot even be
      opened. *)
  partial_write : string -> option nat;
  (** The name Blender gives a new object, material or modifier asked to
      be called by a name while the names of a list are taken: names are
      unique, a taken name gets a numeric suffix. *)
  unique_name : list string -> string -> string;
  (** [glob.glob], [os.path.join], [os.path.basename], [os.path.splitext]. *)
  glob : string -> list string;
  path_join : string -> string -> string;
  path_basename : string -> string;
  path_splitext : string -> string * string;
  (** [math.radians], [math.cos], [math.sin]. *)
  math_radians : Q -> Q;
  math_cos : Q -> Q;
  math_sin : Q -> Q
}.

(** ** The script *)

Section Pipeline.

Context {host : Host}.

(** *** Operators and data API used by the script

    Operators act on the context: the active object and the mode.  An
    operator whose poll fails raises [RuntimeError].  Only the active
    object is taken to be in edit mode. *)

(** [bpy.ops.object.select_all(action=...)] *)
Definition ops_object_select_all (action : SelectAction) : M unit :=
  s ← get;
  match st_mode s with
  | OBJECT =>
      modify (set_objects (map (fun p =>
        (fst p, with_select (match action with SELECT => true | DESELECT => false end) (snd p)))))
  | EDIT => raise RuntimeError
  end.

(** Pointers to objects that are gone are cleared. *)
Definition clear_pointer (objs : list (ObjId * Object)) (p : option ObjId) : option ObjId :=
  match p with
  | Some i => match find_object objs i with Some _ => Some i | None => None end
  | None => None
  end.

Definition clear_pointers (s : State) : State :=
  set_camera (clear_pointer (st_objects s) (st_camera s))
    (set_active (clear_pointer (st_objects s) (st_active s)) s).

(** [bpy.ops.object.delete()]: the selected objects go. *)
Definition ops_object_delete : M unit :=
  s ← get;
  match st_mode s with
  | OBJECT =>
      modify (fun s => clear_pointers (set_objects (filter (fun p => negb (obj_select (snd p)))) s))
  | EDIT => raise RuntimeError
  end.

(** A new object enters the scene under a fresh handle. *)
Definition add_object (o : Object) : M ObjId :=
  fun s => let i := fresh_object_id s in
           (Ret i, set_objects (fun l => l ++ [(i, o)]) s).

(** [bpy.data.objects.new(name, data)].  [st_objects] stands for both
    [bpy.data.objects] and [scene.objects]: the script links every
    object it creates before anything reads either collection, so the
    link that follows has nothing left to do. *)
Definition data_objects_new (name : string) (data : ObjData) : M ObjId :=
  s ← get;
  add_object (new_object (unique_name (object_names (st_objects s)) name) data).


(** [bpy.context.collection.objects.link(obj)] *)
Definition collection_objects_link (obj : ObjId) : M unit := mret tt.

(** [bpy.data.objects.remove(obj, do_unlink=True)] *)
Definition data_objects_remove (obj : ObjId) : M unit :=
  _ ← deref obj;
  modify (fun s => clear_pointers (set_objects (remove_object obj) s)).

(** Assignment to an attribute of an object. *)
Definition set_attr (obj : ObjId) (f : Object -> Object) : M unit :=
  _ ← deref obj;
  modify (set_objects (update_object f obj)).

(** [obj.name = name]: the name asked for, unless another object has
    it. *)
Definition set_name (obj : ObjId) (name : string) : M unit :=
  s ← get;
  set_attr obj (with_name (unique_name (object_names (remove_object obj (st_objects s))) name)).

(** [bpy.ops.object.mode_set(mode=...)] *)
Definition ops_object_mode_set (mode : Mode) : M unit :=
  s ← get;
  match st_active s with
  | None => raise RuntimeError
  | Some a =>
      o ← deref a;
      match mode, obj_data o with
      | EDIT, MeshData _ => modify (set_mode EDIT)
      | EDIT, _ => raise TypeError
      | OBJECT, _ => modify (set_mode OBJECT)
      end
  end.

(** The active object when the context is edit mode on a mesh. *)
Definition edit_mesh_poll : M ObjId :=
  s ← get;
  match st_mode s, st_active s with
  | EDIT, Some a => mret a
  | _, _ => raise RuntimeError
  end.

(** [bpy.ops.mesh.select_mode(type="VERT")] *)
Definition ops_mesh_select_mode_VERT : M unit :=
  _ ← edit_mesh_poll; mret tt.

(** [bpy.ops.mesh.select_all(action=...)] *)
Definition ops_mesh_select_all (action : SelectAction) : M unit :=
  a ← edit_mesh_poll;
  modify (set_objects (update_object (on_mesh (fun m =>
    with_selected (match action with
                   | SELECT => seq 0 (length (vertices (mesh_geom m)))
                   | DESELECT => []
                   end) m)) a)).

(** [bmesh.from_edit_mesh(obj.data)]: the mesh must be in edit mode.
    Edits go to the mesh datablock directly; the flush on leaving edit
    mode is not modelled apart. *)
Definition bmesh_from_edit_mesh (obj : ObjId) : M Mesh :=
  s ← get;
  o ← deref obj;
  match obj_data o, st_mode s with
  | MeshData m, EDIT =>
      if bool_decide (st_active s = Some obj) then mret m else raise ValueError
  | MeshData m, OBJECT => raise ValueError
  | _, _ => raise TypeError
  end.

(** The [ratio] property of a Decimate modifier is clamped to [0, 1]. *)
Definition clamp01 (q : Q) : Q :=
  if Qle_bool q 0 then 0%Q else if Qle_bool 1 q then 1%Q else q.

(** [obj.modifiers.new(name=..., type='DECIMATE')]: appended to the
    stack with the defaults of the modifier, under the name asked for
    unless a modifier of the stack has it. *)
Definition modifiers_new_DECIMATE (obj : ObjId) (name : string) : M ModId :=
  o ← deref obj;
  let i := fresh_modifier_id (modifiers o) in
  let name := unique_name (map mod_name (modifiers o)) name in
  set_attr obj (with_modifiers (fun l => l ++ [mkModifier i name (DECIMATE COLLAPSE 1 false)])) ;;
  mret i.

Definition update_modifier (f : ModifierKind -> ModifierKind) (i : ModId)
    (l : list Modifier) : list Modifier :=
  map (fun m => if Nat.eqb (mod_id m) i then mkModifier (mod_id m) (mod_name m) (f (mod_kind m)) else m) l.

(** [decimate_mod.ratio = r] *)
Definition set_ratio (obj : ObjId) (i : ModId) (r : Q) : M unit :=
  set_attr obj (with_modifiers (update_modifier (fun k =>
    match k with DECIMATE t _ tri => DECIMATE t (clamp01 r) tri | _ => k end) i)).

(** [decimate_mod.use_collapse_triangulate = b] *)
Definition set_use_collapse_triangulate (obj : ObjId) (i : ModId) (b : bool) : M unit :=
  set_attr obj (with_modifiers (update_modifier (fun k =>
    match k with DECIMATE t r _ => DECIMATE t r b | _ => k end) i)).

(** [bpy.ops.object.modifier_apply(modifier=decimate_mod.name)].  The
    names of a modifier stack are unique, so the modifier found under
    the name of [decimate_mod] is [decimate_mod]; it is looked up by
    its handle on the active object. *)
Definition ops_object_modifier_apply (i : ModId) : M unit :=
  s ← get;
  match st_mode s, st_active s with
  | OBJECT, Some a =>
      o ← deref a;
      match List.find (fun m => Nat.eqb (mod_id m) i) (modifiers o) with
      | None => raise RuntimeError
      | Some m =>
          match mod_kind m with
          | DECIMATE t r tri =>
              modify (set_objects (update_object (on_mesh (fun me =>
                with_geom (decimate t r tri (mesh_geom me)) me)) a)) ;;
              modify (add_call (CallDecimate t r tri))
          | OTHER_MODIFIER => mret tt
          end ;;
          modify (set_objects (update_object (with_modifiers
            (filter (fun m => negb (Nat.eqb (mod_id m) i)))) a))
      end
  | _, _ => raise RuntimeError
  end.

(** [bpy.ops.mesh.remove_doubles(threshold=...)]; what stays selected
    afterwards is left to Blender and never read. *)
Definition ops_mesh_remove_doubles (threshold : Q) : M unit :=
  a ← edit_mesh_poll;
  modify (set_objects (update_object (on_mesh (fun m =>
    with_geom (remove_doubles threshold (mesh_selected m) (mesh_geom m)) m)) a)) ;;
  modify (add_call (CallRemoveDoubles threshold)).

(** [bpy.ops.import_scene.gltf(filepath=...)] *)
Definition ops_import_scene_gltf (filepath : string) : M unit :=
  s ← get;
  match gltf_import filepath s with
  | None => raise RuntimeError
  | Some (objs, mats) =>
      for_each objs (fun o => _ ← add_object o; mret tt) ;;
      modify (set_materials (fun _ => mats)) ;;
      modify (add_call (CallImport filepath))
  end.

(** [bpy.ops.object.join()]: the other selected mesh objects are merged
    into the active one and removed.  With nothing else selected the
    operator is cancelled with a warning and changes nothing. *)
Definition ops_object_join : M unit :=
  s ← get;
  match st_mode s, st_active s with
  | OBJECT, Some a =>
      o ← deref a;
      let others := filter (fun p => obj_select (snd p)
                                      && bool_decide (obj_type (snd p) = MESH)
                                      && negb (Nat.eqb (fst p) a)) (st_objects s) in
      match obj_data o, others with
      | MeshData _, _ :: _ =>
          modify (set_objects (fun l =>
            filter (fun p => negb (bool_decide (fst p ∈ map fst others)))
                   (update_object (with_data (MeshData (join_meshes o (map snd others)))) a l))) ;;
          modify clear_pointers ;;
          modify (add_call CallJoin)
      | MeshData _, [] => mret tt
      | _, _ => raise RuntimeError
      end
  | _, _ => raise RuntimeError
  end.

(** The vertices, edges and single face of the plane primitive of a
    given size. *)
Definition plane_geometry (size : Q) : Geometry :=
  let h := (size / 2)%Q in
  mkGeometry [mkVector (- h) (- h) 0; mkVector h (- h) 0; mkVector (- h) h 0; mkVector h h 0]
             [(2, 0); (0, 1); (1, 3); (3, 2)]%nat
             [[0; 1; 3; 2]%nat].

(** [bpy.ops.mesh.primitive_plane_add(size=..., location=...)] in object
    mode: the new plane is the only selected object and the active one.
    (In edit mode the operator extends the edited mesh; that use is not
    modelled and is rejected.) *)
Definition ops_mesh_primitive_plane_add (size : Q) (loc : Vector) : M unit :=
  s ← get;
  match st_mode s with
  | OBJECT =>
      ops_object_select_all DESELECT ;;
      plane ← data_objects_new "Plane" (MeshData (mkMesh (plane_geometry size) [] [])) ;
      set_attr plane (fun o => with_select true (with_location loc o)) ;;
      modify (set_active (Some plane))
  | EDIT => raise RuntimeError
  end.

(** The names of the materials of the store. *)
Definition material_names (mats : gmap MatId Material) : list string :=
  map (fun kv => mat_name (snd kv)) (map_to_list mats).

(** [bpy.data.materials.new(name=...)]: the material gets the name asked
    for unless a material of the store has it. *)
Definition data_materials_new (name : string) : M MatId :=
  fun s => let i := fresh_material_id (st_materials s) in
           let name := unique_name (material_names (st_materials s)) name in
           (Ret i, set_materials (insert i (mkMaterial name false None (mkRGBA (8 # 10) (8 # 10) (8 # 10) 1))) s).

(** Reading a material through its handle. *)
Definition deref_material (mat : MatId) : M Material :=
  fun s => match st_materials s !! mat with
           | Some m => (Ret m, s)
           | None => (Raise ReferenceError, s)
           end.

Definition set_material (mat : MatId) (f : Material -> Material) : M unit :=
  m ← deref_material mat;
  modify (set_materials (insert mat (f m))).

Definition with_diffuse_color (c : RGBA) (m : Material) : Material :=
  mkMaterial (mat_name m) (use_nodes m) (node_tree m) c.
Definition with_node_tree (f : NodeTree -> NodeTree) (m : Material) : Material :=
  mkMaterial (mat_name m) (use_nodes m) (option_map f (node_tree m)) (diffuse_color m).

(** [nodes.remove(node)]: the node goes, with the links attached to it. *)
Definition nodes_remove (node : Node) (t : NodeTree) : NodeTree :=
  mkNodeTree
    (filter (fun n => negb (String.eqb (node_name n) (node_name node))) (nodes t))
    (filter (fun l => negb (String.eqb (fst l) (node_name node))
                      && negb (String.eqb (snd l) (node_name node))) (links t)).

(** [obj.constraints.new(type="TRACK_TO")]: appended, with the defaults
    of the constraint; the result is its position in the stack. *)
Definition constraints_new_TRACK_TO (obj : ObjId) : M nat :=
  o ← deref obj;
  set_attr obj (with_constraints (fun l => l ++ [mkConstraint None TRACK_Y UP_Z])) ;;
  mret (length (constraints o)).

Definition set_constraint (obj : ObjId) (i : nat) (f : Constraint -> Constraint) : M unit :=
  set_attr obj (with_constraints (fun l =>
    match l !! i with Some c => <[ i := f c ]> l | None => l end)).

(** [os.makedirs(path, exist_ok=True)].  [st_dirs] holds the directories
    the script made sure of, by the paths it asked for; the rest of the
    file system is the host's: whether a directory that is not among them
    can be made, with the parents it needs, is [can_write], and the
    parents made on the way, also those a failing call leaves behind, are
    not listed. *)
Definition os_makedirs (path : string) : M unit :=
  s ← get;
  if bool_decide (path ∈ st_dirs s) then mret tt
  else if can_write path then modify (add_dir path)
  else raise OSError.

(** [open(path, 'w')]: the file is created or truncated, also when a
    later write to it is going to fail. *)
Definition open_w (path : string) : M unit :=
  if can_write path then modify (write_file path "")
  else match partial_write path with
       | Some _ => modify (write_file path "")
       | None => raise OSError
       end.

(** The first [n] characters of a text, all of it when it has no more. *)
Definition first_chars (n : nat) (content : string) : string :=
  string_of_list_ascii (take n (list_ascii_of_string content)).

(** Everything written to a file opened with [open_w] until it is
    closed.  When the write fails, the characters that reached the file
    stay in it. *)
Definition file_write (path content : string) : M unit :=
  if can_write path then modify (write_file path content)
  else match partial_write path with
       | Some n => modify (write_file path (first_chars n content)) ;; raise OSError
       | None => raise OSError
       end.

(** The position of an object, through its handle. *)
Definition location_of (s : State) (i : ObjId) : option Vector :=
  option_map location (find_object (st_objects s) i).

(** The request a render of the current scene amounts to. *)
Definition render_request (s : State) : RenderRequest :=
  mkRenderRequest
    (i ← st_camera s; location_of s i)
    (i ← st_camera s; o ← find_object (st_objects s) i;
     c ← head (constraints o); t ← target c; location_of s t)
    (st_filepath s).

(** [bpy.ops.render.render(write_still=True)]: needs a scene camera;
    the still is written to [scene.render.filepath]. *)
Definition ops_render_render : M unit :=
  s ← get;
  match clear_pointer (st_objects s) (st_camera s) with
  | None => raise RuntimeError
  | Some _ =>
      if can_write (st_filepath s)
      then modify (write_file (st_filepath s) (rasterize s)) ;;
           modify (add_call (CallRender (render_request s)))
      else raise RuntimeError
  end.

(** *** The functions of [PreprossingBlender.py] *)

(** Deletes all objects in the Blender scene. *)
Definition clear_scene : M unit :=
  ops_object_select_all SELECT ;;
  ops_object_delete.

(** Imports a GLB file into Blender. *)
Definition import_glb (filepath : string) : M unit :=
  ops_import_scene_gltf filepath.

(** Merges all mesh objects in the scene into a single mesh. *)
Definition merge_all_meshes : M (option ObjId) :=
  ops_object_select_all DESELECT ;;
  s ← get;
  let mesh_objects :=
    map fst (filter (fun p => bool_decide (obj_type (snd p) = MESH)) (st_objects s)) in
  match mesh_objects with
  | [] =>
      print MsgNoMeshToMerge ;;
      mret None
  | first :: _ =>
      modify (set_active (Some first)) ;;
      for_each mesh_objects (fun obj => set_attr obj (with_select true)) ;;
      ops_object_join ;;
      s' ← get;
      mret (st_active s')
  end.

(** Reduces the number of vertices in the mesh object to the target
    count by merging vertices. *)
Definition reduce_vertices (obj : ObjId) (target_vertex_count : Z) : M unit :=
  o ← deref obj;
  if bool_decide (obj_type o ≠ MESH) then raise TypeError
  else
    ops_object_mode_set EDIT ;;
    ops_mesh_select_mode_VERT ;;
    ops_mesh_select_all DESELECT ;;
    bm ← bmesh_from_edit_mesh obj;
    let initial_vertex_count := length (vertices (mesh_geom bm)) in
    if (Z.of_nat initial_vertex_count <=? target_vertex_count)%Z then
      print (MsgWithinTarget initial_vertex_count target_vertex_count) ;;
      ops_object_mode_set OBJECT
    else
      decimate_ratio ←
        (if Nat.eqb initial_vertex_count 0 then raise ZeroDivisionError
         else mret (inject_Z target_vertex_count / inject_Z (Z.of_nat initial_vertex_count))%Q);
      ops_object_mode_set OBJECT ;;
      decimate_mod ← modifiers_new_DECIMATE obj "Decimate";
      set_ratio obj decimate_mod decimate_ratio ;;
      set_use_collapse_triangulate obj decimate_mod true ;;
      ops_object_modifier_apply decimate_mod ;;
      ops_object_mode_set EDIT ;;
      ops_mesh_select_all SELECT ;;
      ops_mesh_remove_doubles (1 # 10000) ;;
      bm ← bmesh_from_edit_mesh obj;
      let final_vertex_count := length (vertices (mesh_geom bm)) in
      ops_object_mode_set OBJECT ;;
      print (MsgReduced initial_vertex_count final_vertex_count).

Definition white : RGBA := mkRGBA 1 1 1 1.

(** The body of the loop over [obj.data.materials]. *)
Definition strip_material (slot : option MatId) : M unit :=
  match slot with
  | None => raise AttributeError
  | Some mat =>
      m ← deref_material mat;
      match use_nodes m, node_tree m with
      | true, Some tree =>
          for_each (nodes tree) (fun node =>
            if bool_decide (node_type node = TEX_IMAGE)
            then set_material mat (with_node_tree (nodes_remove node))
            else mret tt) ;;
          set_material mat (with_diffuse_color white)
      | _, _ => mret tt
      end
  end.

(** Removes image texture nodes from the object's materials. *)
Definition remove_textures (obj : ObjId) : M unit :=
  o ← deref obj;
  match obj_data o with
  | MeshData mesh =>
      match materials mesh with
      | [] => print MsgNoMaterials
      | slots => for_each slots strip_material
      end
  | _ => raise AttributeError
  end.

(** Adds a ground plane and a light source to the scene. *)
Definition add_plane_and_light : M (ObjId * ObjId) :=
  ops_mesh_primitive_plane_add 10 (mkVector 0 (-10) 0) ;;
  s ← get;
  match st_active s with
  | None => raise AttributeError
  | Some plane =>
      set_name plane "Ground_Plane" ;;
      mat ← data_materials_new "Plane_Mat";
      set_material mat (with_diffuse_color (mkRGBA 0 0 0 1)) ;;
      set_attr plane (on_mesh (with_materials (fun l => l ++ [Some mat]))) ;;
      light_obj ← data_objects_new "Sun" LightData;
      collection_objects_link light_obj ;;
      set_attr light_obj (with_location (mkVector 5 5 10)) ;;
      constraint ← constraints_new_TRACK_TO light_obj;
      empty_target ← data_objects_new "LightTarget" NoData;
      set_attr empty_target (with_location (mkVector 0 0 0)) ;;
      collection_objects_link empty_target ;;
      set_constraint light_obj constraint
        (fun c => mkConstraint (Some empty_target) (track_axis c) (up_axis c)) ;;
      set_constraint light_obj constraint
        (fun c => mkConstraint (target c) TRACK_NEGATIVE_Z (up_axis c)) ;;
      set_constraint light_obj constraint
        (fun c => mkConstraint (target c) (track_axis c) UP_Y) ;;
      mret (plane, light_obj)
  end.

(** Sets up a camera at the given location and points it toward the
    origin.  Returns the camera and its target. *)
Definition setup_camera (loc : Vector) : M (ObjId * ObjId) :=
  cam_obj ← data_objects_new "Camera" CameraData;
  collection_objects_link cam_obj ;;
  set_attr cam_obj (with_location loc) ;;
  tgt ← data_objects_new "Target" NoData;
  set_attr tgt (with_location (mkVector 0 0 0)) ;;
  collection_objects_link tgt ;;
  constraint ← constraints_new_TRACK_TO cam_obj;
  set_constraint cam_obj constraint
    (fun c => mkConstraint (Some tgt) (track_axis c) (up_axis c)) ;;
  set_constraint cam_obj constraint
    (fun c => mkConstraint (target c) TRACK_NEGATIVE_Z (up_axis c)) ;;
  set_constraint cam_obj constraint
    (fun c => mkConstraint (target c) (track_axis c) UP_Y) ;;
  mret (cam_obj, tgt).

(** The defaults of [render_image]: [distance=5], [height=2]. *)
Definition default_distance : Z := 5.
Definition default_height : Z := 2.

(** Where [render_image] puts the camera. *)
Definition camera_position (angle distance height : Z) : Vector :=
  let rad := math_radians (inject_Z angle) in
  let x := (inject_Z distance * math_cos rad)%Q in
  let y := (inject_Z distance * math_sin rad)%Q in
  let z := inject_Z height in
  mkVector x y z.

(** [f"{base_name}_{angle}.png"] *)
Definition image_name (base_name : string) (angle : Z) : string :=
  base_name +:+ "_" +:+ NilZero.string_of_int (Z.to_int angle) +:+ ".png".

(** Renders an image from a specific angle and saves it to output_dir.
    [distance] and [height] are [None] when the caller leaves them to
    their defaults. *)
Definition render_image (output_dir base_name : string) (angle : Z)
    (distance height : option Z) : M unit :=
  let distance := default default_distance distance in
  let height := default default_height height in
  s ← get;
  let original_filepath := st_filepath s in
  let loc := camera_position angle distance height in
  '(cam_obj, tgt) ← setup_camera loc;
  modify (set_camera (Some cam_obj)) ;;
  let image_path := path_join output_dir (image_name base_name angle) in
  modify (set_filepath image_path) ;;
  ops_render_render ;;
  data_objects_remove cam_obj ;;
  data_objects_remove tgt ;;
  modify (set_filepath original_filepath) ;;
  print (MsgRendered image_path).

(** [data[key].append(item)] on a dict whose value under [key] is a list. *)
Fixpoint dict_append (key : string) (item : json) (data : list (string * json))
    : list (string * json) :=
  match data with
  | [] => []
  | (k, v) :: rest =>
      if String.eqb key k
      then (k, match v with JList l => JList (l ++ [item]) | _ => v end) :: rest
      else (k, v) :: dict_append key item rest
  end.

Definition rounded_vector (v : Vector) : json :=
  JList [JFloat (round_float (vx v) 4); JFloat (round_float (vy v) 4);
         JFloat (round_float (vz v) 4)].

Definition index (i : nat) : json := JInt (Z.of_nat i).

(** The dict [data] of [export_to_json] when it is handed to [json.dump]. *)
Definition export_data (obj : Object) (mesh : Mesh) : list (string * json) :=
  let data :=
    [ ("n", JStr "airplane");
      ("l", rounded_vector (location obj));
      ("r", rounded_vector (rotation_euler obj));
      ("s", rounded_vector (scale obj));
      ("v", JList []);
      ("e", JList []);
      ("f", JList []) ] in
  let obj_matrix_world := matrix_world obj in
  let data :=
    foldl (fun data vert =>
             let world_coord := mat_vec obj_matrix_world vert in
             dict_append "v" (rounded_vector world_coord) data)
          data (vertices (mesh_geom mesh)) in
  let data :=
    foldl (fun data edge => dict_append "e" (JList [index (fst edge); index (snd edge)]) data)
          data (edges (mesh_geom mesh)) in
  let data :=
    foldl (fun data face => dict_append "f" (JList (map index face)) data)
          data (polygons (mesh_geom mesh)) in
  data.

(** Exports the mesh data of the object to a JSON file.
    ([mesh.calc_loop_triangles()] fills a cache the export never
    reads.) *)
Definition export_to_json (obj : ObjId) (output_filepath : string) : M unit :=
  o ← deref obj;
  match obj_data o with
  | MeshData mesh =>
      let data := export_data o mesh in
      open_w output_filepath ;;
      file_write output_filepath (dumps (JDict data)) ;;
      print (MsgExported output_filepath)
  | _ => raise AttributeError
  end.

(** The body of the loop of [process_glb_files] for one input file. *)
Definition process_glb_file (output_folder : string) (target_vertex_count render_angle : Z)
    (glb_file : string) : M unit :=
  print (MsgProcessing glb_file) ;;
  clear_scene ;;
  import_glb glb_file ;;
  merged_obj ← merge_all_meshes;
  match merged_obj with
  | None => print (MsgSkipping glb_file)
  | Some merged_obj =>
      reduce_vertices merged_obj target_vertex_count ;;
      remove_textures merged_obj ;;
      _ ← add_plane_and_light;
      let base_name := fst (path_splitext (path_basename glb_file)) in
      let model_folder := path_join output_folder base_name in
      os_makedirs model_folder ;;
      render_image model_folder base_name render_angle None None ;;
      let json_path := path_join model_folder (base_name +:+ ".json") in
      export_to_json merged_obj json_path
  end.

Definition process_glb_files (input_folder output_folder : string)
    (target_vertex_count render_angle : Z) : M unit :=
  os_makedirs output_folder ;;
  let glb_files := glob (path_join input_folder "*.glb") in
  match glb_files with
  | [] => print MsgNoGlb
  | _ => for_each glb_files (process_glb_file output_folder target_vertex_count render_angle)
  end.

(** *** Calling [process_glb_files]

    The signature is
    [process_glb_files(input_folder, output_folder, target_vertex_count, render_angle=45)]. *)

Inductive Value := VStr (s : string) | VInt (z : Z).

(** Parameter names with their defaults. *)
Definition process_glb_files_signature : list (string * option Value) :=
  [ ("input_folder", None);
    ("output_folder", None);
    ("target_vertex_count", None);
    ("render_angle", Some (VInt 45)) ].

Fixpoint lookup_name {A} (k : string) (l : list (string * A)) : option A :=
  match l with
  | [] => None
  | (k', v) :: rest => if String.eqb k k' then Some v else lookup_name k rest
  end.

(** Positional arguments take the leading parameters; too many is an
    error. *)
Fixpoint bind_positional (params : list string) (args : list Value)
    : option (list (string * Value)) :=
  match args, params with
  | [], _ => Some []
  | _ :: _, [] => None
  | a :: args', p :: params' =>
      env ← bind_positional params' args'; Some ((p, a) :: env)
  end.

(** Keyword arguments must name a parameter that is not bound yet. *)
Fixpoint bind_keywords (params : list string) (kwargs : list (string * Value))
    (env : list (string * Value)) : option (list (string * Value)) :=
  match kwargs with
  | [] => Some env
  | (k, v) :: rest =>
      if bool_decide (k ∈ params) then
        match lookup_name k env with
        | Some _ => None
        | None => bind_keywords params rest (env ++ [(k, v)])
        end
      else None
  end.

(** Parameters left unbound take their default; none is an error. *)
Fixpoint bind_defaults (sig : list (string * option Value)) (env : list (string * Value))
    : option (list (string * Value)) :=
  match sig with
  | [] => Some env
  | (p, dflt) :: rest =>
      match lookup_name p env, dflt with
      | Some _, _ => bind_defaults rest env
      | None, Some d => bind_defaults rest (env ++ [(p, d)])
      | None, None => None
      end
  end.

(** Argument binding of a Python call; [None] stands for the
    [TypeError] of a call that does not fit the signature. *)
Definition bind_arguments (sig : list (string * option Value))
    (args : list Value) (kwargs : list (string * Value)) : option (list (string * Value)) :=
  env ← bind_positional (map fst sig) args;
  env ← bind_keywords (map fst sig) kwargs env;
  bind_defaults sig env.

(** A call of [process_glb_files] with positional and keyword
    arguments.  Folders are strings
    and the count and the angle are integers; a value of another type is
    rejected here, where Python raises [TypeError] at its first use. *)
Definition call_process_glb_files (args : list Value) (kwargs : list (string * Value)) : M unit :=
  match bind_arguments process_glb_files_signature args kwargs with
  | None => raise TypeError
  | Some env =>
      match lookup_name "input_folder" env, lookup_name "output_folder" env,
            lookup_name "target_vertex_count" env, lookup_name "render_angle" env with
      | Some (VStr i), Some (VStr o), Some (VInt t), Some (VInt a) => process_glb_files i o t a
      | _, _, _, _ => raise TypeError
      end
  end.

(** The script's last lines. *)
Definition input_folder : string := "D://Studies//FinalYear//FYP//3D datasets//shapenet-sample".
Definition output_folder : string := "D://Studies//FinalYear//FYP//3D datasets//processed_models".
Definition target_vertices : Z := 2000.
Definition render_angle : Z := 45.

Definition main : M unit :=
  call_process_glb_files
    [VStr input_folder; VStr output_folder; VInt target_vertices; VInt render_angle] [].
End Pipeline.

(** ** Reading a JSON file back

    A reader for the texts [json.dump] writes.  It keeps every number as
    the characters it was written with, so that the text of a numeric
    field can be inspected after parsing. *)


Definition char_in (set : string) (c : ascii) : bool :=
  existsb (Ascii.eqb c) (chars set).


Definition is_num_char (c : ascii) : bool := char_in "+-.0123456789eE" c.















(** ** Notions the statements use *)

(** The geometry of the mesh an object carries. *)
Definition geometry_of (s : State) (i : ObjId) : option Geometry :=
  o ← find_object (st_objects s) i;
  match obj_data o with MeshData m => Some (mesh_geom m) | _ => None end.

(** The camera [setup_camera] creates, once its constraint is set, and
    its target, under the names Blender gave them. *)
Definition camera_object (name : string) (loc : Vector) (tgt : ObjId) : Object :=
  mkObject name CameraData loc zero_vector one_vector identity_matrix false []
           [mkConstraint (Some tgt) TRACK_NEGATIVE_Z UP_Y].

Definition target_object (name : string) : Object := new_object name NoData.

(** The state with a camera and its target appended to the scene. *)
Definition staged (s : State) (cam tgt : ObjId) (c t : Object) : State :=
  set_objects (fun l => l ++ [(cam, c); (tgt, t)]) s.

(** The state [render_image] renders: the camera and the target are in
    the scene, the camera is the scene camera, the file path is that of
    the still. *)
Definition shooting (s : State) (cam tgt : ObjId) (cam_name tgt_name : string) (loc : Vector)
    (image_path : string) : State :=
  set_filepath image_path
    (set_camera (Some cam)
       (staged s cam tgt (camera_object cam_name loc tgt) (target_object tgt_name))).


(** What the loop over the nodes of a tree leaves of it. *)
Definition strip_nodes (snapshot : list Node) (t : NodeTree) : NodeTree :=
  foldl (fun t node => if bool_decide (node_type node = TEX_IMAGE) then nodes_remove node t else t)
        t snapshot.

(** What the body of the loop over the materials leaves of a material. *)
Definition strip (m : Material) : Material :=
  match use_nodes m, node_tree m with
  | true, Some tree => with_diffuse_color white (with_node_tree (strip_nodes (nodes tree)) m)
  | _, _ => m
  end.

(** The material carries a shading graph that is in use. *)
Definition shaded (m : Material) : bool :=
  use_nodes m && match node_tree m with Some _ => true | None => false end.

(** The shading graph of the material has an image texture node. *)
Definition uses_texture (m : Material) : bool :=
  match node_tree m with
  | Some t => existsb (fun n => bool_decide (node_type n = TEX_IMAGE)) (nodes t)
  | None => false
  end.

(** The material store after the body of the loop ran for a slot. *)
Definition strip_slot (mats : gmap MatId Material) (slot : option MatId) : gmap MatId Material :=
  match slot with
  | Some mat => match mats !! mat with Some m => <[ mat := strip m ]> mats | None => mats end
  | None => mats
  end.

(** How a material stands to what it was before [remove_textures]: a
    material with a shading graph in use has lost its image textures and
    is white; any other material is as it was. *)
Definition settled (before after : Material) : Prop :=
  if shaded before
  then shaded after = true /\ uses_texture after = false /\ diffuse_color after = white
  else after = before.

(** A number is read to its end when what follows cannot continue it. *)
Definition follow_ok (rest : text) : Prop :=
  match rest with [] => True | c :: _ => is_num_char c = false end.




(** The record [export_to_json] hands to [json.dump], in closed form. *)
Definition export_record (obj : Object) (mesh : Mesh) : list (string * json) :=
  [ ("n", JStr "airplane");
    ("l", rounded_vector (location obj));
    ("r", rounded_vector (rotation_euler obj));
    ("s", rounded_vector (scale obj));
    ("v", JList (map (fun vert => rounded_vector (mat_vec (matrix_world obj) vert))
                     (vertices (mesh_geom mesh))));
    ("e", JList (map (fun edge => JList [index (fst edge); index (snd edge)])
                     (edges (mesh_geom mesh))));
    ("f", JList (map (fun face => JList (map index face)) (polygons (mesh_geom mesh)))) ].

(** The state [s'] has the host calls of [s] and then only calls that
    satisfy [ok]. *)
Definition calls_extend (ok : HostCall -> Prop) (s s' : State) : Prop :=
  exists extra, st_calls s' = st_calls s ++ extra /\ Forall ok extra.

(** Whatever the outcome, the computation adds only calls that satisfy
    [ok]. *)
Definition adds_only (ok : HostCall -> Prop) {A} (c : M A) : Prop :=
  forall s, calls_extend ok s (snd (c s)).

(** A render is shot from [position], looking at the origin. *)
Definition shot_from (position : Vector) (c : HostCall) : Prop :=
  match c with
  | CallRender req =>
      camera_location req = Some position /\ look_at req = Some (mkVector 0 0 0)
  | _ => True
  end.

(** Between two states, no mesh changed its geometry and the host was
    asked nothing. *)
Definition quiet (s s' : State) : Prop :=
  (forall i, geometry_of s' i = geometry_of s i) /\ st_calls s' = st_calls s.


(** ** Notions of the further properties *)

(** The mesh objects of the scene and the other objects, in scene order. *)
Definition is_mesh (p : ObjId * Object) : bool := bool_decide (obj_type (snd p) = MESH).
Definition mesh_objects (s : State) : list (ObjId * Object) := filter is_mesh (st_objects s).
Definition other_objects (s : State) : list (ObjId * Object) :=
  filter (fun p => negb (is_mesh p)) (st_objects s).

(** An object after [select_all(action='DESELECT')]. *)
Definition deselected (p : ObjId * Object) : ObjId * Object := (fst p, with_select false (snd p)).

(** The selection [merge_all_meshes] makes: the mesh objects and only
    them. *)
Definition selected_if_mesh (p : ObjId * Object) : ObjId * Object :=
  (fst p, with_select (is_mesh p) (snd p)).

(** The object [merge_all_meshes] returns, from the first mesh object of
    the scene and the mesh objects after it: with no other mesh the join
    is cancelled and the first mesh object is only selected. *)
Definition merged_object {host : Host} (o : Object) (rest : list (ObjId * Object)) : Object :=
  match rest with
  | [] => with_select true o
  | _ :: _ =>
      with_data (MeshData (join_meshes (with_select true o)
                             (map (fun p => with_select true (snd p)) rest)))
                (with_select true o)
  end.

(** Whatever the outcome, a computation leaves the state it ends in
    related by [R] to the state it started in. *)
Definition keeps (R : State -> State -> Prop) {A} (c : M A) : Prop :=
  forall s, R s (snd (c s)).

(** Between two states, at most the material store and standard output
    differ. *)
Definition scene_untouched (s s' : State) : Prop :=
  st_objects s' = st_objects s /\ st_active s' = st_active s /\ st_mode s' = st_mode s
  /\ st_camera s' = st_camera s /\ st_filepath s' = st_filepath s
  /\ st_dirs s' = st_dirs s /\ st_files s' = st_files s /\ st_calls s' = st_calls s.

(** Between two states, at most the file at [path] and standard output
    differ. *)
Definition only_writes (path : string) (s s' : State) : Prop :=
  st_objects s' = st_objects s /\ st_active s' = st_active s /\ st_mode s' = st_mode s
  /\ st_materials s' = st_materials s /\ st_camera s' = st_camera s
  /\ st_filepath s' = st_filepath s /\ st_dirs s' = st_dirs s /\ st_calls s' = st_calls s
  /\ forall p, p <> path -> st_files s' !! p = st_files s !! p.

(** The name is that of an image texture node of the tree. *)
Definition texture_node_named (t : NodeTree) (name : string) : bool :=
  existsb (fun x => bool_decide (node_type x = TEX_IMAGE) && String.eqb name (node_name x))
          (nodes t).

(** The objects and the material [add_plane_and_light] creates, once
    it is through with them, under the names Blender gave them. *)
Definition ground_plane (name : string) (mat : MatId) : Object :=
  mkObject name (MeshData (mkMesh (plane_geometry 10) [Some mat] []))
           (mkVector 0 (-10) 0) zero_vector one_vector identity_matrix true [] [].

Definition sun (name : string) (tgt : ObjId) : Object :=
  mkObject name LightData (mkVector 5 5 10) zero_vector one_vector identity_matrix
           false [] [mkConstraint (Some tgt) TRACK_NEGATIVE_Z UP_Y].

Definition light_target (name : string) : Object := new_object name NoData.

Definition plane_material (name : string) : Material :=
  mkMaterial name false None (mkRGBA 0 0 0 1).

(** The object [merge_all_meshes] leaves, from the first mesh object the
    importer created and the mesh objects it created after it. *)
Definition joined {host : Host} (o : Object) (others : list Object) : Object :=
  match others with
  | [] => with_select true o
  | _ :: _ =>
      with_data (MeshData (join_meshes (with_select true o) (map (with_select true) others)))
                (with_select true o)
  end.

(** The geometry [reduce_vertices] leaves of a geometry, for a target. *)
Definition reduced {host : Host} (target_vertex_count : Z) (g : Geometry) : Geometry :=
  if (Z.of_nat (length (vertices g)) <=? target_vertex_count)%Z then g
  else
    let ratio := clamp01 (inject_Z target_vertex_count / inject_Z (Z.of_nat (length (vertices g)))) in
    let decimated := decimate COLLAPSE ratio true g in
    remove_doubles (1 # 10000) (seq 0 (length (vertices decimated))) decimated.

(** What a batch over a listing may ask of the host: imports of listed
    files only, and renders into the still of a listed file only; joins,
    decimations and welds are free. *)
Definition asked_for {host : Host} (files : list string) (output_folder : string)
    (render_angle : Z) (c : HostCall) : Prop :=
  match c with
  | CallImport filepath => filepath ∈ files
  | CallRender req =>
      exists glb_file,
        glb_file ∈ files
        /\ let base_name := fst (path_splitext (path_basename glb_file)) in
           output_path req
           = path_join (path_join output_folder base_name) (image_name base_name render_angle)
  | _ => True
  end.
(** ** A small concrete host, to run the script on *)

Module Demo.

(** The part of a path after its last slash. *)
Fixpoint basename_from (acc : string) (s : string) : string :=
  match s with
  | EmptyString => acc
  | String c rest =>
      if Ascii.eqb c "/"%char then basename_from rest rest else basename_from acc rest
  end.
Definition basename (p : string) : string := basename_from p p.

(** The path cut at its last dot. *)
Fixpoint splitext_aux (s : string) : option (string * string) :=
  match s with
  | EmptyString => None
  | String c rest =>
      match splitext_aux rest with
      | Some (root, ext) => Some (String c root, ext)
      | None => if Ascii.eqb c "."%char then Some (EmptyString, s) else None
      end
  end.
Definition splitext (p : string) : string * string :=
  default (p, EmptyString) (splitext_aux p).

Definition join (a b : string) : string := a +:+ "/" +:+ b.

Definition triangle : Geometry :=
  mkGeometry [mkVector 0 0 0; mkVector 1 0 0; mkVector 0 1 0]
             [(0, 1); (1, 2); (2, 0)]%nat [[0; 1; 2]%nat].

Definition quad : Geometry :=
  mkGeometry [mkVector 0 0 0; mkVector (3 # 2) 0 0; mkVector (3 # 2) 1 0; mkVector 0 1 (1 # 3)]
             [(0, 1); (1, 2); (2, 3); (3, 0)]%nat [[0; 1; 2; 3]%nat].

Definition textured : Material :=
  mkMaterial "Body" true
    (Some (mkNodeTree [mkNode "Image Texture" TEX_IMAGE; mkNode "Principled BSDF" BSDF_PRINCIPLED;
                       mkNode "Material Output" OUTPUT_MATERIAL]
                      [("Image Texture", "Principled BSDF"); ("Principled BSDF", "Material Output")]))
    (mkRGBA (8 # 10) (8 # 10) (8 # 10) 1).

Definition plain : Material :=
  mkMaterial "Glass" false None (mkRGBA (2 # 10) (4 # 10) (6 # 10) 1).

Definition mesh_object (name : string) (g : Geometry) (slots : list (option MatId)) : Object :=
  mkObject name (MeshData (mkMesh g slots [])) (mkVector 1 2 3) zero_vector one_vector
           (mkMatrix (mkRow4 1 0 0 1) (mkRow4 0 1 0 2) (mkRow4 0 0 1 3) (mkRow4 0 0 0 1))
           true [] [].

Definition camera_object : Object :=
  mkObject "Cam" CameraData zero_vector zero_vector one_vector identity_matrix false [] [].

(** ["in/a.glb"] holds two meshes, ["in/b.glb"] one, ["in/none.glb"]
    only a camera; nothing else can be read. *)
Definition gltf_import (filepath : string) (s : State)
    : option (list Object * gmap MatId Material) :=
  if String.eqb filepath "in/a.glb"
  then Some ([mesh_object "Hull" quad [Some 1%nat; Some 2%nat]; mesh_object "Wing" triangle []],
             <[ 1%nat := textured ]> (<[ 2%nat := plain ]> (st_materials s)))
  else if String.eqb filepath "in/b.glb"
  then Some ([mesh_object "Tri" triangle []], st_materials s)
  else if String.eqb filepath "in/none.glb"
  then Some ([camera_object], st_materials s)
  else None.

(** Geometry laid end to end, indices shifted. *)
Definition append_geometry (g h : Geometry) : Geometry :=
  let n := length (vertices g) in
  mkGeometry (vertices g ++ vertices h)
             (edges g ++ map (fun e => (n + fst e, n + snd e)%nat) (edges h))
             (polygons g ++ map (map (Nat.add n)) (polygons h)).

Definition join_meshes (active : Object) (others : list Object) : Mesh :=
  match obj_data active with
  | MeshData m =>
      foldl (fun acc o => match obj_data o with
                          | MeshData m' => mkMesh (append_geometry (mesh_geom acc) (mesh_geom m'))
                                                  (materials acc ++ materials m') []
                          | _ => acc
                          end) m others
  | _ => mkMesh (mkGeometry [] [] []) [] []
  end.

(** Keeps the leading share [ratio] of the vertices and what only
    refers to them. *)
Definition decimate (t : DecimateType) (ratio : Q) (tri : bool) (g : Geometry) : Geometry :=
  let k := Z.to_nat (round_half_even (ratio * inject_Z (Z.of_nat (length (vertices g))))) in
  mkGeometry (take k (vertices g))
             (filter (fun e => Nat.ltb (fst e) k && Nat.ltb (snd e) k) (edges g))
             (filter (forallb (fun i => Nat.ltb i k)) (polygons g)).

Definition remove_doubles (threshold : Q) (selected : list nat) (g : Geometry) : Geometry := g.

Definition rasterize (s : State) : string := "PNG".

Definition writable (p : string) : bool := true.

(** Everything can be written but the JSON file of asset [a]. *)
Definition read_only_a (p : string) : bool := negb (String.eqb p "out/a/a.json").

Definition glob (files : list string) (pattern : string) : list string := files.

Definition radians (deg : Q) : Q := (deg * (355 # 113) / 180)%Q.
Definition cos (x : Q) : Q := (1 - x * x / 2)%Q.
Definition sin (x : Q) : Q := (x - x * x * x / 6)%Q.

Definition empty_state : State :=
  mkState [] None OBJECT ∅ None "/tmp/" ∅ ∅ [] [].

(** A scene with one mesh object, active, carrying two materials: one
    with an image texture in its shading graph, one without a graph. *)
Definition scene : State :=
  mkState [(1%nat, mesh_object "Hull" quad [Some 1%nat; Some 2%nat])] (Some 1%nat) OBJECT
          (<[ 1%nat := textured ]> (<[ 2%nat := plain ]> ∅)) None "/tmp/" ∅ ∅ [] [].

(** A scene whose only object is a camera. *)
Definition camera_scene : State :=
  mkState [(1%nat, camera_object)] (Some 1%nat) OBJECT ∅ None "/tmp/" ∅ ∅ [] [].

(** What cannot be written cannot even be opened. *)
Definition never_opened (p : string) : option nat := None.

(** The name with the first of the suffixes [.001], [.002], ... that
    makes it free. *)
Fixpoint first_free (fuel n : nat) (used : list string) (name : string) : string :=
  match fuel with
  | O => name
  | S fuel' =>
      let candidate := name +:+ "." +:+ string_of_list_ascii (low_digits 3 (Z.of_nat n)) in
      if bool_decide (candidate ∈ used) then first_free fuel' (S n) used name else candidate
  end.

Definition unique_name (used : list string) (name : string) : string :=
  if bool_decide (name ∈ used) then first_free (length used) 1 used name else name.

(** The host, for a writability oracle, an oracle of the writes that fail
    part-way, and a directory listing. *)
Definition host_with (can_write : string -> bool) (partial_write : string -> option nat)
    (files : list string) : Host :=
  Build_Host gltf_import join_meshes decimate remove_doubles rasterize can_write
             partial_write unique_name
             (glob files) join basename splitext radians cos sin.

(** The host, for a writability oracle and a directory listing. *)
Definition host (can_write : string -> bool) (files : list string) : Host :=
  host_with can_write never_opened files.

(** Everything writable; three files in the input folder. *)
Definition h : Host := host writable ["in/a.glb"; "in/none.glb"; "in/b.glb"].

(** The JSON file of asset [a] cannot be written; two files in the input
    folder. *)
Definition h_read_only : Host := host read_only_a ["in/a.glb"; "in/b.glb"].

(** The mesh object of [scene] and its mesh. *)
Definition hull_mesh : Mesh := mkMesh quad [Some 1%nat; Some 2%nat] [].
Definition hull : Object := mesh_object "Hull" quad [Some 1%nat; Some 2%nat].

(** The script's entry point on this host. *)
Definition run (can_write : string -> bool) (files : list string)
    (target : Z) (angle : Z) : M unit :=
  process_glb_files (host := host can_write files) "in" "out" target angle.

End Demo.

(** ** Further scenes and hosts, for the further properties *)

Module Cases.

Definition wing : Object := Demo.mesh_object "Wing" Demo.triangle [].

(** Two mesh objects with a camera between them, as an import leaves
    them; nothing is active. *)
Definition two_meshes : State :=
  mkState [(1%nat, Demo.hull); (2%nat, Demo.camera_object); (3%nat, wing)] None OBJECT
          (<[ 1%nat := Demo.textured ]> (<[ 2%nat := Demo.plain ]> ∅)) None "/tmp/" ∅ ∅ [] [].

(** A mesh object without vertices, active. *)
Definition bare_mesh : Mesh := mkMesh (mkGeometry [] [] []) [] [].
Definition bare : Object := Demo.mesh_object "Bare" (mkGeometry [] [] []) [].
Definition bare_scene : State :=
  mkState [(1%nat, bare)] (Some 1%nat) OBJECT ∅ None "/tmp/" ∅ ∅ [] [].

(** A mesh object whose second material slot is empty. *)
Definition gapped_mesh : Mesh := mkMesh Demo.quad [Some 1%nat; None; Some 2%nat] [].
Definition gapped : Object := Demo.mesh_object "Gapped" Demo.quad [Some 1%nat; None; Some 2%nat].
Definition gapped_scene : State :=
  mkState [(1%nat, gapped)] (Some 1%nat) OBJECT
          (<[ 1%nat := Demo.textured ]> (<[ 2%nat := Demo.plain ]> ∅)) None "/tmp/" ∅ ∅ [] [].

(** [Demo.scene] with Blender left in edit mode. *)
Definition edit_scene : State := set_mode EDIT Demo.scene.

(** Nothing can be written. *)
Definition locked (p : string) : bool := false.
Definition h_locked : Host := Demo.host locked ["in/a.glb"].

(** Nothing can be written to the end: every file is opened, and the
    write to it fails after twelve characters. *)
Definition twelve (p : string) : option nat := Some 12%nat.
Definition h_torn : Host := Demo.host_with locked twelve ["in/a.glb"].

(** Everything can be written; the input folder is empty. *)
Definition h_no_files : Host := Demo.host Demo.writable [].

End Cases.
(** * Properties of the script *)

Section Facts.

  Context {host : Host}.


Lemma bind_unfold {A B} (c : M A) (k : A -> M B) (s : State) :
  (c ≫= k) s = match c s with (Ret a, s') => k a s' | (Raise e, s') => (Raise e, s') end.
Proof. reflexivity. Qed.

Lemma deref_some (s : State) (i : ObjId) (o : Object) :
  find_object (st_objects s) i = Some o -> deref i s = (Ret o, s).
Proof. intros H. unfold deref. now rewrite H. Qed.

Lemma obj_type_mesh (o : Object) : obj_type o = MESH <-> exists m, obj_data o = MeshData m.
Proof.
  unfold obj_type. split.
  - destruct (obj_data o); try discriminate. eauto.
  - intros [m ->]. reflexivity.
Qed.

Lemma find_update_same (f : Object -> Object) (l : list (ObjId * Object)) (i : ObjId) (o : Object) :
  find_object l i = Some o -> find_object (update_object f i l) i = Some (f o).
Proof.
  induction l as [|[j x] l IH]; simpl; [discriminate|].
  destruct (Nat.eqb i j) eqn:E; simpl; rewrite E; [congruence | exact IH].
Qed.

Lemma find_update_other (f : Object -> Object) (l : list (ObjId * Object)) (i j : ObjId) :
  i <> j -> find_object (update_object f i l) j = find_object l j.
Proof.
  intros Hne. induction l as [|[k x] l IH]; simpl; [reflexivity|].
  destruct (Nat.eqb i k) eqn:E; simpl.
  - apply Nat.eqb_eq in E. subst k.
    destruct (Nat.eqb j i) eqn:E'; [apply Nat.eqb_eq in E'; congruence | reflexivity].
  - destruct (Nat.eqb j k); [reflexivity | exact IH].
Qed.

Lemma find_update (f : Object -> Object) (l : list (ObjId * Object)) (i j : ObjId) :
  find_object (update_object f i l) j
  = if Nat.eqb i j then option_map f (find_object l j) else find_object l j.
Proof.
  destruct (Nat.eqb i j) eqn:E.
  - apply Nat.eqb_eq in E. subst j. destruct (find_object l i) eqn:F.
    + now apply find_update_same.
    + simpl. induction l as [|[k x] l IH]; simpl in *; [reflexivity|].
      destruct (Nat.eqb i k) eqn:E'; [discriminate|]. simpl. rewrite E'. auto.
  - apply Nat.eqb_neq in E. now apply find_update_other.
Qed.

Lemma geometry_of_reselect (s : State) (sel : Mesh -> list nat) (a i : ObjId) :
  geometry_of (set_objects (update_object (on_mesh (fun m => with_selected (sel m) m)) a) s) i
  = geometry_of s i.
Proof.
  unfold geometry_of. simpl. rewrite find_update.
  destruct (Nat.eqb a i); [|reflexivity].
  destruct (find_object (st_objects s) i) as [o|]; [|reflexivity]. simpl.
  unfold on_mesh. destruct (obj_data o) eqn:E; simpl; rewrite ?E; reflexivity.
Qed.



Lemma bind_run {A B} (c : M A) (k : A -> M B) (s s' : State) (a : A) :
  c s = (Ret a, s') -> (c ≫= k) s = k a s'.
Proof. intros H. rewrite bind_unfold, H. reflexivity. Qed.

Lemma bind_fail {A B} (c : M A) (k : A -> M B) (s s' : State) (e : Exc) :
  c s = (Raise e, s') -> (c ≫= k) s = (Raise e, s').
Proof. intros H. rewrite bind_unfold, H. reflexivity. Qed.

Lemma set_attr_run (s : State) (obj : ObjId) (o : Object) (f : Object -> Object) :
  find_object (st_objects s) obj = Some o ->
  set_attr obj f s = (Ret tt, set_objects (update_object f obj) s).
Proof.
  intros H. unfold set_attr. rewrite (bind_run _ _ _ _ _ (deref_some _ _ _ H)). reflexivity.
Qed.

Lemma mode_set_run (s : State) (a : ObjId) (o : Object) (m : Mesh) (mode : Mode) :
  st_active s = Some a ->
  find_object (st_objects s) a = Some o ->
  obj_data o = MeshData m ->
  ops_object_mode_set mode s = (Ret tt, set_mode mode s).
Proof.
  intros Ha Hf Hd. unfold ops_object_mode_set.
  rewrite bind_unfold. cbn. rewrite Ha.
  rewrite (bind_run _ _ _ _ _ (deref_some _ _ _ Hf)), Hd.
  destruct mode; reflexivity.
Qed.

Lemma edit_mesh_poll_run (s : State) (a : ObjId) :
  st_mode s = EDIT -> st_active s = Some a -> edit_mesh_poll s = (Ret a, s).
Proof.
  intros Hm Ha. unfold edit_mesh_poll. rewrite bind_unfold. cbn. now rewrite Hm, Ha.
Qed.

Lemma select_mode_run (s : State) (a : ObjId) :
  st_mode s = EDIT -> st_active s = Some a -> ops_mesh_select_mode_VERT s = (Ret tt, s).
Proof.
  intros Hm Ha. unfold ops_mesh_select_mode_VERT.
  now rewrite (bind_run _ _ _ _ _ (edit_mesh_poll_run _ _ Hm Ha)).
Qed.

Lemma mesh_select_all_run (s : State) (a : ObjId) (action : SelectAction) :
  st_mode s = EDIT -> st_active s = Some a ->
  ops_mesh_select_all action s
  = (Ret tt,
     set_objects (update_object (on_mesh (fun m =>
       with_selected (match action with
                      | SELECT => seq 0 (length (vertices (mesh_geom m)))
                      | DESELECT => []
                      end) m)) a) s).
Proof.
  intros Hm Ha. unfold ops_mesh_select_all.
  now rewrite (bind_run _ _ _ _ _ (edit_mesh_poll_run _ _ Hm Ha)).
Qed.

Lemma from_edit_mesh_run (s : State) (obj : ObjId) (o : Object) (m : Mesh) :
  st_mode s = EDIT -> st_active s = Some obj ->
  find_object (st_objects s) obj = Some o ->
  obj_data o = MeshData m ->
  bmesh_from_edit_mesh obj s = (Ret m, s).
Proof.
  intros Hm Ha Hf Hd. unfold bmesh_from_edit_mesh.
  rewrite bind_unfold. cbn.
  rewrite (bind_run _ _ _ _ _ (deref_some _ _ _ Hf)), Hd, Hm.
  now rewrite bool_decide_eq_true_2.
Qed.

Lemma print_run (s : State) (msg : LogMsg) : print msg s = (Ret tt, add_stdout msg s).
Proof. reflexivity. Qed.

End Facts.

(** Stepping through a computation: [run_with lem] runs the first action
    of a bind with the equation [lem] gives for it. *)
Tactic Notation "solve_find" :=
  cbn; repeat (first [eassumption | apply find_update_same]).

Tactic Notation "run_with" uconstr(lem) :=
  erewrite bind_run; [| eapply lem; first [reflexivity | eassumption | solve_find]].

Section RunFacts.

  Context {host : Host}.

Lemma reduce_vertices_noop_run (s : State) (obj : ObjId) (o : Object) (m : Mesh) (target : Z) :
  find_object (st_objects s) obj = Some o ->
  obj_data o = MeshData m ->
  st_active s = Some obj ->
  (Z.of_nat (length (vertices (mesh_geom m))) <= target)%Z ->
  reduce_vertices obj target s
  = (Ret tt,
     set_mode OBJECT
       (add_stdout (MsgWithinTarget (length (vertices (mesh_geom m))) target)
          (set_objects (update_object (on_mesh (with_selected [])) obj) (set_mode EDIT s)))).
Proof.
  intros Hfind Hdata Hact Hle.
  destruct o as [name data loc rot sc mw sel mods cons]. cbn in Hdata. subst data.
  unfold reduce_vertices.
  run_with deref_some. cbn [obj_type obj_data].
  rewrite bool_decide_eq_false_2 by (intros H; now apply H).
  run_with mode_set_run.
  run_with select_mode_run.
  run_with mesh_select_all_run.
  run_with from_edit_mesh_run.
  cbn [mesh_geom with_selected].
  rewrite (proj2 (Z.leb_le _ _) Hle).
  run_with print_run.
  erewrite mode_set_run; [reflexivity | exact Hact | solve_find | reflexivity].
Qed.

Lemma find_fresh_modifier (mods : list Modifier) (name : string) (k : ModifierKind)
    (g : ModifierKind -> ModifierKind) (rest : list Modifier) (i : ModId) :
  max_list (map mod_id mods) < i ->
  List.find (fun m => Nat.eqb (mod_id m) i)
            (update_modifier g i (mods ++ mkModifier i name k :: rest))
  = Some (mkModifier i name (g k)).
Proof.
  induction mods as [|x mods IH]; cbn; intros Hlt.
  - now rewrite Nat.eqb_refl; cbn; rewrite Nat.eqb_refl.
  - destruct (Nat.eqb (mod_id x) i) eqn:E; [apply Nat.eqb_eq in E; lia|].
    rewrite E. apply IH. lia.
Qed.

Lemma update_modifier_compose (f g : ModifierKind -> ModifierKind) (i : ModId) (l : list Modifier) :
  update_modifier g i (update_modifier f i l) = update_modifier (fun k => g (f k)) i l.
Proof.
  unfold update_modifier. rewrite map_map. apply map_ext. intros m.
  destruct (Nat.eqb (mod_id m) i) eqn:E; cbn; rewrite ?E; reflexivity.
Qed.

Lemma modifier_apply_decimate_run (s : State) (a : ObjId) (o : Object) (i : ModId)
    (name : string) (t : DecimateType) (r : Q) (tri : bool) :
  st_mode s = OBJECT ->
  st_active s = Some a ->
  find_object (st_objects s) a = Some o ->
  List.find (fun m => Nat.eqb (mod_id m) i) (modifiers o) = Some (mkModifier i name (DECIMATE t r tri)) ->
  ops_object_modifier_apply i s
  = (Ret tt,
     set_objects (update_object (with_modifiers (filter (fun m => negb (Nat.eqb (mod_id m) i)))) a)
       (add_call (CallDecimate t r tri)
          (set_objects (update_object (on_mesh (fun me =>
             with_geom (decimate t r tri (mesh_geom me)) me)) a) s))).
Proof.
  intros Hm Ha Hf Hfind. unfold ops_object_modifier_apply.
  rewrite bind_unfold. cbn. rewrite Hm, Ha.
  rewrite (bind_run _ _ _ _ _ (deref_some _ _ _ Hf)), Hfind. reflexivity.
Qed.

Lemma remove_doubles_run (s : State) (a : ObjId) (threshold : Q) :
  st_mode s = EDIT -> st_active s = Some a ->
  ops_mesh_remove_doubles threshold s
  = (Ret tt,
     add_call (CallRemoveDoubles threshold)
       (set_objects (update_object (on_mesh (fun m =>
          with_geom (remove_doubles threshold (mesh_selected m) (mesh_geom m)) m)) a) s)).
Proof.
  intros Hm Ha. unfold ops_mesh_remove_doubles.
  now rewrite (bind_run _ _ _ _ _ (edit_mesh_poll_run _ _ Hm Ha)).
Qed.

Lemma modifiers_new_run (s : State) (obj : ObjId) (o : Object) (name : string) :
  find_object (st_objects s) obj = Some o ->
  modifiers_new_DECIMATE obj name s
  = (Ret (fresh_modifier_id (modifiers o)),
     set_objects (update_object (with_modifiers (fun l =>
       l ++ [mkModifier (fresh_modifier_id (modifiers o))
                        (unique_name (map mod_name (modifiers o)) name)
                        (DECIMATE COLLAPSE 1 false)])) obj) s).
Proof.
  intros Hf. unfold modifiers_new_DECIMATE.
  rewrite (bind_run _ _ _ _ _ (deref_some _ _ _ Hf)).
  now rewrite (bind_run _ _ _ _ _ (set_attr_run _ _ _ _ Hf)).
Qed.

Lemma ratio_bounds (target : Z) (n : nat) :
  (0 < target)%Z -> (target < Z.of_nat n)%Z ->
  (0 < inject_Z target / inject_Z (Z.of_nat n))%Q
  /\ (inject_Z target / inject_Z (Z.of_nat n) < 1)%Q.
Proof.
  intros Hpos Hlt.
  assert (Hn : (0 < inject_Z (Z.of_nat n))%Q) by (unfold Qlt; cbn; lia).
  split.
  - apply Qlt_shift_div_l; [exact Hn|]. rewrite Qmult_0_l. unfold Qlt; cbn; lia.
  - apply Qlt_shift_div_r; [exact Hn|]. rewrite Qmult_1_l. unfold Qlt. cbn. lia.
Qed.

Lemma clamp01_inside (q : Q) : (0 < q)%Q -> (q < 1)%Q -> clamp01 q = q.
Proof.
  intros H0 H1. unfold clamp01.
  destruct (Qle_bool q 0) eqn:E0.
  - apply Qle_bool_iff in E0. exfalso.
    exact (Qlt_irrefl 0 (Qlt_le_trans _ _ _ H0 E0)).
  - destruct (Qle_bool 1 q) eqn:E1; [|reflexivity].
    apply Qle_bool_iff in E1. exfalso.
    exact (Qlt_irrefl 1 (Qle_lt_trans _ _ _ E1 H1)).
Qed.



(** *** Handles *)

Lemma find_object_None (l : list (ObjId * Object)) (i : ObjId) :
  i ∉ map fst l -> find_object l i = None.
Proof.
  induction l as [|[j o] l IH]; cbn; intros Hni; [reflexivity|].
  destruct (Nat.eqb i j) eqn:E.
  - apply Nat.eqb_eq in E. subst. exfalso. apply Hni. left.
  - apply IH. intros Hin. apply Hni. now right.
Qed.

Lemma find_object_fresh (s : State) :
  find_object (st_objects s) (fresh_object_id s) = None.
Proof.
  apply find_object_None. intros Hin.
  unfold fresh_object_id in Hin.
  assert (H : fresh_object_id s <= max_list (map fst (st_objects s)
               ++ concat (map (fun p => constraint_targets (snd p)) (st_objects s))
               ++ option_to_list (st_active s) ++ option_to_list (st_camera s))).
  { apply max_list_elem_of_le. apply elem_of_app. left. exact Hin. }
  unfold fresh_object_id in H. lia.
Qed.

Lemma find_object_app (l r : list (ObjId * Object)) (i : ObjId) :
  find_object (l ++ r) i
  = match find_object l i with Some o => Some o | None => find_object r i end.
Proof.
  induction l as [|[j o] l IH]; cbn; [reflexivity|].
  destruct (Nat.eqb i j); [reflexivity | exact IH].
Qed.

Lemma update_object_app (f : Object -> Object) (l r : list (ObjId * Object)) (i : ObjId) :
  find_object l i = None ->
  update_object f i (l ++ r) = l ++ update_object f i r.
Proof.
  induction l as [|[j o] l IH]; cbn; [reflexivity|].
  destruct (Nat.eqb i j); [discriminate|]. intros H. now rewrite IH.
Qed.

Lemma remove_object_absent (l : list (ObjId * Object)) (i : ObjId) :
  find_object l i = None -> remove_object i l = l.
Proof.
  unfold remove_object.
  induction l as [|[j o] l IH]; cbn [find_object]; [reflexivity|].
  destruct (Nat.eqb i j) eqn:E; [discriminate|]. intros H.
  rewrite filter_cons_True by (cbn; now rewrite E). f_equal. exact (IH H).
Qed.

Lemma remove_object_app (l r : list (ObjId * Object)) (i : ObjId) :
  find_object l i = None ->
  remove_object i (l ++ r) = l ++ remove_object i r.
Proof.
  intros H. unfold remove_object. rewrite filter_app.
  f_equal. now apply remove_object_absent.
Qed.

Lemma add_object_run (s : State) (o : Object) :
  add_object o s
  = (Ret (fresh_object_id s), set_objects (fun l => l ++ [(fresh_object_id s, o)]) s).
Proof. reflexivity. Qed.

Lemma data_objects_new_run (s : State) (name : string) (data : ObjData) :
  data_objects_new name data s
  = (Ret (fresh_object_id s),
     set_objects (fun l => l ++ [(fresh_object_id s,
                                  new_object (unique_name (object_names (st_objects s)) name)
                                             data)]) s).
Proof. reflexivity. Qed.

(** The handle given to an object added after another one is a new one. *)
Lemma fresh_after_add (s : State) (f : list (ObjId * Object) -> list (ObjId * Object))
    (i : ObjId) (o : Object) (l : list (ObjId * Object)) :
  f (st_objects s) = l ++ [(i, o)] ->
  fresh_object_id (set_objects f s) <> i
  /\ find_object l (fresh_object_id (set_objects f s)) = None.
Proof.
  intros Hf.
  pose proof (find_object_fresh (set_objects f s)) as Hfresh.
  change (st_objects (set_objects f s)) with (f (st_objects s)) in Hfresh.
  rewrite Hf, find_object_app in Hfresh.
  destruct (find_object l (fresh_object_id (set_objects f s))) eqn:E; [discriminate|].
  split; [|reflexivity].
  cbn [find_object] in Hfresh. intros Heq. rewrite Heq, Nat.eqb_refl in Hfresh. discriminate.
Qed.


(** *** [setup_camera] and [render_image] *)


Lemma find_app_new (l : list (ObjId * Object)) (i : ObjId) (o : Object) :
  find_object l i = None -> find_object (l ++ [(i, o)]) i = Some o.
Proof. intros H. rewrite find_object_app, H. cbn. now rewrite Nat.eqb_refl. Qed.

Lemma update_singleton (f : Object -> Object) (i : ObjId) (o : Object) (r : list (ObjId * Object)) :
  update_object f i ((i, o) :: r) = (i, f o) :: r.
Proof. cbn. now rewrite Nat.eqb_refl. Qed.

Lemma update_skip (f : Object -> Object) (i j : ObjId) (o : Object) (r : list (ObjId * Object)) :
  i <> j -> update_object f i ((j, o) :: r) = (j, o) :: update_object f i r.
Proof. intros H. cbn. apply Nat.eqb_neq in H. now rewrite H. Qed.

Lemma set_objects_twice (f g : list (ObjId * Object) -> list (ObjId * Object)) (s : State) :
  set_objects f (set_objects g s) = set_objects (fun l => f (g l)) s.
Proof. reflexivity. Qed.

Lemma set_objects_ext (f g : list (ObjId * Object) -> list (ObjId * Object)) (s : State) :
  f (st_objects s) = g (st_objects s) -> set_objects f s = set_objects g s.
Proof. intros H. unfold set_objects. now rewrite H. Qed.

Lemma staged_deref_cam (s : State) (cam tgt : ObjId) (c t : Object) :
  find_object (st_objects s) cam = None ->
  deref cam (staged s cam tgt c t) = (Ret c, staged s cam tgt c t).
Proof.
  intros Hcam. apply deref_some. cbn [staged st_objects set_objects].
  rewrite find_object_app, Hcam. cbn. now rewrite Nat.eqb_refl.
Qed.

Lemma staged_set_attr_cam (s : State) (cam tgt : ObjId) (c t : Object) (f : Object -> Object) :
  find_object (st_objects s) cam = None ->
  set_attr cam f (staged s cam tgt c t) = (Ret tt, staged s cam tgt (f c) t).
Proof.
  intros Hcam. unfold set_attr.
  rewrite (bind_run _ _ _ _ _ (staged_deref_cam _ _ _ _ _ Hcam)).
  unfold modify, staged. rewrite set_objects_twice. f_equal.
  apply set_objects_ext. now rewrite update_object_app, update_singleton.
Qed.

Lemma staged_set_attr_tgt (s : State) (cam tgt : ObjId) (c t : Object) (f : Object -> Object) :
  find_object (st_objects s) tgt = None -> tgt <> cam ->
  set_attr tgt f (staged s cam tgt c t) = (Ret tt, staged s cam tgt c (f t)).
Proof.
  intros Htgt Hne. unfold set_attr.
  erewrite bind_run.
  2:{ apply deref_some. cbn [staged st_objects set_objects].
      rewrite find_object_app, Htgt. cbn.
      apply Nat.eqb_neq in Hne. rewrite Hne, Nat.eqb_refl. reflexivity. }
  unfold modify, staged. rewrite set_objects_twice. f_equal.
  apply set_objects_ext.
  now rewrite update_object_app, update_skip, update_singleton.
Qed.

Lemma staged_constraints_new (s : State) (cam tgt : ObjId) (c t : Object) :
  find_object (st_objects s) cam = None ->
  constraints_new_TRACK_TO cam (staged s cam tgt c t)
  = (Ret (length (constraints c)),
     staged s cam tgt (with_constraints (fun l => l ++ [mkConstraint None TRACK_Y UP_Z]) c) t).
Proof.
  intros Hcam. unfold constraints_new_TRACK_TO.
  rewrite (bind_run _ _ _ _ _ (staged_deref_cam _ _ _ _ _ Hcam)).
  now rewrite (bind_run _ _ _ _ _ (staged_set_attr_cam _ _ _ _ _ _ Hcam)).
Qed.

Lemma setup_camera_run (s : State) (loc : Vector) :
  exists tgt cam_name tgt_name,
    tgt <> fresh_object_id s
    /\ find_object (st_objects s) tgt = None
    /\ setup_camera loc s
       = (Ret (fresh_object_id s, tgt),
          staged s (fresh_object_id s) tgt (camera_object cam_name loc tgt)
                 (target_object tgt_name)).
Proof.
  set (cam := fresh_object_id s).
  pose proof (find_object_fresh s) as Hcam. fold cam in Hcam.
  set (cam_name := unique_name (object_names (st_objects s)) "Camera").
  set (c0 := new_object cam_name CameraData).
  set (s1 := set_objects (fun l => l ++ [(cam, with_location loc c0)]) s).
  destruct (fresh_after_add s (fun l => l ++ [(cam, with_location loc c0)])
              cam _ (st_objects s) eq_refl) as [Hne Htgt].
  fold s1 in Hne, Htgt. set (tgt := fresh_object_id s1) in *.
  set (tgt_name := unique_name (object_names (st_objects s1)) "Target").
  exists tgt, cam_name, tgt_name. split; [exact Hne|]. split; [exact Htgt|].
  unfold setup_camera.
  rewrite (bind_run _ _ _ _ _ (data_objects_new_run _ _ _)). cbv beta. fold cam cam_name c0.
  erewrite bind_run; [|reflexivity]. cbv beta.
  erewrite bind_run; [| eapply set_attr_run; cbn [st_objects set_objects]; apply find_app_new, Hcam].
  rewrite set_objects_twice.
  erewrite (set_objects_ext _ (fun l => l ++ [(cam, with_location loc c0)]))
    by (rewrite update_object_app, update_singleton by exact Hcam; reflexivity).
  fold s1.
  rewrite (bind_run _ _ _ _ _ (data_objects_new_run _ _ _)). cbv beta. fold tgt tgt_name.
  replace (set_objects (fun l => l ++ [(tgt, new_object tgt_name NoData)]) s1)
    with (staged s cam tgt (with_location loc c0) (new_object tgt_name NoData)).
  2:{ unfold staged, s1. rewrite set_objects_twice. apply set_objects_ext.
      now rewrite <- app_assoc. }
  rewrite (bind_run _ _ _ _ _ (staged_set_attr_tgt _ _ _ _ _ _ Htgt Hne)).
  erewrite bind_run; [|reflexivity]. cbv beta.
  rewrite (bind_run _ _ _ _ _ (staged_constraints_new _ _ _ _ _ Hcam)).
  unfold set_constraint.
  rewrite !(bind_run _ _ _ _ _ (staged_set_attr_cam _ _ _ _ _ _ Hcam)).
  reflexivity.
Qed.


Lemma render_run (s : State) (cam : ObjId) (c : Object) :
  st_camera s = Some cam ->
  find_object (st_objects s) cam = Some c ->
  can_write (st_filepath s) = true ->
  ops_render_render s
  = (Ret tt, add_call (CallRender (render_request s))
               (write_file (st_filepath s) (rasterize s) s)).
Proof.
  intros Hc Hf Hw. unfold ops_render_render.
  rewrite bind_unfold. unfold get. cbv beta iota.
  rewrite Hc. cbn [clear_pointer]. rewrite Hf, Hw. reflexivity.
Qed.

Lemma render_unwritable (s : State) :
  can_write (st_filepath s) = false ->
  exists e, ops_render_render s = (Raise e, s).
Proof.
  intros Hw. unfold ops_render_render. rewrite bind_unfold. unfold get. cbv beta iota.
  destruct (clear_pointer (st_objects s) (st_camera s)); [|eexists; reflexivity].
  rewrite Hw. eexists; reflexivity.
Qed.

Lemma remove_run (s : State) (i : ObjId) (o : Object) :
  find_object (st_objects s) i = Some o ->
  data_objects_remove i s = (Ret tt, clear_pointers (set_objects (remove_object i) s)).
Proof.
  intros Hf. unfold data_objects_remove.
  now rewrite (bind_run _ _ _ _ _ (deref_some _ _ _ Hf)).
Qed.

Lemma remove_object_here (i : ObjId) (o : Object) (r : list (ObjId * Object)) :
  find_object r i = None -> remove_object i ((i, o) :: r) = r.
Proof.
  intros H. unfold remove_object.
  rewrite filter_cons_False by (cbn; rewrite Nat.eqb_refl; cbn; auto).
  now apply remove_object_absent.
Qed.

Lemma remove_object_skip (i j : ObjId) (o : Object) (r : list (ObjId * Object)) :
  i <> j -> remove_object i ((j, o) :: r) = (j, o) :: remove_object i r.
Proof.
  intros H. unfold remove_object. apply Nat.eqb_neq in H.
  now rewrite filter_cons_True by (cbn; rewrite H; cbn; auto).
Qed.

Lemma shooting_request (s : State) (cam tgt : ObjId) (cam_name tgt_name : string)
    (loc : Vector) (image_path : string) :
  find_object (st_objects s) cam = None ->
  find_object (st_objects s) tgt = None ->
  tgt <> cam ->
  render_request (shooting s cam tgt cam_name tgt_name loc image_path)
  = mkRenderRequest (Some loc) (Some (mkVector 0 0 0)) image_path.
Proof.
  intros Hcam Htgt Hne. unfold render_request, location_of.
  cbn [shooting st_camera set_filepath set_camera staged st_objects set_objects st_filepath
       mbind option_bind].
  rewrite !find_object_app, Hcam. cbn [find_object].
  rewrite Nat.eqb_refl. cbn.
  rewrite find_object_app, Htgt. cbn.
  apply Nat.eqb_neq in Hne. rewrite Hne, Nat.eqb_refl. reflexivity.
Qed.

Lemma render_image_run (s : State) (output_dir base_name : string) (angle : Z)
    (distance height : option Z) :
  let image_path := path_join output_dir (image_name base_name angle) in
  let loc := camera_position angle (default default_distance distance)
                             (default default_height height) in
  can_write image_path = true ->
  exists s' still,
    render_image output_dir base_name angle distance height s = (Ret tt, s')
    /\ st_objects s' = st_objects s
    /\ st_filepath s' = st_filepath s
    /\ st_mode s' = st_mode s
    /\ st_materials s' = st_materials s
    /\ st_dirs s' = st_dirs s
    /\ st_files s' = <[ image_path := still ]> (st_files s)
    /\ st_stdout s' = st_stdout s ++ [MsgRendered image_path]
    /\ st_calls s'
       = st_calls s ++ [CallRender (mkRenderRequest (Some loc) (Some (mkVector 0 0 0)) image_path)].
Proof.
  intros image_path loc Hw.
  destruct (setup_camera_run s loc) as (tgt & cam_name & tgt_name & Hne & Htgt & Hsetup).
  pose proof (find_object_fresh s) as Hcam.
  set (cam := fresh_object_id s) in *.
  assert (Hct : Nat.eqb cam tgt = false) by (apply Nat.eqb_neq; congruence).
  assert (Htc : Nat.eqb tgt cam = false) by (apply Nat.eqb_neq; congruence).
  unfold render_image. fold image_path loc.
  rewrite bind_unfold. unfold get at 1. cbv beta iota.
  rewrite (bind_run _ _ _ _ _ Hsetup). cbv beta iota.
  erewrite bind_run; [|reflexivity]. cbv beta.
  erewrite bind_run; [|reflexivity]. cbv beta.
  change (set_filepath image_path (set_camera (Some cam) _))
    with (shooting s cam tgt cam_name tgt_name loc image_path).
  assert (Hfc : find_object (st_objects (shooting s cam tgt cam_name tgt_name loc image_path)) cam
                = Some (camera_object cam_name loc tgt)).
  { cbn [shooting st_objects set_filepath set_camera staged set_objects].
    rewrite find_object_app, Hcam. cbn. now rewrite Nat.eqb_refl. }
  erewrite bind_run; [| eapply render_run; [reflexivity | exact Hfc | exact Hw]].
  cbv beta. rewrite shooting_request by assumption.
  erewrite bind_run; [| eapply remove_run; exact Hfc].
  cbv beta.
  erewrite bind_run.
  2:{ eapply remove_run.
      cbn [shooting st_objects set_filepath set_camera staged set_objects clear_pointers
           add_call write_file set_active].
      rewrite remove_object_app by assumption. rewrite remove_object_here by (cbn [find_object]; now rewrite Hct).
      rewrite find_object_app, Htgt. cbn. now rewrite Nat.eqb_refl. }
  cbv beta.
  erewrite bind_run; [|reflexivity]. cbv beta.
  eexists _, _. split; [reflexivity|].
  cbn [shooting st_objects st_filepath st_mode st_materials st_dirs st_files st_stdout st_calls
       set_filepath set_camera staged set_objects clear_pointers add_call write_file set_active
       print modify add_stdout snd].
  repeat split; try reflexivity.
  rewrite remove_object_app, remove_object_here by (assumption || (cbn [find_object]; now rewrite Hct)).
  rewrite remove_object_app, remove_object_here by (assumption || reflexivity).
  apply app_nil_r.
Qed.




(** *** [remove_textures] *)

Lemma strip_nodes_nodes (snapshot : list Node) (t : NodeTree) :
  nodes (strip_nodes snapshot t)
  = filter (fun n => negb (existsb (fun x => bool_decide (node_type x = TEX_IMAGE)
                                             && String.eqb (node_name n) (node_name x)) snapshot))
           (nodes t).
Proof.
  unfold strip_nodes. revert t.
  induction snapshot as [|x snapshot IH]; intros t; cbn [foldl existsb].
  - induction (nodes t) as [|n l IHl]; [reflexivity|].
    rewrite filter_cons_True by (cbn; auto). now f_equal.
  - rewrite IH. destruct (bool_decide (node_type x = TEX_IMAGE)) eqn:E; cbn [andb orb].
    + cbn [nodes_remove nodes]. rewrite list_filter_filter.
      apply list_filter_iff. intros n. cbn.
      destruct (String.eqb (node_name n) (node_name x)); cbn; tauto.
    + reflexivity.
Qed.

Lemma strip_nodes_no_texture (t : NodeTree) :
  existsb (fun n => bool_decide (node_type n = TEX_IMAGE)) (nodes (strip_nodes (nodes t) t)) = false.
Proof.
  rewrite strip_nodes_nodes.
  apply not_true_is_false. intros H. apply existsb_exists in H as (n & Hin & Htex).
  apply list_elem_of_In, list_elem_of_filter in Hin as [Hkeep Hin].
  apply Is_true_true in Hkeep. apply negb_true_iff in Hkeep.
  apply not_true_iff_false in Hkeep. apply Hkeep.
  apply existsb_exists. exists n. split; [now apply list_elem_of_In|].
  now rewrite Htex, String.eqb_refl.
Qed.

Lemma strip_nodes_keeps_clean (snapshot : list Node) (t : NodeTree) :
  existsb (fun n => bool_decide (node_type n = TEX_IMAGE)) (nodes t) = false ->
  existsb (fun n => bool_decide (node_type n = TEX_IMAGE)) (nodes (strip_nodes snapshot t)) = false.
Proof.
  intros Hclean. rewrite strip_nodes_nodes.
  apply not_true_is_false. intros H. apply existsb_exists in H as (n & Hin & Htex).
  apply list_elem_of_In, list_elem_of_filter in Hin as [_ Hin].
  apply not_true_iff_false in Hclean. apply Hclean.
  apply existsb_exists. exists n. split; [now apply list_elem_of_In | exact Htex].
Qed.

Lemma strip_shaded (m : Material) :
  shaded m = true ->
  shaded (strip m) = true /\ uses_texture (strip m) = false /\ diffuse_color (strip m) = white.
Proof.
  unfold shaded, strip, uses_texture.
  destruct (use_nodes m) eqn:U; [|discriminate].
  destruct (node_tree m) as [t|] eqn:T; [|discriminate]. intros _.
  cbn. rewrite U, T. cbn. repeat split. apply strip_nodes_no_texture.
Qed.

Lemma strip_unshaded (m : Material) : shaded m = false -> strip m = m.
Proof.
  unfold shaded, strip.
  destruct (use_nodes m); [|reflexivity].
  destruct (node_tree m); [discriminate | reflexivity].
Qed.

Lemma set_materials_insert_id (s : State) (mat : MatId) (m : Material) :
  st_materials s !! mat = Some m -> set_materials (insert mat m) s = s.
Proof.
  intros H. destruct s. unfold set_materials. cbn in *. now rewrite insert_id.
Qed.

Lemma with_node_tree_compose (f g : NodeTree -> NodeTree) (m : Material) :
  with_node_tree f (with_node_tree g m) = with_node_tree (fun t => f (g t)) m.
Proof. unfold with_node_tree. cbn. now destruct (node_tree m). Qed.

Lemma with_node_tree_id (m : Material) : with_node_tree (fun t => t) m = m.
Proof. destruct m as [n u [t|] c]; reflexivity. Qed.

Lemma deref_material_some (s : State) (mat : MatId) (m : Material) :
  st_materials s !! mat = Some m -> deref_material mat s = (Ret m, s).
Proof. intros H. unfold deref_material. now rewrite H. Qed.

Lemma set_material_run (s : State) (mat : MatId) (m : Material) (f : Material -> Material) :
  st_materials s !! mat = Some m ->
  set_material mat f s = (Ret tt, set_materials (insert mat (f m)) s).
Proof.
  intros H. unfold set_material.
  now rewrite (bind_run _ _ _ _ _ (deref_material_some _ _ _ H)).
Qed.

Lemma node_loop_run (mat : MatId) (snapshot : list Node) (s : State) (m : Material) :
  st_materials s !! mat = Some m ->
  for_each snapshot (fun node =>
      if bool_decide (node_type node = TEX_IMAGE)
      then set_material mat (with_node_tree (nodes_remove node))
      else mret tt) s
  = (Ret tt, set_materials (insert mat (with_node_tree (strip_nodes snapshot) m)) s).
Proof.
  revert s m. induction snapshot as [|node snapshot IH]; intros s m Hm.
  - cbn [for_each]. unfold strip_nodes. cbn [foldl].
    now rewrite with_node_tree_id, set_materials_insert_id.
  - cbn [for_each]. destruct (bool_decide (node_type node = TEX_IMAGE)) eqn:E.
    + rewrite (bind_run _ _ _ _ _ (set_material_run _ _ _ _ Hm)).
      rewrite (IH _ (with_node_tree (nodes_remove node) m))
        by (cbn; apply lookup_insert_eq).
      f_equal. unfold set_materials. cbn. rewrite insert_insert_eq.
      rewrite with_node_tree_compose. unfold strip_nodes. cbn [foldl]. now rewrite E.
    + erewrite bind_run; [|reflexivity]. rewrite (IH _ _ Hm).
      unfold strip_nodes. cbn [foldl]. now rewrite E.
Qed.

Lemma strip_material_run (s : State) (mat : MatId) (m : Material) :
  st_materials s !! mat = Some m ->
  strip_material (Some mat) s = (Ret tt, set_materials (insert mat (strip m)) s).
Proof.
  intros Hm. unfold strip_material, strip.
  rewrite (bind_run _ _ _ _ _ (deref_material_some _ _ _ Hm)).
  destruct (use_nodes m); [|now rewrite set_materials_insert_id].
  destruct (node_tree m) as [tree|] eqn:T; [|now rewrite set_materials_insert_id].
  rewrite (bind_run _ _ _ _ _ (node_loop_run _ _ _ _ Hm)).
  erewrite set_material_run by (cbn; apply lookup_insert_eq).
  f_equal. unfold set_materials. cbn. now rewrite insert_insert_eq.
Qed.

Lemma strip_loop_run (slots : list (option MatId)) (s : State) :
  (forall slot, slot ∈ slots -> exists mat, slot = Some mat /\ is_Some (st_materials s !! mat)) ->
  for_each slots strip_material s
  = (Ret tt, set_materials (fun mats => foldl strip_slot mats slots) s).
Proof.
  revert s. induction slots as [|slot slots IH]; intros s Hslots.
  - cbn. now destruct s.
  - destruct (Hslots slot) as (mat & -> & [m Hm]); [left|].
    cbn [for_each foldl].
    rewrite (bind_run _ _ _ _ _ (strip_material_run _ _ _ Hm)).
    rewrite IH.
    + f_equal. unfold set_materials. cbn [st_materials st_objects st_active st_mode st_camera
        st_filepath st_dirs st_files st_stdout st_calls strip_slot]. now rewrite Hm.
    + intros slot Hin. destruct (Hslots slot) as (mat' & -> & [m' Hm']); [now right|].
      exists mat'. split; [reflexivity|]. cbn.
      destruct (decide (mat = mat')) as [->|Hne].
      * rewrite lookup_insert_eq. eauto.
      * rewrite lookup_insert_ne by exact Hne. eauto.
Qed.

Lemma settle_step (before m : Material) :
  m = before \/ settled before m -> settled before (strip m).
Proof.
  unfold settled. destruct (shaded before) eqn:B.
  - intros [-> | (Hs & _ & _)]; now apply strip_shaded.
  - intros [-> | ->]; now apply strip_unshaded.
Qed.

Lemma strip_loop_settles (before : gmap MatId Material) (slots : list (option MatId))
    (mats : gmap MatId Material) (handled : MatId -> Prop) :
  (forall mat m0, before !! mat = Some m0 ->
     exists m, mats !! mat = Some m /\ (m = m0 \/ settled m0 m) /\ (handled mat -> settled m0 m)) ->
  forall mat m0, before !! mat = Some m0 ->
    exists m, foldl strip_slot mats slots !! mat = Some m
              /\ (m = m0 \/ settled m0 m)
              /\ (handled mat \/ Some mat ∈ slots -> settled m0 m).
Proof.
  revert mats handled. induction slots as [|slot slots IH]; intros mats handled Hinv mat m0 Hm0.
  - cbn. destruct (Hinv mat m0 Hm0) as (m & Hm & Hps & Hh). exists m.
    split; [exact Hm|]. split; [exact Hps|]. intros [H|H]; [auto | inversion H].
  - cbn [foldl].
    destruct (IH (strip_slot mats slot) (fun x => handled x \/ slot = Some x)) with (mat := mat) (m0 := m0)
      as (m & Hm & Hps & Hh); [|exact Hm0|].
    + clear mat m0 Hm0. intros mat m0 Hm0.
      destruct (Hinv mat m0 Hm0) as (m & Hm & Hps & Hh).
      destruct slot as [x|]; cbn [strip_slot].
      * destruct (mats !! x) as [mx|] eqn:Hx.
        -- destruct (decide (x = mat)) as [->|Hne].
           ++ rewrite lookup_insert_eq. assert (mx = m) by congruence. subst mx.
              exists (strip m). split; [reflexivity|].
              pose proof (settle_step _ _ Hps). auto.
           ++ rewrite lookup_insert_ne by exact Hne. exists m.
              split; [exact Hm|]. split; [exact Hps|]. intros [H|H]; [auto | congruence].
        -- exists m. split; [exact Hm|]. split; [exact Hps|].
           intros [H|H]; [auto|]. injection H as ->. congruence.
      * exists m. split; [exact Hm|]. split; [exact Hps|]. intros [H|H]; [auto | discriminate].
    + exists m. split; [exact Hm|]. split; [exact Hps|].
      intros [H|H]; apply Hh; [now left; left | ].
      apply elem_of_cons in H as [H|H]; [left; right; congruence | now right].
Qed.



(** *** The path of [reduce_vertices] within the target, in any context *)

Lemma quiet_refl (s : State) : quiet s s.
Proof. split; reflexivity. Qed.

Lemma quiet_trans (s1 s2 s3 : State) : quiet s1 s2 -> quiet s2 s3 -> quiet s1 s3.
Proof.
  intros [G1 C1] [G2 C2]. split; [|congruence]. intros i. now rewrite G2, G1.
Qed.

Lemma mode_set_quiet (mode : Mode) (s : State) : quiet s (snd (ops_object_mode_set mode s)).
Proof.
  unfold ops_object_mode_set. rewrite bind_unfold. unfold get. cbv beta iota.
  destruct (st_active s) as [a|]; [|apply quiet_refl].
  rewrite bind_unfold. unfold deref.
  destruct (find_object (st_objects s) a) as [o|]; [|apply quiet_refl].
  destruct mode, (obj_data o); split; reflexivity.
Qed.

Lemma edit_mesh_poll_state (s : State) : snd (edit_mesh_poll s) = s.
Proof.
  unfold edit_mesh_poll. rewrite bind_unfold. unfold get. cbv beta iota.
  destruct (st_mode s); [reflexivity|]. now destruct (st_active s).
Qed.

Lemma select_mode_quiet (s : State) : quiet s (snd (ops_mesh_select_mode_VERT s)).
Proof.
  unfold ops_mesh_select_mode_VERT. rewrite bind_unfold.
  pose proof (edit_mesh_poll_state s) as H.
  destruct (edit_mesh_poll s) as [[a|e] s']; cbn [snd] in *; subst; apply quiet_refl.
Qed.

Lemma mesh_select_all_quiet (action : SelectAction) (s : State) :
  quiet s (snd (ops_mesh_select_all action s)).
Proof.
  unfold ops_mesh_select_all. rewrite bind_unfold.
  pose proof (edit_mesh_poll_state s) as H.
  destruct (edit_mesh_poll s) as [[a|e] s']; cbn [snd] in *; subst; [|apply quiet_refl].
  split; [|reflexivity]. intros i.
  apply (geometry_of_reselect s (fun m => match action with
                                            | SELECT => seq 0 (length (vertices (mesh_geom m)))
                                            | DESELECT => []
                                            end)).
Qed.

Lemma from_edit_mesh_result (obj : ObjId) (s : State) :
  snd (bmesh_from_edit_mesh obj s) = s
  /\ forall bm, fst (bmesh_from_edit_mesh obj s) = Ret bm ->
       geometry_of s obj = Some (mesh_geom bm).
Proof.
  unfold bmesh_from_edit_mesh, geometry_of. rewrite bind_unfold. unfold get. cbv beta iota.
  rewrite bind_unfold. unfold deref.
  destruct (find_object (st_objects s) obj) as [o|]; [|split; [reflexivity | discriminate]].
  cbn [mbind option_bind].
  destruct (obj_data o); try (split; [reflexivity | discriminate]).
  destruct (st_mode s); [split; [reflexivity | discriminate]|].
  destruct (bool_decide (st_active s = Some obj)); [|split; [reflexivity | discriminate]].
  split; [reflexivity|]. intros bm [= ->]. reflexivity.
Qed.

Lemma reduce_vertices_quiet (s : State) (obj : ObjId) (o : Object) (m : Mesh) (target : Z) :
  find_object (st_objects s) obj = Some o ->
  obj_data o = MeshData m ->
  (Z.of_nat (length (vertices (mesh_geom m))) <= target)%Z ->
  quiet s (snd (reduce_vertices obj target s)).
Proof.
  intros Hfind Hdata Hle. unfold reduce_vertices.
  rewrite (bind_run _ _ _ _ _ (deref_some _ _ _ Hfind)).
  rewrite bool_decide_eq_false_2
    by (intros H; apply H; apply obj_type_mesh; eauto).
  rewrite bind_unfold. pose proof (mode_set_quiet EDIT s) as Q1.
  destruct (ops_object_mode_set EDIT s) as [[[]|e] s1]; cbn [snd] in Q1; [|exact Q1].
  rewrite bind_unfold. pose proof (select_mode_quiet s1) as Q2.
  destruct (ops_mesh_select_mode_VERT s1) as [[[]|e] s2]; cbn [snd] in Q2;
    [|exact (quiet_trans _ _ _ Q1 Q2)].
  rewrite bind_unfold. pose proof (mesh_select_all_quiet DESELECT s2) as Q3.
  destruct (ops_mesh_select_all DESELECT s2) as [[[]|e] s3]; cbn [snd] in Q3;
    [|exact (quiet_trans _ _ _ Q1 (quiet_trans _ _ _ Q2 Q3))].
  assert (Q : quiet s s3) by exact (quiet_trans _ _ _ Q1 (quiet_trans _ _ _ Q2 Q3)).
  rewrite bind_unfold. destruct (from_edit_mesh_result obj s3) as [Hst Hbm].
  destruct (bmesh_from_edit_mesh obj s3) as [[bm|e] s4]; cbn [fst snd] in *; subst s4;
    [|exact Q].
  specialize (Hbm bm eq_refl). rewrite (proj1 Q) in Hbm.
  unfold geometry_of in Hbm. rewrite Hfind in Hbm. cbn in Hbm. rewrite Hdata in Hbm.
  injection Hbm as <-.
  rewrite (proj2 (Z.leb_le _ _) Hle).
  erewrite bind_run; [|reflexivity].
  eapply quiet_trans; [exact Q|].
  eapply quiet_trans; [|apply mode_set_quiet].
  split; reflexivity.
Qed.



End RunFacts.

(** ** The JSON text *)

































(** [float_repr] on floats of either notation: the shortest decimal
    that reads back as the float, the float nearest to a rational that
    is not one, exponent notation from [1e16] on and below [1e-4], and
    the negative zero that rounding a small negative number gives. *)
Example float_repr_examples :
  float_repr (Finite (1 # 10)) = chars "0.1"
  /\ float_repr (Finite (5 # 2)) = chars "2.5"
  /\ float_repr (Finite (16777216 # 1)) = chars "16777216.0"
  /\ float_repr (Finite (12345678901234567 # 10000)) = chars "1234567890123.4568"
  /\ float_repr (Finite (9007199254740993 # 1)) = chars "9007199254740992.0"
  /\ float_repr (Finite (10000000000000000 # 1)) = chars "1e+16"
  /\ float_repr (Finite (18014398509481984 # 1)) = chars "1.8014398509481984e+16"
  /\ float_repr (Finite (123456789012345678 # 1)) = chars "1.2345678901234568e+17"
  /\ float_repr (Finite (1 # 100000)) = chars "1e-05"
  /\ float_repr (Finite (- 1234 # 100000000)) = chars "-1.234e-05"
  /\ float_repr (Finite (- 30000000000000004 # 100000000000000000)) = chars "-0.30000000000000004"
  /\ float_repr (round_float (30000000000000004 # 100000000000000000) 4) = chars "0.3"
  /\ float_repr (round_float (- 1 # 100000) 4) = chars "-0.0"
  /\ float_repr (round_float (1 # 100000) 4) = chars "0.0".
Proof. vm_compute. repeat split. Qed.




















Lemma follow_ok_indent (level : nat) (s : text) : follow_ok (newline_indent level ++ s).
Proof. reflexivity. Qed.





(** ** [export_to_json] *)

Section ExportFacts.

  Context {host : Host}.

Lemma round_half_even_bound (n : Z) (d : positive) :
  (2 * Z.abs (n - round_half_even (n # d) * Z.pos d) <= Z.pos d)%Z.
Proof.
  unfold round_half_even. cbn [Qnum Qden].
  pose proof (Z.div_mod n (Z.pos d) ltac:(lia)) as Hdm.
  pose proof (Z.mod_pos_bound n (Z.pos d) ltac:(lia)) as Hb.
  set (f := (n / Z.pos d)%Z) in *. set (r := (n mod Z.pos d)%Z) in *. clearbody f r.
  assert (E0 : (n - f * Z.pos d = r)%Z) by (rewrite Hdm at 1; ring).
  assert (E1 : (n - (f + 1) * Z.pos d = r - Z.pos d)%Z) by (rewrite Hdm at 1; ring).
  destruct (2 * r ?= Z.pos d)%Z eqn:C.
  - apply Z.compare_eq in C. destruct (Z.even f); rewrite ?E0, ?E1; lia.
  - change (2 * r < Z.pos d)%Z in C. rewrite E0. lia.
  - change (2 * r > Z.pos d)%Z in C. rewrite E1. lia.
Qed.

(** [round(x, 4)] is a multiple of [10 ** -4] within half a unit of the
    last digit of [x]. *)
Lemma round4_spec (x : Q) :
  exists k : Z, round x 4 = (k # 10000) /\ (Qabs (x - round x 4) <= 1 # 20000)%Q.
Proof.
  exists (round_half_even (x * inject_Z 10000)). split; [reflexivity|].
  destruct x as [n d]. unfold round. change (pow10 4) with 10000%positive.
  pose proof (round_half_even_bound (n * 10000) (d * 1)) as H.
  change ((n # d) * inject_Z 10000)%Q with (n * 10000 # d * 1) in *.
  set (k := round_half_even (n * 10000 # d * 1)) in *.
  unfold Qle, Qabs, Qminus, Qplus, Qopp. cbn [Qnum Qden].
  lia.
Qed.

(** [round(x, 4)] as a float: the nearest multiple of [10 ** -4], and
    negative zero when a negative number rounds to zero. *)
Lemma round_float4_spec (x : Q) :
  exists k : Z,
    (Qabs (x - (k # 10000)) <= 1 # 20000)%Q
    /\ round_float x 4 = if (k =? 0)%Z && (Qnum x <? 0)%Z then NegZero else Finite (k # 10000).
Proof.
  destruct (round4_spec x) as (k & E & H). exists k. rewrite <- E. split; [exact H|].
  unfold round_float. now rewrite E.
Qed.

Lemma dict_append_v (l r s : json) (vs es fs : list json) (item : json) :
  dict_append "v" item
    [("n", JStr "airplane"); ("l", l); ("r", r); ("s", s);
     ("v", JList vs); ("e", JList es); ("f", JList fs)]
  = [("n", JStr "airplane"); ("l", l); ("r", r); ("s", s);
     ("v", JList (vs ++ [item])); ("e", JList es); ("f", JList fs)].
Proof. reflexivity. Qed.

Lemma dict_append_e (l r s : json) (vs es fs : list json) (item : json) :
  dict_append "e" item
    [("n", JStr "airplane"); ("l", l); ("r", r); ("s", s);
     ("v", JList vs); ("e", JList es); ("f", JList fs)]
  = [("n", JStr "airplane"); ("l", l); ("r", r); ("s", s);
     ("v", JList vs); ("e", JList (es ++ [item])); ("f", JList fs)].
Proof. reflexivity. Qed.

Lemma dict_append_f (l r s : json) (vs es fs : list json) (item : json) :
  dict_append "f" item
    [("n", JStr "airplane"); ("l", l); ("r", r); ("s", s);
     ("v", JList vs); ("e", JList es); ("f", JList fs)]
  = [("n", JStr "airplane"); ("l", l); ("r", r); ("s", s);
     ("v", JList vs); ("e", JList es); ("f", JList (fs ++ [item]))].
Proof. reflexivity. Qed.

(** The three loops of [export_to_json] fill the arrays in the order of
    the mesh. *)
Lemma export_data_record (obj : Object) (mesh : Mesh) :
  export_data obj mesh = export_record obj mesh.
Proof.
  unfold export_data, export_record.
  generalize (rounded_vector (location obj)) (rounded_vector (rotation_euler obj))
             (rounded_vector (scale obj)). intros l r s.
  set (fv := fun vert => rounded_vector (mat_vec (matrix_world obj) vert)).
  set (fe := fun edge : nat * nat => JList [index (fst edge); index (snd edge)]).
  set (ff := fun face => JList (map index face)).
  assert (Hv : forall xs vs es fs,
    foldl (fun data vert => dict_append "v" (fv vert) data)
      [("n", JStr "airplane"); ("l", l); ("r", r); ("s", s);
       ("v", JList vs); ("e", JList es); ("f", JList fs)] xs
    = [("n", JStr "airplane"); ("l", l); ("r", r); ("s", s);
       ("v", JList (vs ++ map fv xs)); ("e", JList es); ("f", JList fs)]).
  { induction xs as [|x xs IH]; intros vs es fs; cbn [foldl map].
    - now rewrite app_nil_r.
    - rewrite dict_append_v, IH, <- app_assoc. reflexivity. }
  assert (He : forall xs vs es fs,
    foldl (fun data edge => dict_append "e" (fe edge) data)
      [("n", JStr "airplane"); ("l", l); ("r", r); ("s", s);
       ("v", JList vs); ("e", JList es); ("f", JList fs)] xs
    = [("n", JStr "airplane"); ("l", l); ("r", r); ("s", s);
       ("v", JList vs); ("e", JList (es ++ map fe xs)); ("f", JList fs)]).
  { induction xs as [|x xs IH]; intros vs es fs; cbn [foldl map].
    - now rewrite app_nil_r.
    - rewrite dict_append_e, IH, <- app_assoc. reflexivity. }
  assert (Hf : forall xs vs es fs,
    foldl (fun data face => dict_append "f" (ff face) data)
      [("n", JStr "airplane"); ("l", l); ("r", r); ("s", s);
       ("v", JList vs); ("e", JList es); ("f", JList fs)] xs
    = [("n", JStr "airplane"); ("l", l); ("r", r); ("s", s);
       ("v", JList vs); ("e", JList es); ("f", JList (fs ++ map ff xs))]).
  { induction xs as [|x xs IH]; intros vs es fs; cbn [foldl map].
    - now rewrite app_nil_r.
    - rewrite dict_append_f, IH, <- app_assoc. reflexivity. }
  cbv zeta. rewrite Hv, He, Hf. reflexivity.
Qed.

Lemma export_to_json_run (s : State) (obj : ObjId) (o : Object) (mesh : Mesh) (path : string) :
  find_object (st_objects s) obj = Some o ->
  obj_data o = MeshData mesh ->
  can_write path = true ->
  export_to_json obj path s
  = (Ret tt, add_stdout (MsgExported path)
               (write_file path (dumps (JDict (export_data o mesh))) (write_file path "" s))).
Proof.
  intros Hf Hd Hw. unfold export_to_json.
  rewrite (bind_run _ _ _ _ _ (deref_some _ _ _ Hf)), Hd.
  unfold open_w, file_write. rewrite Hw. reflexivity.
Qed.

(** The file cannot be opened: nothing happens to it. *)
Lemma export_to_json_unopened (s : State) (obj : ObjId) (o : Object) (mesh : Mesh) (path : string) :
  find_object (st_objects s) obj = Some o ->
  obj_data o = MeshData mesh ->
  can_write path = false ->
  partial_write path = None ->
  export_to_json obj path s = (Raise OSError, s).
Proof.
  intros Hf Hd Hw Hp. unfold export_to_json.
  rewrite (bind_run _ _ _ _ _ (deref_some _ _ _ Hf)), Hd.
  unfold open_w. rewrite Hw, Hp. reflexivity.
Qed.

(** The file is opened and the write fails: what reached the file stays
    in it. *)
Lemma export_to_json_torn (s : State) (obj : ObjId) (o : Object) (mesh : Mesh) (path : string)
    (n : nat) :
  find_object (st_objects s) obj = Some o ->
  obj_data o = MeshData mesh ->
  can_write path = false ->
  partial_write path = Some n ->
  export_to_json obj path s
  = (Raise OSError,
     write_file path (first_chars n (dumps (JDict (export_data o mesh))))
       (write_file path "" s)).
Proof.
  intros Hf Hd Hw Hp. unfold export_to_json.
  rewrite (bind_run _ _ _ _ _ (deref_some _ _ _ Hf)), Hd.
  unfold open_w, file_write. rewrite Hw, Hp. reflexivity.
Qed.

End ExportFacts.

(** ** The batch loop *)

Section BatchFacts.

  Context {host : Host}.

Lemma for_each_app {A} (xs ys : list A) (body : A -> M unit) (s s1 : State) :
  for_each xs body s = (Ret tt, s1) ->
  for_each (xs ++ ys) body s = for_each ys body s1.
Proof.
  revert s. induction xs as [|x xs IH]; intros s H; cbn [for_each app] in *.
  - injection H as ->. reflexivity.
  - rewrite bind_unfold in H |- *. destruct (body x s) as [[[]|e] s'] eqn:E; [|discriminate].
    now apply IH.
Qed.

Lemma for_each_raise {A} (x : A) (rest : list A) (body : A -> M unit) (s s' : State) (e : Exc) :
  body x s = (Raise e, s') -> for_each (x :: rest) body s = (Raise e, s').
Proof. intros H. cbn [for_each]. now rewrite (bind_fail _ _ _ _ _ H). Qed.

Lemma for_each_next {A} (x : A) (rest : list A) (body : A -> M unit) (s s' : State) :
  body x s = (Ret tt, s') -> for_each (x :: rest) body s = for_each rest body s'.
Proof. intros H. cbn [for_each]. now rewrite (bind_run _ _ _ _ _ H). Qed.

Lemma select_all_run (s : State) (action : SelectAction) :
  st_mode s = OBJECT ->
  ops_object_select_all action s
  = (Ret tt, set_objects (map (fun p =>
       (fst p, with_select (match action with SELECT => true | DESELECT => false end) (snd p)))) s).
Proof.
  intros Hm. unfold ops_object_select_all. rewrite bind_unfold. unfold get. cbv beta iota.
  now rewrite Hm.
Qed.

Lemma delete_all_selected (l : list (ObjId * Object)) :
  filter (fun p : ObjId * Object => negb (obj_select (snd p)))
         (map (fun p => (fst p, with_select true (snd p))) l) = [].
Proof.
  induction l as [|p l IH]; [reflexivity|]. cbn [map].
  rewrite filter_cons_False by (cbn; auto). exact IH.
Qed.

Lemma clear_scene_run (s : State) :
  st_mode s = OBJECT ->
  clear_scene s = (Ret tt, set_camera None (set_active None (set_objects (fun _ => []) s))).
Proof.
  intros Hm. unfold clear_scene.
  rewrite (bind_run _ _ _ _ _ (select_all_run _ _ Hm)).
  unfold ops_object_delete. rewrite bind_unfold. unfold get. cbv beta iota.
  cbn [st_mode set_objects]. rewrite Hm. unfold modify. f_equal.
  unfold clear_pointers, set_camera, set_active, set_objects.
  cbn [st_objects st_active st_mode st_materials st_camera st_filepath st_dirs st_files
       st_stdout st_calls].
  rewrite delete_all_selected.
  now destruct (st_active s), (st_camera s).
Qed.

Lemma add_objects_run (objs : list Object) (s : State) :
  exists l, for_each objs (fun o => _ ← add_object o; mret tt) s
            = (Ret tt, set_objects (fun _ => l) s)
            /\ map snd l = map snd (st_objects s) ++ objs.
Proof.
  revert s. induction objs as [|o objs IH]; intros s.
  - exists (st_objects s). split; [destruct s; reflexivity | now rewrite app_nil_r].
  - cbn [for_each]. erewrite bind_run; [|reflexivity].
    destruct (IH (set_objects (fun l => l ++ [(fresh_object_id s, o)]) s)) as (l & Hrun & Hl).
    exists l. split; [exact Hrun|].
    rewrite Hl. cbn [st_objects set_objects]. rewrite map_app, <- app_assoc. reflexivity.
Qed.

Lemma import_glb_run (s : State) (filepath : string) (objs : list Object)
    (mats : gmap MatId Material) :
  gltf_import filepath s = Some (objs, mats) ->
  exists l, import_glb filepath s
            = (Ret tt, add_call (CallImport filepath)
                         (set_materials (fun _ => mats) (set_objects (fun _ => l) s)))
            /\ map snd l = map snd (st_objects s) ++ objs.
Proof.
  intros Himp. unfold import_glb, ops_import_scene_gltf.
  rewrite bind_unfold. unfold get. cbv beta iota. rewrite Himp.
  destruct (add_objects_run objs s) as (l & Hrun & Hl).
  exists l. split; [|exact Hl].
  now rewrite (bind_run _ _ _ _ _ Hrun).
Qed.

Lemma import_glb_fails (s : State) (filepath : string) :
  gltf_import filepath s = None -> import_glb filepath s = (Raise RuntimeError, s).
Proof.
  intros Himp. unfold import_glb, ops_import_scene_gltf.
  rewrite bind_unfold. unfold get. cbv beta iota. now rewrite Himp.
Qed.

Lemma no_mesh_filter (l : list (ObjId * Object)) :
  Forall (fun o => obj_type o <> MESH) (map snd l) ->
  filter (fun p : ObjId * Object => bool_decide (obj_type (snd p) = MESH))
         (map (fun p => (fst p, with_select false (snd p))) l) = [].
Proof.
  induction l as [|p l IH]; cbn [map]; intros H; [reflexivity|].
  apply Forall_cons in H as [Hp Hl].
  rewrite filter_cons_False.
  - now apply IH.
  - cbn. rewrite bool_decide_eq_false_2; [auto | exact Hp].
Qed.

Lemma merge_no_mesh_run (s : State) :
  st_mode s = OBJECT ->
  Forall (fun o => obj_type o <> MESH) (map snd (st_objects s)) ->
  merge_all_meshes s
  = (Ret None, add_stdout MsgNoMeshToMerge
                 (set_objects (map (fun p => (fst p, with_select false (snd p)))) s)).
Proof.
  intros Hm Hno. unfold merge_all_meshes.
  rewrite (bind_run _ _ _ _ _ (select_all_run _ _ Hm)).
  rewrite bind_unfold. unfold get. cbv beta iota.
  cbn [st_objects set_objects]. rewrite (no_mesh_filter _ Hno). reflexivity.
Qed.

(** What [merge_all_meshes] returns, when it returns an object, is the
    active object: [reduce_vertices] is called on the active object. *)
Lemma merge_returns_active (s s' : State) (obj : ObjId) :
  merge_all_meshes s = (Ret (Some obj), s') -> st_active s' = Some obj.
Proof.
  unfold merge_all_meshes. rewrite bind_unfold.
  destruct (ops_object_select_all DESELECT s) as [[[]|e] s1]; [|discriminate].
  rewrite bind_unfold. unfold get at 1. cbv beta iota.
  destruct (map fst (filter _ (st_objects s1))) as [|first rest].
  - rewrite bind_unfold. cbn. discriminate.
  - rewrite bind_unfold. unfold modify at 1. cbv beta iota.
    rewrite bind_unfold.
    destruct (for_each _ _ _) as [[[]|e] s2]; [|discriminate].
    rewrite bind_unfold.
    destruct (ops_object_join s2) as [[[]|e] s3]; [|discriminate].
    rewrite bind_unfold. unfold get. cbv beta iota. cbn. intros [= H1 H2]. now subst.
Qed.



End BatchFacts.

(** ** What the stages ask of the host *)

Section CallFacts.

  Context {host : Host}.
  Variable ok : HostCall -> Prop.

Lemma calls_extend_refl (s s' : State) : st_calls s' = st_calls s -> calls_extend ok s s'.
Proof. intros H. exists []. now rewrite H, app_nil_r. Qed.

Lemma calls_extend_trans (s1 s2 s3 : State) :
  calls_extend ok s1 s2 -> calls_extend ok s2 s3 -> calls_extend ok s1 s3.
Proof.
  intros (e1 & H1 & F1) (e2 & H2 & F2). exists (e1 ++ e2).
  split; [now rewrite H2, H1, app_assoc | now apply Forall_app].
Qed.

Lemma adds_only_ret {A} (a : A) : adds_only ok (mret a).
Proof. intros s. now apply calls_extend_refl. Qed.

Lemma adds_only_raise {A} (e : Exc) : adds_only ok (raise e : M A).
Proof. intros s. now apply calls_extend_refl. Qed.

Lemma adds_only_get : adds_only ok get.
Proof. intros s. now apply calls_extend_refl. Qed.

Lemma adds_only_modify (f : State -> State) :
  (forall s, st_calls (f s) = st_calls s) -> adds_only ok (modify f).
Proof. intros H s. apply calls_extend_refl, H. Qed.

Lemma adds_only_add_call (c : HostCall) : ok c -> adds_only ok (modify (add_call c)).
Proof. intros H s. exists [c]. split; [reflexivity | now constructor]. Qed.

Lemma adds_only_bind {A B} (c : M A) (k : A -> M B) :
  adds_only ok c -> (forall a, adds_only ok (k a)) -> adds_only ok (c ≫= k).
Proof.
  intros Hc Hk s. rewrite bind_unfold. specialize (Hc s).
  destruct (c s) as [[a|e] s']; cbn [snd] in *; [|exact Hc].
  eapply calls_extend_trans; [exact Hc | apply Hk].
Qed.

Lemma adds_only_for_each {A} (xs : list A) (body : A -> M unit) :
  (forall x, adds_only ok (body x)) -> adds_only ok (for_each xs body).
Proof.
  intros H. induction xs as [|x xs IH]; cbn [for_each].
  - apply adds_only_ret.
  - apply adds_only_bind; [apply H | intros _; exact IH].
Qed.

Lemma adds_only_quiet {A} (c : M A) :
  (forall s, st_calls (snd (c s)) = st_calls s) -> adds_only ok c.
Proof. intros H s. apply calls_extend_refl, H. Qed.

Lemma adds_only_deref (i : ObjId) : adds_only ok (deref i).
Proof. apply adds_only_quiet. intros s. unfold deref. now destruct (find_object _ _). Qed.

Lemma adds_only_deref_material (i : MatId) : adds_only ok (deref_material i).
Proof. apply adds_only_quiet. intros s. unfold deref_material. now destruct (_ !! _). Qed.

Lemma adds_only_add_object (o : Object) : adds_only ok (add_object o).
Proof. now apply adds_only_quiet. Qed.

Lemma adds_only_materials_new (name : string) : adds_only ok (data_materials_new name).
Proof. now apply adds_only_quiet. Qed.

End CallFacts.

(** One step, and all steps, of a proof that a computation adds only
    admitted calls. *)
Tactic Notation "adds_step" :=
  first
    [ apply adds_only_ret | apply adds_only_raise | apply adds_only_get
    | apply adds_only_deref | apply adds_only_deref_material
    | apply adds_only_add_object | apply adds_only_materials_new
    | apply adds_only_modify; intros; reflexivity
    | apply adds_only_add_call; exact I
    | apply adds_only_bind; [| intros ]
    | apply adds_only_for_each; intros
    | match goal with |- adds_only _ (match ?x with _ => _ end) => destruct x end
    | match goal with |- adds_only _ (if ?b then _ else _) => destruct b end ].

Tactic Notation "adds" := repeat adds_step.

Section StageCalls.

  Context {host : Host}.
  Variable ok : HostCall -> Prop.

Lemma adds_only_print (m : LogMsg) : adds_only ok (print m).
Proof. unfold print. adds. Qed.

Lemma adds_only_set_attr (i : ObjId) (f : Object -> Object) : adds_only ok (set_attr i f).
Proof. unfold set_attr. adds. Qed.

Lemma adds_only_set_material (i : MatId) (f : Material -> Material) :
  adds_only ok (set_material i f).
Proof. unfold set_material. adds. Qed.

Lemma adds_only_clear_scene : adds_only ok clear_scene.
Proof. unfold clear_scene, ops_object_select_all, ops_object_delete. adds. Qed.

Lemma adds_only_remove_textures (obj : ObjId) : adds_only ok (remove_textures obj).
Proof.
  unfold remove_textures, strip_material. adds; try apply adds_only_print;
    apply adds_only_set_material.
Qed.

Lemma adds_only_os_makedirs (path : string) : adds_only ok (os_makedirs path).
Proof. unfold os_makedirs. adds. Qed.

Lemma adds_only_export_to_json (obj : ObjId) (path : string) :
  adds_only ok (export_to_json obj path).
Proof. unfold export_to_json, open_w, file_write. adds; apply adds_only_print. Qed.

Lemma adds_only_add_plane_and_light : adds_only ok add_plane_and_light.
Proof.
  unfold add_plane_and_light, ops_mesh_primitive_plane_add, ops_object_select_all,
    data_objects_new, collection_objects_link, constraints_new_TRACK_TO, set_constraint.
  adds; try apply adds_only_set_attr; try apply adds_only_set_material.
Qed.

End StageCalls.

Section ShotFacts.

  Context {host : Host}.


Lemma import_glb_calls (position : Vector) (filepath : string) : adds_only (shot_from position) (import_glb filepath).
Proof. unfold import_glb, ops_import_scene_gltf. adds. Qed.

Lemma merge_all_meshes_calls (position : Vector) : adds_only (shot_from position) merge_all_meshes.
Proof. unfold merge_all_meshes, ops_object_select_all, ops_object_join. adds. Qed.

Lemma reduce_vertices_calls (position : Vector) (obj : ObjId) (target : Z) :
  adds_only (shot_from position) (reduce_vertices obj target).
Proof.
  unfold reduce_vertices, ops_object_mode_set, ops_mesh_select_mode_VERT, ops_mesh_select_all,
    edit_mesh_poll, bmesh_from_edit_mesh, modifiers_new_DECIMATE, set_ratio,
    set_use_collapse_triangulate, ops_object_modifier_apply, ops_mesh_remove_doubles.
  adds.
Qed.


Lemma render_image_unwritable (s : State) (output_dir base_name : string) (angle : Z)
    (distance height : option Z) :
  let image_path := path_join output_dir (image_name base_name angle) in
  can_write image_path = false ->
  exists e s',
    render_image output_dir base_name angle distance height s = (Raise e, s')
    /\ st_filepath s' = image_path
    /\ length (st_objects s') = length (st_objects s) + 2
    /\ st_files s' = st_files s
    /\ st_calls s' = st_calls s.
Proof.
  intros image_path Hw.
  set (loc := camera_position angle (default default_distance distance)
                              (default default_height height)).
  destruct (setup_camera_run s loc) as (tgt & cam_name & tgt_name & Hne & Htgt & Hsetup).
  unfold render_image. fold image_path loc.
  rewrite bind_unfold. unfold get at 1. cbv beta iota.
  rewrite (bind_run _ _ _ _ _ Hsetup). cbv beta iota.
  erewrite bind_run; [|reflexivity]. cbv beta.
  erewrite bind_run; [|reflexivity]. cbv beta.
  match goal with |- context [(ops_render_render ≫= _) ?st] =>
    destruct (render_unwritable st Hw) as [e He]; rewrite (bind_fail _ _ _ _ _ He)
  end.
  eexists _, _. split; [reflexivity|].
  cbn [st_filepath st_objects st_files st_calls set_filepath set_camera staged set_objects].
  repeat split; try reflexivity. rewrite length_app. reflexivity.
Qed.

Lemma render_image_calls (output_dir base_name : string) (angle : Z) (distance height : option Z) :
  adds_only
    (shot_from (camera_position angle (default default_distance distance)
                                 (default default_height height)))
    (render_image output_dir base_name angle distance height).
Proof.
  intros s.
  destruct (can_write (path_join output_dir (image_name base_name angle))) eqn:Hw.
  - destruct (render_image_run s output_dir base_name angle distance height Hw)
      as (s' & still & Hrun & _ & _ & _ & _ & _ & _ & _ & Hcalls).
    rewrite Hrun. eexists. split; [exact Hcalls|]. constructor; [|constructor].
    split; reflexivity.
  - destruct (render_image_unwritable s output_dir base_name angle distance height Hw)
      as (e & s' & Hrun & _ & _ & _ & Hcalls).
    rewrite Hrun. now apply calls_extend_refl.
Qed.

Lemma process_glb_file_calls (output_folder : string) (target_vertex_count render_angle : Z)
    (glb_file : string) :
  adds_only (shot_from (camera_position render_angle default_distance default_height))
            (process_glb_file output_folder target_vertex_count render_angle glb_file).
Proof.
  unfold process_glb_file.
  repeat first
    [ apply adds_only_clear_scene | apply import_glb_calls | apply merge_all_meshes_calls
    | apply reduce_vertices_calls | apply adds_only_remove_textures
    | apply adds_only_add_plane_and_light | apply adds_only_os_makedirs
    | apply (render_image_calls _ _ _ None None) | apply adds_only_export_to_json
    | adds_step ].
Qed.

Lemma process_glb_files_calls (input_folder output_folder : string)
    (target_vertex_count render_angle : Z) :
  adds_only (shot_from (camera_position render_angle default_distance default_height))
            (process_glb_files input_folder output_folder target_vertex_count render_angle).
Proof.
  unfold process_glb_files.
  repeat first
    [ apply adds_only_os_makedirs | apply process_glb_file_calls | adds_step ].
Qed.

(** *** Argument binding *)

Lemma bind_keywords_names (params : list string) (kwargs : list (string * Value))
    (env env' : list (string * Value)) :
  bind_keywords params kwargs env = Some env' ->
  forall k, k ∈ map fst kwargs -> k ∈ params.
Proof.
  revert env. induction kwargs as [|[k v] kwargs IH]; intros env H k' Hin.
  - inversion Hin.
  - cbn [bind_keywords] in H. destruct (bool_decide (k ∈ params)) eqn:E; [|discriminate].
    apply bool_decide_eq_true in E.
    destruct (lookup_name k env); [discriminate|].
    cbn [map fst] in Hin. apply elem_of_cons in Hin as [->|Hin]; [exact E|].
    eapply IH; eauto.
Qed.

Lemma bind_arguments_names (args : list Value) (kwargs : list (string * Value))
    (env : list (string * Value)) :
  bind_arguments process_glb_files_signature args kwargs = Some env ->
  forall k, k ∈ map fst kwargs ->
    k ∈ ["input_folder"; "output_folder"; "target_vertex_count"; "render_angle"].
Proof.
  unfold bind_arguments. intros H k Hin.
  destruct (bind_positional _ args) as [env0|]; [|discriminate]. cbn [mbind option_bind] in H.
  destruct (bind_keywords _ kwargs env0) as [env1|] eqn:E; [|discriminate].
  exact (bind_keywords_names _ _ _ _ E k Hin).
Qed.

End ShotFacts.
(** ** [render_image], failing and succeeding *)

Section RenderFacts.
Context {host : Host}.

Lemma render_fails (s : State) :
  can_write (st_filepath s) = false -> ops_render_render s = (Raise RuntimeError, s).
Proof.
  intros Hw. unfold ops_render_render. rewrite bind_unfold. unfold get. cbv beta iota.
  destruct (clear_pointer (st_objects s) (st_camera s)); [|reflexivity].
  now rewrite Hw.
Qed.

(** A failed render leaves the scene as it was staged for the shot. *)
Lemma render_image_fails (s : State) (output_dir base_name : string) (angle : Z)
    (distance height : option Z) :
  let image_path := path_join output_dir (image_name base_name angle) in
  let loc := camera_position angle (default default_distance distance)
                             (default default_height height) in
  can_write image_path = false ->
  exists tgt cam_name tgt_name,
    tgt <> fresh_object_id s
    /\ find_object (st_objects s) tgt = None
    /\ render_image output_dir base_name angle distance height s
       = (Raise RuntimeError,
          shooting s (fresh_object_id s) tgt cam_name tgt_name loc image_path).
Proof.
  intros image_path loc Hw.
  destruct (setup_camera_run s loc) as (tgt & cam_name & tgt_name & Hne & Htgt & Hsetup).
  exists tgt, cam_name, tgt_name. split; [exact Hne|]. split; [exact Htgt|].
  unfold render_image. fold image_path loc.
  rewrite bind_unfold. unfold get at 1. cbv beta iota.
  rewrite (bind_run _ _ _ _ _ Hsetup). cbv beta iota.
  erewrite bind_run; [|reflexivity]. cbv beta.
  erewrite bind_run; [|reflexivity]. cbv beta.
  change (set_filepath image_path (set_camera (Some (fresh_object_id s)) _))
    with (shooting s (fresh_object_id s) tgt cam_name tgt_name loc image_path).
  apply bind_fail. apply render_fails. exact Hw.
Qed.

(** After a successful [render_image] the scene has no camera: the one
    it set was removed. *)
Lemma render_image_camera (s : State) (output_dir base_name : string) (angle : Z)
    (distance height : option Z) :
  can_write (path_join output_dir (image_name base_name angle)) = true ->
  st_camera (snd (render_image output_dir base_name angle distance height s)) = None.
Proof.
  intros Hw.
  set (image_path := path_join output_dir (image_name base_name angle)) in *.
  set (loc := camera_position angle (default default_distance distance)
                              (default default_height height)).
  destruct (setup_camera_run s loc) as (tgt & cam_name & tgt_name & Hne & Htgt & Hsetup).
  pose proof (find_object_fresh s) as Hcam.
  set (cam := fresh_object_id s) in *.
  assert (Hct : Nat.eqb cam tgt = false) by (apply Nat.eqb_neq; congruence).
  assert (Htc : Nat.eqb tgt cam = false) by (apply Nat.eqb_neq; congruence).
  unfold render_image. fold image_path loc.
  rewrite bind_unfold. unfold get at 1. cbv beta iota.
  rewrite (bind_run _ _ _ _ _ Hsetup). cbv beta iota.
  erewrite bind_run; [|reflexivity]. cbv beta.
  erewrite bind_run; [|reflexivity]. cbv beta.
  change (set_filepath image_path (set_camera (Some cam) _))
    with (shooting s cam tgt cam_name tgt_name loc image_path).
  assert (Hfc : find_object (st_objects (shooting s cam tgt cam_name tgt_name loc image_path)) cam
                = Some (camera_object cam_name loc tgt)).
  { cbn [shooting st_objects set_filepath set_camera staged set_objects].
    rewrite find_object_app, Hcam. cbn. now rewrite Nat.eqb_refl. }
  erewrite bind_run; [| eapply render_run; [reflexivity | exact Hfc | exact Hw]].
  cbv beta.
  erewrite bind_run; [| eapply remove_run; exact Hfc].
  cbv beta.
  assert (Hleft : remove_object cam (st_objects s ++ [(cam, camera_object cam_name loc tgt);
                                                        (tgt, target_object tgt_name)])
                  = st_objects s ++ [(tgt, target_object tgt_name)]).
  { rewrite remove_object_app by exact Hcam.
    rewrite remove_object_here by (cbn [find_object]; now rewrite Hct). reflexivity. }
  erewrite bind_run.
  2:{ eapply remove_run.
      cbn [shooting st_objects set_filepath set_camera staged set_objects clear_pointers
           add_call write_file set_active].
      rewrite Hleft, find_object_app, Htgt. cbn. now rewrite Nat.eqb_refl. }
  cbv beta.
  erewrite bind_run; [|reflexivity]. cbv beta.
  cbn [shooting st_objects st_camera set_filepath set_camera staged set_objects clear_pointers
       add_call write_file set_active print modify add_stdout snd clear_pointer].
  rewrite Hleft, find_object_app, Hcam. cbn [find_object]. rewrite Hct. reflexivity.
Qed.

End RenderFacts.


(** * The claims *)

Section Claims.

  Context {host : Host}.

(** C1, as amended: a fatal failure of a stage of one asset's pipeline (an
    exception of any kind raised while [process_glb_file] runs for that
    file) is not caught by [process_glb_files]: the batch ends with that
    exception, in the state the failing asset left, and the files after it
    in the listing are not processed. *)
Theorem process_glb_files_stops_at_failure
    (input_folder output_folder : string) (target_vertex_count render_angle : Z)
    (s s0 s1 s2 : State) (done : list string) (glb_file : string) (rest : list string) (e : Exc) :
  os_makedirs output_folder s = (Ret tt, s0) ->
  glob (path_join input_folder "*.glb") = done ++ glb_file :: rest ->
  for_each done (process_glb_file output_folder target_vertex_count render_angle) s0 = (Ret tt, s1) ->
  process_glb_file output_folder target_vertex_count render_angle glb_file s1 = (Raise e, s2) ->
  process_glb_files input_folder output_folder target_vertex_count render_angle s = (Raise e, s2).
Proof.
  intros Hdirs Hglob Hdone Hfail. unfold process_glb_files.
  rewrite (bind_run _ _ _ _ _ Hdirs), Hglob.
  assert (Hloop : for_each (done ++ glb_file :: rest)
                    (process_glb_file output_folder target_vertex_count render_angle) s0
                  = (Raise e, s2)).
  { rewrite (for_each_app _ _ _ _ _ Hdone). now apply for_each_raise. }
  destruct (done ++ glb_file :: rest) eqn:E; [|exact Hloop].
  destruct done; discriminate.
Qed.

(** C2: for a mesh object with no more vertices than the target,
    [reduce_vertices] is a no-op on geometry: whatever the context and the
    outcome, the vertices, edges and faces of every mesh are as they were
    and no decimation and no weld is run; and called on the active object
    (the operators act on the context, and the orchestrator passes the
    active object) it returns. *)
Theorem reduce_vertices_within_target (s : State) (obj : ObjId) (o : Object) (m : Mesh)
    (target_vertex_count : Z) :
  find_object (st_objects s) obj = Some o ->
  obj_data o = MeshData m ->
  (Z.of_nat (length (vertices (mesh_geom m))) <= target_vertex_count)%Z ->
  (forall i, geometry_of (snd (reduce_vertices obj target_vertex_count s)) i = geometry_of s i)
  /\ geometry_of (snd (reduce_vertices obj target_vertex_count s)) obj = Some (mesh_geom m)
  /\ st_calls (snd (reduce_vertices obj target_vertex_count s)) = st_calls s
  /\ (st_active s = Some obj -> fst (reduce_vertices obj target_vertex_count s) = Ret tt).
Proof.
  intros Hfind Hdata Hle.
  destruct (reduce_vertices_quiet s obj o m target_vertex_count Hfind Hdata Hle) as [Hgeom Hcalls].
  split; [exact Hgeom|]. split; [|split; [exact Hcalls|]].
  - rewrite Hgeom. unfold geometry_of. rewrite Hfind. cbn. now rewrite Hdata.
  - intros Hact. now rewrite (reduce_vertices_noop_run _ _ _ _ _ Hfind Hdata Hact Hle).
Qed.

(** C7: for an asset whose import leaves no mesh object in the scene,
    [merge_all_meshes] returns [None] without raising, the orchestrator
    prints its skip line, creates no directory and writes no file for the
    asset, and goes on with the rest of the batch. *)
Theorem no_mesh_asset_is_skipped (output_folder : string) (target_vertex_count render_angle : Z)
    (s : State) (glb_file : string) (rest : list string) :
  st_mode s = OBJECT ->
  (forall st, exists objs mats,
      gltf_import glb_file st = Some (objs, mats)
      /\ Forall (fun o => obj_type o <> MESH) objs) ->
  exists s_imported s_merged s',
    import_glb glb_file (snd (clear_scene (add_stdout (MsgProcessing glb_file) s)))
    = (Ret tt, s_imported)
    /\ merge_all_meshes s_imported = (Ret None, s_merged)
    /\ process_glb_file output_folder target_vertex_count render_angle glb_file s = (Ret tt, s')
    /\ st_dirs s' = st_dirs s
    /\ st_files s' = st_files s
    /\ st_stdout s' = st_stdout s ++ [MsgProcessing glb_file; MsgNoMeshToMerge; MsgSkipping glb_file]
    /\ for_each (glb_file :: rest)
         (process_glb_file output_folder target_vertex_count render_angle) s
       = for_each rest (process_glb_file output_folder target_vertex_count render_angle) s'.
Proof.
  intros Hmode Himport.
  set (s1 := add_stdout (MsgProcessing glb_file) s).
  assert (Hm1 : st_mode s1 = OBJECT) by exact Hmode.
  pose proof (clear_scene_run s1 Hm1) as Hclear.
  set (s2 := set_camera None (set_active None (set_objects (fun _ => []) s1))) in *.
  destruct (Himport s2) as (objs & mats & Himp & Hno).
  destruct (import_glb_run s2 glb_file objs mats Himp) as (l & Hrun & Hl).
  set (s3 := add_call (CallImport glb_file)
               (set_materials (fun _ => mats) (set_objects (fun _ => l) s2))) in *.
  assert (Hmerge : merge_all_meshes s3
                   = (Ret None, add_stdout MsgNoMeshToMerge
                        (set_objects (map (fun p => (fst p, with_select false (snd p)))) s3))).
  { apply merge_no_mesh_run; [exact Hmode|]. cbn [s3 st_objects add_call set_materials set_objects].
    now rewrite Hl. }
  assert (Hfile : process_glb_file output_folder target_vertex_count render_angle glb_file s
                  = (Ret tt, add_stdout (MsgSkipping glb_file)
                       (add_stdout MsgNoMeshToMerge
                          (set_objects (map (fun p => (fst p, with_select false (snd p)))) s3)))).
  { unfold process_glb_file.
    erewrite bind_run; [|reflexivity]. fold s1.
    rewrite (bind_run _ _ _ _ _ Hclear), (bind_run _ _ _ _ _ Hrun), (bind_run _ _ _ _ _ Hmerge).
    reflexivity. }
  eexists _, _, _. split.
  { rewrite Hclear. exact Hrun. }
  split; [exact Hmerge|]. split; [exact Hfile|].
  split; [reflexivity|]. split; [reflexivity|]. split.
  - cbn. rewrite <- !app_assoc. reflexivity.
  - now apply for_each_next.
Qed.

(** C10, as amended: a call of [render_image] whose render succeeds
    returns with the render file path of the scene put back to what it
    was on entry and with the objects of the scene as they were (the
    camera and the target it created are removed again); the still is the
    only file written, and the mode, the materials and the directories
    are untouched; but the scene camera is left unset, whatever it was on
    entry.  A call whose render fails restores nothing: the exception
    leaves [render_image] at once, the render file path stays the image
    path, and the camera and the target stay in the scene, the camera as
    the scene camera. *)
Theorem render_image_restores_after_success_only (s : State) (output_dir base_name : string)
    (angle : Z) (distance height : option Z) :
  let image_path := path_join output_dir (image_name base_name angle) in
  (can_write image_path = true ->
   exists s' still,
     render_image output_dir base_name angle distance height s = (Ret tt, s')
     /\ st_filepath s' = st_filepath s
     /\ st_objects s' = st_objects s
     /\ st_camera s' = None
     /\ st_mode s' = st_mode s
     /\ st_materials s' = st_materials s
     /\ st_dirs s' = st_dirs s
     /\ st_files s' = <[ image_path := still ]> (st_files s))
  /\ (can_write image_path = false ->
      exists s' cam tgt c t,
        render_image output_dir base_name angle distance height s = (Raise RuntimeError, s')
        /\ st_filepath s' = image_path
        /\ st_objects s' = st_objects s ++ [(cam, c); (tgt, t)]
        /\ obj_type c = CAMERA
        /\ obj_type t = EMPTY
        /\ st_camera s' = Some cam
        /\ st_files s' = st_files s).
Proof.
  intros image_path. split; intros Hw.
  - destruct (render_image_run s output_dir base_name angle distance height Hw)
      as (s' & still & Hrun & Hobjs & Hpath & Hmode & Hmats & Hdirs & Hfiles & _ & _).
    pose proof (render_image_camera s output_dir base_name angle distance height Hw) as Hc.
    rewrite Hrun in Hc. exists s', still. auto 10.
  - destruct (render_image_fails s output_dir base_name angle distance height Hw)
      as (tgt & cam_name & tgt_name & _ & _ & Hrun).
    eexists _, (fresh_object_id s), tgt, _, _.
    split; [exact Hrun|]. repeat split.
Qed.

(** C3: for a mesh object with more vertices than the target, a positive
    integer (the object being the active one), [reduce_vertices] returns
    after exactly one decimation, in collapse mode, with ratio
    [target_vertex_count / initial_vertex_count], a ratio strictly between
    0 and 1, and triangulation on collapse, followed by exactly one weld of
    all vertices with threshold [1e-4]: these two are the calls it adds to
    the history of the host, in this order, and the mesh is left with the
    weld of the decimated geometry. *)
Theorem reduce_vertices_over_target (s : State) (obj : ObjId) (o : Object) (m : Mesh) (target_vertex_count : Z) :
  find_object (st_objects s) obj = Some o ->
  obj_data o = MeshData m ->
  st_active s = Some obj ->
  (0 < target_vertex_count)%Z ->
  (target_vertex_count < Z.of_nat (length (vertices (mesh_geom m))))%Z ->
  let ratio := (inject_Z target_vertex_count / inject_Z (Z.of_nat (length (vertices (mesh_geom m)))))%Q in
  let decimated := decimate COLLAPSE ratio true (mesh_geom m) in
  (0 < ratio)%Q /\ (ratio < 1)%Q
  /\ exists s',
       reduce_vertices obj target_vertex_count s = (Ret tt, s')
       /\ st_calls s' = st_calls s ++ [CallDecimate COLLAPSE ratio true; CallRemoveDoubles (1 # 10000)]
       /\ geometry_of s' obj
          = Some (remove_doubles (1 # 10000) (seq 0 (length (vertices decimated))) decimated).
Proof.
  intros Hfind Hdata Hact Hpos Hlt ratio decimated.
  destruct (ratio_bounds _ _ Hpos Hlt) as [Hr0 Hr1]. fold ratio in Hr0, Hr1.
  split; [exact Hr0|]. split; [exact Hr1|].
  destruct o as [name data loc rot sc mw sel mods cons]. cbn in Hdata. subst data.
  unfold reduce_vertices.
  run_with deref_some. cbn [obj_type obj_data].
  rewrite bool_decide_eq_false_2 by (intros H; now apply H).
  run_with mode_set_run.
  run_with select_mode_run.
  run_with mesh_select_all_run.
  run_with from_edit_mesh_run.
  cbn [mesh_geom with_selected].
  rewrite (proj2 (Z.leb_gt _ _) Hlt).
  destruct (Nat.eqb (length (vertices (mesh_geom m))) 0) eqn:E0;
    [apply Nat.eqb_eq in E0; lia|].
  erewrite bind_run; [|reflexivity]. fold ratio.
  run_with mode_set_run.
  run_with modifiers_new_run.
  unfold set_ratio, set_use_collapse_triangulate.
  run_with set_attr_run.
  run_with set_attr_run.
  rewrite (clamp01_inside _ Hr0 Hr1).
  erewrite bind_run;
    [| eapply modifier_apply_decimate_run;
       [reflexivity | exact Hact | solve_find
       | cbn -[update_modifier fresh_modifier_id]; rewrite update_modifier_compose;
         rewrite find_fresh_modifier; [reflexivity | unfold fresh_modifier_id; lia] ] ].
  run_with mode_set_run.
  run_with mesh_select_all_run.
  run_with remove_doubles_run.
  run_with from_edit_mesh_run.
  run_with mode_set_run.
  eexists. split; [reflexivity|]. split.
  - cbn. rewrite <- app_assoc. reflexivity.
  - unfold geometry_of. cbn -[update_modifier fresh_modifier_id].
    match goal with
    | |- context [find_object ?l obj] =>
        let H := fresh in
        eassert (H : find_object l obj = Some _) by solve_find; rewrite H
    end.
    reflexivity.
Qed.

(** C4: the JSON artifact holds, for every vertex of the mesh, its local
    coordinate [(x, y, z)] multiplied by the world matrix of the object,
    that is [m00 x + m01 y + m02 z + m03] for the first coordinate and the
    like with the second and the third row for the other two, and then
    rounded; and the location, the rotation and the scale of the object
    rounded the same way.  Every such number is [round(., 4)] of the number
    it is made from: the multiple of [10 ** -4] nearest to it, within half
    a unit of the fourth digit, negative zero when a negative number rounds
    to zero.  (The numbers of the scene are exact rationals here; the
    single precision of the product in Blender is not modelled.) *)
Theorem export_to_json_world_coordinates_rounded (s : State) (obj : ObjId) (o : Object)
    (mesh : Mesh) (output_filepath : string) :
  let rounded (x : Q) := JFloat (round_float x 4) in
  let world (r : Row4) (v : Vector) := (c0 r * vx v + c1 r * vy v + c2 r * vz v + c3 r)%Q in
  find_object (st_objects s) obj = Some o ->
  obj_data o = MeshData mesh ->
  can_write output_filepath = true ->
  exists s',
    export_to_json obj output_filepath s = (Ret tt, s')
    /\ st_files s' !! output_filepath
       = Some (dumps (JDict
           [ ("n", JStr "airplane");
             ("l", JList [rounded (vx (location o)); rounded (vy (location o));
                          rounded (vz (location o))]);
             ("r", JList [rounded (vx (rotation_euler o)); rounded (vy (rotation_euler o));
                          rounded (vz (rotation_euler o))]);
             ("s", JList [rounded (vx (scale o)); rounded (vy (scale o)); rounded (vz (scale o))]);
             ("v", JList (map (fun vert => JList [rounded (world (row0 (matrix_world o)) vert);
                                                  rounded (world (row1 (matrix_world o)) vert);
                                                  rounded (world (row2 (matrix_world o)) vert)])
                              (vertices (mesh_geom mesh))));
             ("e", JList (map (fun edge => JList [index (fst edge); index (snd edge)])
                              (edges (mesh_geom mesh))));
             ("f", JList (map (fun face => JList (map index face))
                              (polygons (mesh_geom mesh)))) ]))
    /\ forall x, exists k : Z,
         (Qabs (x - (k # 10000)) <= 1 # 20000)%Q
         /\ round_float x 4
            = if (k =? 0)%Z && (Qnum x <? 0)%Z then NegZero else Finite (k # 10000).
Proof.
  intros rounded world Hfind Hdata Hw. eexists. split.
  - exact (export_to_json_run _ _ _ _ _ Hfind Hdata Hw).
  - split.
    + cbn [st_files add_stdout write_file]. rewrite lookup_insert_eq, export_data_record.
      reflexivity.
    + apply round_float4_spec.
Qed.


(** C6, as amended: for a mesh whose material slots are all filled,
    [remove_textures] returns, and every material of the mesh that uses a
    shading graph ([use_nodes] set and a node tree present) has no image
    texture node left in that graph and has its [diffuse_color] set to
    opaque white [(1, 1, 1, 1)]; a material without a shading graph in use
    is left as it was.  In particular, of two materials that both use
    shading graphs, one with an image texture and one without, both end
    without image texture and white. *)
Theorem remove_textures_settles (s : State) (obj : ObjId) (o : Object) (mesh : Mesh) :
  find_object (st_objects s) obj = Some o ->
  obj_data o = MeshData mesh ->
  materials mesh <> [] ->
  (forall slot, slot ∈ materials mesh ->
     exists mat, slot = Some mat /\ is_Some (st_materials s !! mat)) ->
  exists s',
    remove_textures obj s = (Ret tt, s')
    /\ st_objects s' = st_objects s
    /\ forall mat before, Some mat ∈ materials mesh -> st_materials s !! mat = Some before ->
         exists after,
           st_materials s' !! mat = Some after
           /\ if use_nodes before && bool_decide (is_Some (node_tree before))
              then uses_texture after = false /\ diffuse_color after = mkRGBA 1 1 1 1
              else after = before.
Proof.
  intros Hfind Hdata Hne Hslots.
  exists (set_materials (fun mats => foldl strip_slot mats (materials mesh)) s).
  split.
  - unfold remove_textures.
    rewrite (bind_run _ _ _ _ _ (deref_some _ _ _ Hfind)), Hdata.
    destruct (materials mesh) as [|slot slots] eqn:E; [congruence|].
    now apply strip_loop_run.
  - split; [reflexivity|]. intros mat before Hin Hbefore.
    destruct (strip_loop_settles (st_materials s) (materials mesh) (st_materials s) (fun _ => False))
      with (mat := mat) (m0 := before) as (after & Hafter & _ & Hset).
    + intros i m0 Hi. exists m0. split; [exact Hi|]. split; [now left | tauto].
    + exact Hbefore.
    + exists after. split; [exact Hafter|].
      specialize (Hset (or_intror Hin)). unfold settled, shaded in Hset.
      destruct (use_nodes before); cbn [andb] in *; [|exact Hset].
      destruct (node_tree before) eqn:T.
      * rewrite bool_decide_eq_true_2 by eauto. tauto.
      * rewrite bool_decide_eq_false_2 by (intros [? ?]; discriminate). exact Hset.
Qed.

(** C8: for an object whose type is not [MESH], [reduce_vertices] raises
    [TypeError] and leaves the whole state, mesh data included, as it
    was. *)
Theorem reduce_vertices_rejects_non_mesh (s : State) (obj : ObjId) (o : Object) (target_vertex_count : Z) :
  find_object (st_objects s) obj = Some o ->
  obj_type o <> MESH ->
  reduce_vertices obj target_vertex_count s = (Raise TypeError, s).
Proof.
  intros Hfind Htype. unfold reduce_vertices.
  rewrite bind_unfold, (deref_some _ _ _ Hfind).
  rewrite bool_decide_eq_true_2 by assumption. reflexivity.
Qed.

(** C9, as amended: the batch entry point takes [input_folder],
    [output_folder], [target_vertex_count] and [render_angle] and no other
    option; [render_angle] defaults to 45; there is no option for the
    distance or the height of the camera.  For every asset, whatever the
    outcome, every render the batch asks for is shot from
    [(5 cos a, 5 sin a, 2)], [a] being the caller's angle in radians (the
    defaults of [render_image], distance 5 and height 2), with the camera
    tracking a target at the world origin. *)
Theorem camera_placement_is_fixed (input_folder output_folder : string)
    (target_vertex_count render_angle : Z) (s : State) :
  (forall args kwargs env,
      bind_arguments process_glb_files_signature args kwargs = Some env ->
      forall k, k ∈ map fst kwargs ->
        k ∈ ["input_folder"; "output_folder"; "target_vertex_count"; "render_angle"])
  /\ call_process_glb_files [VStr input_folder; VStr output_folder; VInt target_vertex_count] []
     = process_glb_files input_folder output_folder target_vertex_count 45
  /\ call_process_glb_files
       [VStr input_folder; VStr output_folder; VInt target_vertex_count; VInt render_angle] []
     = process_glb_files input_folder output_folder target_vertex_count render_angle
  /\ calls_extend
       (shot_from (mkVector (5 * math_cos (math_radians (inject_Z render_angle)))
                            (5 * math_sin (math_radians (inject_Z render_angle)))
                            2))
       s (snd (process_glb_files input_folder output_folder target_vertex_count render_angle s)).
Proof.
  split; [exact bind_arguments_names|]. split; [reflexivity|]. split; [reflexivity|].
  apply (process_glb_files_calls input_folder output_folder target_vertex_count render_angle).
Qed.

End Claims.

(** * The claims on the concrete host *)

(** Witness of C1 as amended: with the JSON file of the first asset
    unwritable, its export raises [OSError] and so does the batch. *)
Lemma process_glb_files_stops_at_failure_witness :
  exists s0 s2,
    (os_makedirs (host := Demo.h_read_only) "out" Demo.empty_state = (Ret tt, s0)
     /\ glob (Host := Demo.h_read_only) (path_join (Host := Demo.h_read_only) "in" "*.glb")
        = [] ++ "in/a.glb" :: ["in/b.glb"]
     /\ for_each [] (process_glb_file (host := Demo.h_read_only) "out" 3 45) s0 = (Ret tt, s0)
     /\ process_glb_file (host := Demo.h_read_only) "out" 3 45 "in/a.glb" s0 = (Raise OSError, s2))
    /\ process_glb_files (host := Demo.h_read_only) "in" "out" 3 45 Demo.empty_state
       = (Raise OSError, s2).
Proof.
  exists (snd (os_makedirs (host := Demo.h_read_only) "out" Demo.empty_state)),
         (snd (process_glb_file (host := Demo.h_read_only) "out" 3 45 "in/a.glb"
                 (snd (os_makedirs (host := Demo.h_read_only) "out" Demo.empty_state)))).
  assert (H1 : os_makedirs (host := Demo.h_read_only) "out" Demo.empty_state
               = (Ret tt, snd (os_makedirs (host := Demo.h_read_only) "out" Demo.empty_state)))
    by (vm_compute; reflexivity).
  assert (H4 : process_glb_file (host := Demo.h_read_only) "out" 3 45 "in/a.glb"
                 (snd (os_makedirs (host := Demo.h_read_only) "out" Demo.empty_state))
               = (Raise OSError,
                  snd (process_glb_file (host := Demo.h_read_only) "out" 3 45 "in/a.glb"
                         (snd (os_makedirs (host := Demo.h_read_only) "out" Demo.empty_state)))))
    by (vm_compute; reflexivity).
  split; [split; [exact H1 | split; [reflexivity | split; [reflexivity | exact H4]]]|].
  exact (process_glb_files_stops_at_failure (host := Demo.h_read_only) "in" "out" 3 45
           Demo.empty_state _ _ _ [] "in/a.glb" ["in/b.glb"] OSError
           H1 eq_refl eq_refl H4).
Defined.

(** Counterexample to C1: the export of the first of two assets fails; the
    batch ends with [OSError], the second asset is never started and
    nothing is written for it, though alone it is processed to the end. *)
Lemma batch_aborts_on_export_failure :
  let r := process_glb_files (host := Demo.h_read_only) "in" "out" 3 45 Demo.empty_state in
  fst r = Raise OSError
  /\ st_stdout (snd r)
     = [MsgProcessing "in/a.glb"; MsgReduced 7 3; MsgRendered "out/a/a_45.png"]
  /\ ~ In (MsgProcessing "in/b.glb") (st_stdout (snd r))
  /\ st_files (snd r) !! "out/b/b.json" = None
  /\ fst (process_glb_files (host := Demo.host Demo.read_only_a ["in/b.glb"])
            "in" "out" 3 45 Demo.empty_state) = Ret tt.
Proof.
  vm_compute. repeat split.
  intros [H|[H|[H|[]]]]; discriminate.
Qed.

(** Witness of C2: four vertices, target ten. *)
Lemma reduce_vertices_within_target_witness :
  (find_object (st_objects Demo.scene) 1 = Some Demo.hull
   /\ obj_data Demo.hull = MeshData Demo.hull_mesh
   /\ (Z.of_nat (length (vertices (mesh_geom Demo.hull_mesh))) <= 10)%Z)
  /\ (forall i, geometry_of (snd (reduce_vertices (host := Demo.h) 1 10 Demo.scene)) i
                = geometry_of Demo.scene i)
  /\ geometry_of (snd (reduce_vertices (host := Demo.h) 1 10 Demo.scene)) 1
     = Some (mesh_geom Demo.hull_mesh)
  /\ st_calls (snd (reduce_vertices (host := Demo.h) 1 10 Demo.scene)) = st_calls Demo.scene
  /\ (st_active Demo.scene = Some 1%nat ->
      fst (reduce_vertices (host := Demo.h) 1 10 Demo.scene) = Ret tt).
Proof.
  assert (H : (Z.of_nat (length (vertices (mesh_geom Demo.hull_mesh))) <= 10)%Z)
    by (vm_compute; discriminate).
  split; [split; [reflexivity | split; [reflexivity | exact H]]|].
  exact (reduce_vertices_within_target (host := Demo.h) Demo.scene 1 Demo.hull Demo.hull_mesh 10
           eq_refl eq_refl H).
Defined.

(** Witness of C3: four vertices, target two; the ratio is one half. *)
Lemma reduce_vertices_over_target_witness :
  (find_object (st_objects Demo.scene) 1 = Some Demo.hull
   /\ obj_data Demo.hull = MeshData Demo.hull_mesh
   /\ st_active Demo.scene = Some 1%nat
   /\ (0 < 2)%Z
   /\ (2 < Z.of_nat (length (vertices (mesh_geom Demo.hull_mesh))))%Z)
  /\ (0 < inject_Z 2 / inject_Z 4)%Q /\ (inject_Z 2 / inject_Z 4 < 1)%Q
  /\ exists s',
       reduce_vertices (host := Demo.h) 1 2 Demo.scene = (Ret tt, s')
       /\ st_calls s'
          = st_calls Demo.scene
            ++ [CallDecimate COLLAPSE (inject_Z 2 / inject_Z 4) true; CallRemoveDoubles (1 # 10000)]
       /\ geometry_of s' 1
          = Some (Demo.remove_doubles (1 # 10000)
                    (seq 0 (length (vertices (Demo.decimate COLLAPSE (inject_Z 2 / inject_Z 4) true Demo.quad))))
                    (Demo.decimate COLLAPSE (inject_Z 2 / inject_Z 4) true Demo.quad)).
Proof.
  assert (H0 : (0 < 2)%Z) by reflexivity.
  assert (H1 : (2 < Z.of_nat (length (vertices (mesh_geom Demo.hull_mesh))))%Z) by reflexivity.
  split;
    [split; [reflexivity | split; [reflexivity | split; [reflexivity | split; [exact H0 | exact H1]]]]|].
  exact (reduce_vertices_over_target (host := Demo.h) Demo.scene 1 Demo.hull Demo.hull_mesh 2
           eq_refl eq_refl eq_refl H0 H1).
Defined.

(** Witness of C4: the mesh of [Demo.scene], whose world matrix moves it
    by [(1, 2, 3)]. *)
Lemma export_to_json_world_coordinates_rounded_witness :
  let rounded (x : Q) := JFloat (round_float x 4) in
  let world (r : Row4) (v : Vector) := (c0 r * vx v + c1 r * vy v + c2 r * vz v + c3 r)%Q in
  (find_object (st_objects Demo.scene) 1 = Some Demo.hull
   /\ obj_data Demo.hull = MeshData Demo.hull_mesh
   /\ can_write (Host := Demo.h) "out/hull.json" = true)
  /\ exists s',
       export_to_json (host := Demo.h) 1 "out/hull.json" Demo.scene = (Ret tt, s')
       /\ st_files s' !! "out/hull.json"
          = Some (dumps (JDict
              [ ("n", JStr "airplane");
                ("l", JList [rounded (vx (location Demo.hull)); rounded (vy (location Demo.hull));
                             rounded (vz (location Demo.hull))]);
                ("r", JList [rounded (vx (rotation_euler Demo.hull));
                             rounded (vy (rotation_euler Demo.hull));
                             rounded (vz (rotation_euler Demo.hull))]);
                ("s", JList [rounded (vx (scale Demo.hull)); rounded (vy (scale Demo.hull));
                             rounded (vz (scale Demo.hull))]);
                ("v", JList (map (fun vert =>
                                    JList [rounded (world (row0 (matrix_world Demo.hull)) vert);
                                           rounded (world (row1 (matrix_world Demo.hull)) vert);
                                           rounded (world (row2 (matrix_world Demo.hull)) vert)])
                                 (vertices (mesh_geom Demo.hull_mesh))));
                ("e", JList (map (fun edge => JList [index (fst edge); index (snd edge)])
                                 (edges (mesh_geom Demo.hull_mesh))));
                ("f", JList (map (fun face => JList (map index face))
                                 (polygons (mesh_geom Demo.hull_mesh)))) ]))
       /\ forall x, exists k : Z,
            (Qabs (x - (k # 10000)) <= 1 # 20000)%Q
            /\ round_float x 4
               = if (k =? 0)%Z && (Qnum x <? 0)%Z then NegZero else Finite (k # 10000).
Proof.
  split; [split; [reflexivity | split; reflexivity]|].
  exact (export_to_json_world_coordinates_rounded (host := Demo.h) Demo.scene 1 Demo.hull
           Demo.hull_mesh "out/hull.json" eq_refl eq_refl eq_refl).
Defined.



(** Witness of C6 as amended. *)
Lemma remove_textures_settles_witness :
  (find_object (st_objects Demo.scene) 1 = Some Demo.hull
   /\ obj_data Demo.hull = MeshData Demo.hull_mesh
   /\ materials Demo.hull_mesh <> []
   /\ (forall slot, slot ∈ materials Demo.hull_mesh ->
         exists mat, slot = Some mat /\ is_Some (st_materials Demo.scene !! mat)))
  /\ exists s',
       remove_textures 1 Demo.scene = (Ret tt, s')
       /\ st_objects s' = st_objects Demo.scene
       /\ forall mat before,
            Some mat ∈ materials Demo.hull_mesh -> st_materials Demo.scene !! mat = Some before ->
            exists after,
              st_materials s' !! mat = Some after
              /\ if use_nodes before && bool_decide (is_Some (node_tree before))
                 then uses_texture after = false /\ diffuse_color after = mkRGBA 1 1 1 1
                 else after = before.
Proof.
  assert (Hne : materials Demo.hull_mesh <> []) by discriminate.
  assert (Hslots : forall slot, slot ∈ materials Demo.hull_mesh ->
            exists mat, slot = Some mat /\ is_Some (st_materials Demo.scene !! mat)).
  { intros slot H. apply elem_of_cons in H as [->|H].
    - exists 1%nat. split; [reflexivity|]. vm_compute. eauto.
    - apply elem_of_cons in H as [->|H]; [|inversion H].
      exists 2%nat. split; [reflexivity|]. vm_compute. eauto. }
  split; [split; [reflexivity | split; [reflexivity | split; [exact Hne | exact Hslots]]]|].
  exact (remove_textures_settles Demo.scene 1 Demo.hull Demo.hull_mesh eq_refl eq_refl Hne Hslots).
Defined.

(** Counterexample to C6: of the two materials of the mesh of
    [Demo.scene], the second references no texture and does not use a
    shading graph; [remove_textures] returns and leaves its color as it
    was, which is not white. *)
Lemma remove_textures_leaves_plain_material :
  let r := remove_textures 1 Demo.scene in
  materials Demo.hull_mesh = [Some 1%nat; Some 2%nat]
  /\ st_materials Demo.scene !! 1%nat = Some Demo.textured
  /\ st_materials Demo.scene !! 2%nat = Some Demo.plain
  /\ uses_texture Demo.textured = true
  /\ uses_texture Demo.plain = false
  /\ fst r = Ret tt
  /\ exists after,
       st_materials (snd r) !! 2%nat = Some after
       /\ diffuse_color after = mkRGBA (2 # 10) (4 # 10) (6 # 10) 1
       /\ diffuse_color after <> mkRGBA 1 1 1 1.
Proof.
  cbv zeta. repeat split; try (vm_compute; reflexivity).
  exists Demo.plain. split; [vm_compute; reflexivity|]. split; [reflexivity | discriminate].
Qed.

(** Witness of C7: ["in/none.glb"] holds a camera only. *)
Lemma no_mesh_asset_is_skipped_witness :
  (st_mode Demo.empty_state = OBJECT
   /\ (forall st, exists objs mats,
         gltf_import (Host := Demo.h) "in/none.glb" st = Some (objs, mats)
         /\ Forall (fun o => obj_type o <> MESH) objs))
  /\ exists s_imported s_merged s',
       import_glb (host := Demo.h) "in/none.glb"
         (snd (clear_scene (add_stdout (MsgProcessing "in/none.glb") Demo.empty_state)))
       = (Ret tt, s_imported)
       /\ merge_all_meshes (host := Demo.h) s_imported = (Ret None, s_merged)
       /\ process_glb_file (host := Demo.h) "out" 3 45 "in/none.glb" Demo.empty_state = (Ret tt, s')
       /\ st_dirs s' = st_dirs Demo.empty_state
       /\ st_files s' = st_files Demo.empty_state
       /\ st_stdout s'
          = st_stdout Demo.empty_state
            ++ [MsgProcessing "in/none.glb"; MsgNoMeshToMerge; MsgSkipping "in/none.glb"]
       /\ for_each ("in/none.glb" :: ["in/b.glb"]) (process_glb_file (host := Demo.h) "out" 3 45)
            Demo.empty_state
          = for_each ["in/b.glb"] (process_glb_file (host := Demo.h) "out" 3 45) s'.
Proof.
  assert (Himport : forall st, exists objs mats,
            gltf_import (Host := Demo.h) "in/none.glb" st = Some (objs, mats)
            /\ Forall (fun o => obj_type o <> MESH) objs).
  { intros st. eexists _, _. split; [reflexivity|]. repeat constructor. discriminate. }
  split; [split; [reflexivity | exact Himport]|].
  exact (no_mesh_asset_is_skipped (host := Demo.h) "out" 3 45 Demo.empty_state "in/none.glb"
           ["in/b.glb"] eq_refl Himport).
Defined.

(** Witness of C8: the only object of [Demo.camera_scene] is a camera. *)
Lemma reduce_vertices_rejects_non_mesh_witness :
  (find_object (st_objects Demo.camera_scene) 1 = Some Demo.camera_object
   /\ obj_type Demo.camera_object <> MESH)
  /\ reduce_vertices (host := Demo.h) 1 2000 Demo.camera_scene = (Raise TypeError, Demo.camera_scene).
Proof.
  assert (H : obj_type Demo.camera_object <> MESH) by discriminate.
  split; [split; [reflexivity | exact H]|].
  exact (reduce_vertices_rejects_non_mesh (host := Demo.h) Demo.camera_scene 1 Demo.camera_object
           2000 eq_refl H).
Defined.

(** Counterexample to C9: a call that passes [render_distance], or
    [render_height], is rejected with [TypeError] before anything runs;
    [render_angle] is accepted. *)
Lemma render_distance_not_recognized :
  call_process_glb_files (host := Demo.h) [VStr "in"; VStr "out"; VInt 3]
    [("render_distance", VInt 10)] Demo.empty_state
  = (Raise TypeError, Demo.empty_state)
  /\ call_process_glb_files (host := Demo.h) [VStr "in"; VStr "out"; VInt 3]
       [("render_height", VInt 4)] Demo.empty_state
     = (Raise TypeError, Demo.empty_state)
  /\ bind_arguments process_glb_files_signature [VStr "in"; VStr "out"; VInt 3]
       [("render_distance", VInt 10)] = None
  /\ bind_arguments process_glb_files_signature [VStr "in"; VStr "out"; VInt 3]
       [("render_angle", VInt 90)]
     = Some [("input_folder", VStr "in"); ("output_folder", VStr "out");
             ("target_vertex_count", VInt 3); ("render_angle", VInt 90)].
Proof. repeat split; vm_compute; reflexivity. Qed.

(** Witness of C10 as amended: the still can be written on the host
    [Demo.h] and cannot on the host [Cases.h_locked]. *)
Lemma render_image_restores_after_success_only_witness :
  (can_write (Host := Demo.h) (path_join (Host := Demo.h) "out/hull" (image_name "hull" 45)) = true
   /\ exists s' still,
        render_image (host := Demo.h) "out/hull" "hull" 45 None None Demo.scene = (Ret tt, s')
        /\ st_filepath s' = st_filepath Demo.scene
        /\ st_objects s' = st_objects Demo.scene
        /\ st_camera s' = None
        /\ st_mode s' = st_mode Demo.scene
        /\ st_materials s' = st_materials Demo.scene
        /\ st_dirs s' = st_dirs Demo.scene
        /\ st_files s'
           = <[ path_join (Host := Demo.h) "out/hull" (image_name "hull" 45) := still ]>
               (st_files Demo.scene))
  /\ (can_write (Host := Cases.h_locked)
        (path_join (Host := Cases.h_locked) "out/hull" (image_name "hull" 45)) = false
      /\ exists s' cam tgt c t,
           render_image (host := Cases.h_locked) "out/hull" "hull" 45 None None Demo.scene
           = (Raise RuntimeError, s')
           /\ st_filepath s' = path_join (Host := Cases.h_locked) "out/hull" (image_name "hull" 45)
           /\ st_objects s' = st_objects Demo.scene ++ [(cam, c); (tgt, t)]
           /\ obj_type c = CAMERA
           /\ obj_type t = EMPTY
           /\ st_camera s' = Some cam
           /\ st_files s' = st_files Demo.scene).
Proof.
  split; (split; [reflexivity|]).
  - exact (proj1 (render_image_restores_after_success_only (host := Demo.h) Demo.scene
                    "out/hull" "hull" 45 None None) eq_refl).
  - exact (proj2 (render_image_restores_after_success_only (host := Cases.h_locked) Demo.scene
                    "out/hull" "hull" 45 None None) eq_refl).
Defined.

(** Counterexample to C10: with a still that cannot be written,
    [render_image] raises, and neither is the render file path of the
    scene put back nor are the camera and the target deleted; and a call
    that succeeds, on a scene with a scene camera, leaves the scene
    without one. *)
Lemma render_image_failure_restores_nothing :
  let r := render_image (host := Cases.h_locked) "out/hull" "hull" 45 None None Demo.scene in
  let r' := render_image (host := Demo.h) "out/hull" "hull" 45 None None
              (set_camera (Some 1%nat) Demo.camera_scene) in
  fst r = Raise RuntimeError
  /\ st_filepath Demo.scene = "/tmp/"
  /\ st_filepath (snd r) = "out/hull/hull_45.png"
  /\ map fst (st_objects Demo.scene) = [1%nat]
  /\ map fst (st_objects (snd r)) = [1%nat; 2%nat; 3%nat]
  /\ map (fun p => obj_type (snd p)) (st_objects (snd r)) = [MESH; CAMERA; EMPTY]
  /\ fst r' = Ret tt
  /\ st_camera (set_camera (Some 1%nat) Demo.camera_scene) = Some 1%nat
  /\ st_camera (snd r') = None.
Proof. vm_compute. repeat split. Qed.

(** * Further facts about the stages *)

Section FilterFacts.
Context {A B : Type}.

Lemma filter_bool_cons (b : A -> bool) (x : A) (l : list A) :
  filter b (x :: l) = if b x then x :: filter b l else filter b l.
Proof.
  destruct (b x) eqn:E.
  - apply filter_cons_True. now rewrite E.
  - apply filter_cons_False. now rewrite E.
Qed.

Lemma filter_bool_ext (b c : A -> bool) (l : list A) :
  (forall x, x ∈ l -> b x = c x) -> filter b l = filter c l.
Proof.
  induction l as [|x l IH]; intros H; [reflexivity|].
  rewrite !filter_bool_cons, (H x) by apply list_elem_of_here.
  rewrite IH; [reflexivity|]. intros y Hy. apply H. now apply list_elem_of_further.
Qed.

Lemma filter_bool_filter (b c : A -> bool) (l : list A) :
  filter b (filter c l) = filter (fun x => c x && b x) l.
Proof.
  induction l as [|x l IH]; [reflexivity|].
  rewrite (filter_bool_cons c), (filter_bool_cons (fun x => c x && b x)).
  destruct (c x); cbn [andb]; [|exact IH].
  rewrite filter_bool_cons. now destruct (b x); rewrite IH.
Qed.

Lemma filter_bool_all (b : A -> bool) (l : list A) :
  (forall x, x ∈ l -> b x = true) -> filter b l = l.
Proof.
  induction l as [|x l IH]; intros H; [reflexivity|].
  rewrite filter_bool_cons, (H x) by apply list_elem_of_here.
  f_equal. apply IH. intros y Hy. apply H. now apply list_elem_of_further.
Qed.

Lemma filter_bool_none (b : A -> bool) (l : list A) :
  (forall x, x ∈ l -> b x = false) -> filter b l = [].
Proof.
  induction l as [|x l IH]; intros H; [reflexivity|].
  rewrite filter_bool_cons, (H x) by apply list_elem_of_here.
  apply IH. intros y Hy. apply H. now apply list_elem_of_further.
Qed.

Lemma filter_bool_elem (b : A -> bool) (l : list A) (x : A) :
  x ∈ filter b l <-> b x = true /\ x ∈ l.
Proof.
  rewrite list_elem_of_filter. split; intros [H1 H2]; split; try assumption.
  - now apply Is_true_true.
  - now apply Is_true_true.
Qed.

End FilterFacts.

Lemma filter_bool_map {A B} (f : A -> B) (b : B -> bool) (l : list A) :
  filter b (map f l) = map f (filter (fun x => b (f x)) l).
Proof.
  induction l as [|x l IH]; [reflexivity|]. cbn [map].
  rewrite filter_bool_cons, (filter_bool_cons (fun x => b (f x))).
  destruct (b (f x)); cbn [map]; now rewrite IH.
Qed.

Section HandleFacts.
Lemma find_object_elem (l : list (ObjId * Object)) (i : ObjId) :
  i ∈ map fst l -> exists o, find_object l i = Some o.
Proof.
  induction l as [|[j o] l IH]; cbn [map fst find_object]; intros H.
  - now apply elem_of_nil in H.
  - destruct (Nat.eqb i j) eqn:E; [eauto|].
    apply elem_of_cons in H as [->|H]; [|auto].
    now rewrite Nat.eqb_refl in E.
Qed.

Lemma find_object_Some (l : list (ObjId * Object)) (i : ObjId) (o : Object) :
  find_object l i = Some o -> (i, o) ∈ l.
Proof.
  induction l as [|[j o'] l IH]; cbn [find_object]; [discriminate|].
  destruct (Nat.eqb i j) eqn:E.
  - apply Nat.eqb_eq in E as ->. intros [= ->]. apply list_elem_of_here.
  - intros H. apply list_elem_of_further. auto.
Qed.

Lemma find_object_absent (l : list (ObjId * Object)) (i : ObjId) :
  find_object l i = None -> i ∉ map fst l.
Proof.
  intros H Hin. destruct (find_object_elem l i Hin) as [o Ho]. congruence.
Qed.

Lemma find_object_unique (l : list (ObjId * Object)) (i : ObjId) (o : Object) :
  NoDup (map fst l) -> (i, o) ∈ l -> find_object l i = Some o.
Proof.
  induction l as [|[j o'] l IH]; cbn [map fst find_object]; intros Hnd Hin.
  - now apply elem_of_nil in Hin.
  - apply NoDup_cons in Hnd as [Hj Hnd].
    apply elem_of_cons in Hin as [[= -> ->]|Hin].
    + now rewrite Nat.eqb_refl.
    + destruct (Nat.eqb i j) eqn:E; [|auto].
      apply Nat.eqb_eq in E as ->. exfalso. apply Hj.
      apply (list_elem_of_fmap fst). now exists (j, o).
Qed.

Lemma update_object_handles (f : Object -> Object) (i : ObjId) (l : list (ObjId * Object)) :
  map fst (update_object f i l) = map fst l.
Proof.
  induction l as [|[j o] l IH]; [reflexivity|]. cbn [update_object].
  destruct (Nat.eqb i j); cbn [map fst]; [reflexivity | now rewrite IH].
Qed.

(** With distinct handles, assigning through a handle touches the one
    object that has it. *)
Lemma update_object_map (f : Object -> Object) (i : ObjId) (l : list (ObjId * Object)) :
  NoDup (map fst l) ->
  update_object f i l = map (fun p => if Nat.eqb i (fst p) then (fst p, f (snd p)) else p) l.
Proof.
  induction l as [|[j o] l IH]; [reflexivity|]. cbn [map fst]. intros Hnd.
  apply NoDup_cons in Hnd as [Hj Hnd]. cbn [update_object snd].
  destruct (Nat.eqb i j) eqn:E.
  - f_equal. apply Nat.eqb_eq in E as ->.
    clear IH Hnd. induction l as [|[k o'] l IH]; [reflexivity|]. cbn [map fst] in *.
    apply not_elem_of_cons in Hj as [Hk Hj].
    rewrite (proj2 (Nat.eqb_neq j k) Hk). f_equal. auto.
  - f_equal. auto.
Qed.

Lemma fresh_object_id_new (s : State) : fresh_object_id s ∉ map fst (st_objects s).
Proof. apply find_object_absent, find_object_fresh. Qed.

End HandleFacts.

Section SceneFacts.
Context {host : Host}.

Lemma add_objects_handles (objs : list Object) (s : State) :
  NoDup (map fst (st_objects s)) ->
  NoDup (map fst (st_objects (snd (for_each objs (fun o => _ ← add_object o; mret tt) s)))).
Proof.
  revert s. induction objs as [|o objs IH]; intros s Hnd; [exact Hnd|].
  cbn [for_each]. erewrite bind_run; [|reflexivity].
  apply IH. cbn [st_objects set_objects]. rewrite map_app. cbn [map fst].
  apply NoDup_app. split; [exact Hnd|]. split.
  - intros i Hi Hi'. apply list_elem_of_singleton in Hi' as ->.
    now apply (fresh_object_id_new s).
  - apply NoDup_singleton.
Qed.

End SceneFacts.

Section MergeFacts.
Context {host : Host}.

Lemma unique_object (l : list (ObjId * Object)) (p q : ObjId * Object) :
  NoDup (map fst l) -> p ∈ l -> q ∈ l -> fst p = fst q -> p = q.
Proof.
  intros Hnd Hp Hq E. destruct p as [i o], q as [j o']. cbn in E. subst j.
  pose proof (find_object_unique l i o Hnd Hp) as H1.
  pose proof (find_object_unique l i o' Hnd Hq) as H2. congruence.
Qed.

Lemma for_each_set_attr (f : Object -> Object) (ids : list ObjId) (s : State) :
  NoDup ids ->
  NoDup (map fst (st_objects s)) ->
  (forall i, i ∈ ids -> i ∈ map fst (st_objects s)) ->
  for_each ids (fun i => set_attr i f) s
  = (Ret tt,
     set_objects (map (fun p => if bool_decide (fst p ∈ ids) then (fst p, f (snd p)) else p)) s).
Proof.
  revert s. induction ids as [|i ids IH]; intros s Hids Hnd Hin.
  - cbn [for_each]. unfold ret. f_equal. destruct s as [l ? ? ? ? ? ? ? ? ?].
    unfold set_objects. cbn. f_equal.
    symmetry. rewrite <- (map_id l) at 2. apply map_ext. intros p.
    rewrite bool_decide_eq_false_2; [reflexivity|]. apply not_elem_of_nil.
  - apply NoDup_cons in Hids as [Hi Hids].
    destruct (find_object_elem _ i (Hin i (list_elem_of_here _ _))) as [o Ho].
    cbn [for_each]. rewrite (bind_run _ _ _ _ _ (set_attr_run _ _ _ f Ho)).
    rewrite IH; cycle 1.
    + exact Hids.
    + cbn [st_objects set_objects]. now rewrite update_object_handles.
    + intros j Hj. cbn [st_objects set_objects]. rewrite update_object_handles.
      apply Hin. now apply list_elem_of_further.
    + f_equal. rewrite set_objects_twice. apply set_objects_ext.
      rewrite (update_object_map _ _ _ Hnd), map_map. apply map_ext. intros [j o'].
      cbn [fst snd]. destruct (Nat.eqb i j) eqn:E.
      * apply Nat.eqb_eq in E as <-. cbn [fst snd].
        rewrite bool_decide_eq_false_2 by exact Hi.
        rewrite bool_decide_eq_true_2 by apply list_elem_of_here. reflexivity.
      * apply Nat.eqb_neq in E. cbn [fst snd]. destruct (bool_decide (j ∈ ids)) eqn:D.
        -- apply bool_decide_eq_true_1 in D.
           cbn [fst snd]. rewrite bool_decide_eq_true_2; [reflexivity|].
           now apply list_elem_of_further.
        -- apply bool_decide_eq_false_1 in D.
           cbn [fst snd]. rewrite bool_decide_eq_false_2; [reflexivity|].
           intros H. apply elem_of_cons in H as [H|H]; [congruence | contradiction].
Qed.

Lemma is_mesh_select (b : bool) (p : ObjId * Object) :
  is_mesh (fst p, with_select b (snd p)) = is_mesh p.
Proof. reflexivity. Qed.

Lemma join_run (s : State) (a : ObjId) (o : Object) (m : Mesh) :
  st_mode s = OBJECT -> st_active s = Some a ->
  find_object (st_objects s) a = Some o -> obj_data o = MeshData m ->
  let others := filter (fun p : nat * Object =>
                          obj_select (snd p) && bool_decide (obj_type (snd p) = MESH)
                          && negb (Nat.eqb (fst p) a)) (st_objects s) in
  ops_object_join s
  = match others with
    | [] => (Ret tt, s)
    | _ :: _ =>
        (Ret tt,
         add_call CallJoin (clear_pointers (set_objects (fun l =>
           filter (fun p => negb (bool_decide (fst p ∈ map fst others)))
                  (update_object (with_data (MeshData (join_meshes o (map snd others)))) a l)) s)))
    end.
Proof.
  intros Hm Ha Ho Hd others. unfold ops_object_join. rewrite bind_unfold. unfold get.
  cbv beta iota. rewrite Hm, Ha. rewrite (bind_run _ _ _ _ _ (deref_some _ _ _ Ho)).
  rewrite Hd. fold others. destruct others; reflexivity.
Qed.

End MergeFacts.

Section MergeRun.
Context {host : Host}.

Lemma filter_handles_NoDup (b : ObjId * Object -> bool) (l : list (ObjId * Object)) :
  NoDup (map fst l) -> NoDup (map fst (filter b l)).
Proof.
  induction l as [|p l IH]; intros Hnd; [exact Hnd|].
  cbn [map] in Hnd. apply NoDup_cons in Hnd as [Hp Hnd].
  rewrite filter_bool_cons. destruct (b p); [|auto].
  cbn [map]. apply NoDup_cons. split; [|auto].
  intros H. apply Hp. apply (list_elem_of_fmap fst) in H as (q & E & Hq).
  apply filter_bool_elem in Hq as [_ Hq]. apply (list_elem_of_fmap fst). now exists q.
Qed.

Lemma mesh_handles (l : list (ObjId * Object)) (p : ObjId * Object) :
  NoDup (map fst l) -> p ∈ l ->
  bool_decide (fst p ∈ map fst (filter is_mesh l)) = is_mesh p.
Proof.
  intros Hnd Hp. destruct (is_mesh p) eqn:E.
  - apply bool_decide_eq_true_2. apply (list_elem_of_fmap fst). exists p. split; [reflexivity|].
    now apply filter_bool_elem.
  - apply bool_decide_eq_false_2. intros H.
    apply (list_elem_of_fmap fst) in H as (q & Eq & Hq).
    apply filter_bool_elem in Hq as [Hm Hq].
    rewrite (unique_object l p q Hnd Hp Hq Eq) in E. congruence.
Qed.

Lemma rest_of_meshes (l : list (ObjId * Object)) (first : ObjId) (o : Object)
    (rest : list (ObjId * Object)) :
  NoDup (map fst l) -> filter is_mesh l = (first, o) :: rest ->
  filter (fun p => is_mesh p && negb (Nat.eqb (fst p) first)) l = rest
  /\ filter (fun p => is_mesh p && Nat.eqb (fst p) first) l = [(first, o)]
  /\ first ∉ map fst rest.
Proof.
  intros Hnd Hf. pose proof (filter_handles_NoDup is_mesh l Hnd) as Hnd'.
  rewrite Hf in Hnd'. cbn [map fst] in Hnd'. apply NoDup_cons in Hnd' as [Hfirst _].
  assert (Hrest : forall p : ObjId * Object, p ∈ rest -> Nat.eqb (fst p) first = false).
  { intros p Hp. apply Nat.eqb_neq. intros E. apply Hfirst.
    apply (list_elem_of_fmap fst). exists p. now split. }
  split; [|split; [|exact Hfirst]].
  - rewrite <- filter_bool_filter, Hf, filter_bool_cons. cbn [fst]. rewrite Nat.eqb_refl.
    cbn [negb]. apply filter_bool_all. intros p Hp. cbv beta. now rewrite (Hrest p Hp).
  - rewrite <- filter_bool_filter, Hf, filter_bool_cons. cbn [fst]. rewrite Nat.eqb_refl.
    f_equal. apply filter_bool_none. exact Hrest.
Qed.

End MergeRun.

Section MergeRun2.
Context {host : Host}.

Lemma merge_run (s : State) (first : ObjId) (o : Object) (rest : list (ObjId * Object)) :
  st_mode s = OBJECT ->
  NoDup (map fst (st_objects s)) ->
  mesh_objects s = (first, o) :: rest ->
  exists s',
    merge_all_meshes s = (Ret (Some first), s')
    /\ st_active s' = Some first
    /\ mesh_objects s' = [(first, merged_object o rest)]
    /\ other_objects s' = map deselected (other_objects s)
    /\ st_calls s' = st_calls s ++ match rest with [] => [] | _ :: _ => [CallJoin] end
    /\ NoDup (map fst (st_objects s'))
    /\ st_mode s' = OBJECT
    /\ st_materials s' = st_materials s
    /\ st_filepath s' = st_filepath s
    /\ st_dirs s' = st_dirs s
    /\ st_files s' = st_files s
    /\ st_stdout s' = st_stdout s.
Proof.
  intros Hm Hnd Hf. unfold mesh_objects in Hf.
  destruct (rest_of_meshes _ _ _ _ Hnd Hf) as (Hrest & Hfirst & Hnew).
  set (l := st_objects s) in *.
  assert (Hin : (first, o) ∈ l).
  { assert (H : (first, o) ∈ filter is_mesh l) by (rewrite Hf; apply list_elem_of_here).
    now apply filter_bool_elem in H. }
  unfold merge_all_meshes.
  rewrite (bind_run _ _ _ _ _ (select_all_run _ _ Hm)).
  rewrite bind_unfold. unfold get at 1. cbv beta iota. cbn [st_objects set_objects]. fold l.
  change (filter (fun p : ObjId * Object => bool_decide (obj_type (snd p) = MESH))
            (map (fun p : ObjId * Object => (fst p, with_select false (snd p))) l))
    with (filter is_mesh (map deselected l)).
  rewrite filter_bool_map.
  rewrite (filter_bool_ext (fun x => is_mesh (deselected x)) is_mesh) by reflexivity.
  rewrite Hf. cbn [map fst deselected].
  rewrite bind_unfold. unfold modify at 1. cbv beta iota.
  set (s1 := set_active (Some first) _).
  assert (Hl1 : st_objects s1 = map deselected l) by reflexivity.
  assert (Hk1 : map fst (st_objects s1) = map fst l).
  { rewrite Hl1, map_map. reflexivity. }
  assert (Hids : first :: map fst (map deselected rest) = map fst (filter is_mesh l)).
  { rewrite Hf, map_map. reflexivity. }
  rewrite Hids.
  rewrite (bind_run _ _ _ _ _ (for_each_set_attr (with_select true) _ s1
             (filter_handles_NoDup is_mesh l Hnd)
             ltac:(rewrite Hk1; exact Hnd)
             ltac:(rewrite Hk1; intros i Hi; apply (list_elem_of_fmap fst) in Hi as (q & -> & Hq);
                   apply filter_bool_elem in Hq as [_ Hq];
                   apply (list_elem_of_fmap fst); now exists q))).
  set (s2 := set_objects _ s1).
  assert (Hl2 : st_objects s2 = map selected_if_mesh l).
  { unfold s2. cbn [st_objects set_objects]. rewrite Hl1, map_map.
    apply map_ext_in. intros p Hp. apply list_elem_of_In in Hp.
    cbn [deselected fst snd]. rewrite (mesh_handles l p Hnd Hp).
    unfold selected_if_mesh. destruct (is_mesh p); reflexivity. }
  assert (Hk2 : map fst (st_objects s2) = map fst l).
  { rewrite Hl2, map_map. reflexivity. }
  assert (Ho2 : find_object (st_objects s2) first = Some (with_select true o)).
  { apply find_object_unique; [now rewrite Hk2|]. rewrite Hl2.
    apply (list_elem_of_fmap selected_if_mesh). exists (first, o). split; [|exact Hin].
    unfold selected_if_mesh. cbn [fst snd].
    assert (E : is_mesh (first, o) = true).
    { assert (H : (first, o) ∈ filter is_mesh l) by (rewrite Hf; apply list_elem_of_here).
      now apply filter_bool_elem in H. }
    now rewrite E. }
  assert (Hmesh : exists m, obj_data (with_select true o) = MeshData m).
  { apply obj_type_mesh.
    assert (H : (first, o) ∈ filter is_mesh l) by (rewrite Hf; apply list_elem_of_here).
    apply filter_bool_elem in H as [H _]. unfold is_mesh in H.
    now apply bool_decide_eq_true_1 in H. }
  destruct Hmesh as [m Hm2].
  assert (Hothers :
    filter (fun p : nat * Object =>
              obj_select (snd p) && bool_decide (obj_type (snd p) = MESH)
              && negb (Nat.eqb (fst p) first)) (st_objects s2)
    = map (fun p => (fst p, with_select true (snd p))) rest).
  { rewrite Hl2, filter_bool_map.
    rewrite (filter_bool_ext _ (fun p => is_mesh p && negb (Nat.eqb (fst p) first))).
    - rewrite Hrest. apply map_ext_in. intros p Hp. apply list_elem_of_In in Hp.
      assert (E : is_mesh p = true).
      { assert (H : p ∈ filter is_mesh l) by (rewrite Hf; now apply list_elem_of_further).
        now apply filter_bool_elem in H. }
      unfold selected_if_mesh. now rewrite E.
    - intros p _. unfold selected_if_mesh. cbn [fst snd obj_select with_select].
      change (bool_decide (obj_type (with_select (is_mesh p) (snd p)) = MESH)) with (is_mesh p).
      now destruct (is_mesh p). }
  pose proof (join_run s2 first _ m Hm eq_refl Ho2 Hm2) as Hjoin.
  cbv zeta in Hjoin. rewrite Hothers in Hjoin.
  assert (Hmo2 : filter is_mesh (map selected_if_mesh l)
                 = map selected_if_mesh ((first, o) :: rest)).
  { rewrite filter_bool_map.
    rewrite (filter_bool_ext (fun x => is_mesh (selected_if_mesh x)) is_mesh) by reflexivity.
    now rewrite Hf. }
  assert (Hoo2 : filter (fun p => negb (is_mesh p)) (map selected_if_mesh l)
                 = map deselected (filter (fun p => negb (is_mesh p)) l)).
  { rewrite filter_bool_map.
    rewrite (filter_bool_ext (fun x => negb (is_mesh (selected_if_mesh x)))
               (fun p => negb (is_mesh p))) by reflexivity.
    apply map_ext_in. intros p Hp. apply list_elem_of_In in Hp.
    apply filter_bool_elem in Hp as [Hp _]. unfold selected_if_mesh, deselected.
    now destruct (is_mesh p). }
  destruct rest as [|r rest].
  - exists s2. cbn [map] in Hjoin. rewrite (bind_run _ _ _ _ _ Hjoin). rewrite bind_unfold. unfold get. cbv beta iota.
    split; [reflexivity|]. split; [reflexivity|].
    unfold mesh_objects, other_objects. rewrite Hk2, Hl2, Hmo2, Hoo2.
    split; [|split; [reflexivity|split; [now rewrite app_nil_r|]]].
    + cbn [map merged_object]. unfold selected_if_mesh. cbn [fst snd].
      assert (E : is_mesh (first, o) = true).
      { assert (H : (first, o) ∈ filter is_mesh l) by (rewrite Hf; apply list_elem_of_here).
        now apply filter_bool_elem in H. }
      now rewrite E.
    + split; [exact Hnd|]. split; [exact Hm|]. repeat split.
  - set (others := map (fun p : ObjId * Object => (fst p, with_select true (snd p))) (r :: rest)) in *.
    cbn [map] in Hjoin. rewrite (bind_run _ _ _ _ _ Hjoin).
    match goal with |- context [add_call CallJoin (clear_pointers ?x)] => set (s3 := x) end.
    pose (upd := fun p : ObjId * Object =>
                   if Nat.eqb first (fst p)
                   then (fst p, with_data (MeshData (join_meshes (with_select true o)
                                   (map (fun p => with_select true (snd p)) (r :: rest))))
                                  (snd p))
                   else p).
    pose (keep := fun p : ObjId * Object => negb (bool_decide (fst p ∈ map fst (r :: rest)))).
    assert (Hl3 : st_objects s3 = filter keep (map upd (map selected_if_mesh l))).
    { unfold s3. cbn [st_objects set_objects]. rewrite Hl2.
      rewrite update_object_map by (rewrite <- Hl2, Hk2; exact Hnd).
      unfold others. rewrite !map_map. cbn [fst snd]. reflexivity. }
    assert (Hfst : forall p, fst (upd (selected_if_mesh p)) = fst p).
    { intros p. unfold upd, selected_if_mesh. cbn [fst]. now destruct (Nat.eqb first (fst p)). }
    assert (Hism : forall p, is_mesh (upd (selected_if_mesh p)) = is_mesh p
                             \/ (fst p = first /\ is_mesh (upd (selected_if_mesh p)) = true)).
    { intros p. unfold upd, selected_if_mesh. cbn [fst].
      destruct (Nat.eqb first (fst p)) eqn:E; [right | left; reflexivity].
      apply Nat.eqb_eq in E. split; [now symmetry|]. reflexivity. }
    assert (Hkeep : forall p, p ∈ l ->
              keep (upd (selected_if_mesh p)) = negb (is_mesh p && negb (Nat.eqb (fst p) first))).
    { intros p Hp. unfold keep. rewrite Hfst. f_equal.
      destruct (is_mesh p && negb (Nat.eqb (fst p) first)) eqn:E.
      - apply bool_decide_eq_true_2. apply (list_elem_of_fmap fst). exists p. split; [reflexivity|].
        rewrite <- Hrest. now apply filter_bool_elem.
      - apply bool_decide_eq_false_2. intros H.
        apply (list_elem_of_fmap fst) in H as (q & Eq & Hq).
        rewrite <- Hrest in Hq. apply filter_bool_elem in Hq as [Hq1 Hq2].
        rewrite (unique_object l p q Hnd Hp Hq2 Eq) in E. congruence. }
    assert (Hmesh_first : is_mesh (first, o) = true).
    { assert (H : (first, o) ∈ filter is_mesh l) by (rewrite Hf; apply list_elem_of_here).
      now apply filter_bool_elem in H. }
    assert (Hmo3 : filter is_mesh (st_objects s3)
                   = [(first, merged_object o (r :: rest))]).
    { rewrite Hl3, filter_bool_filter, map_map, filter_bool_map.
      rewrite (filter_bool_ext _ (fun p => is_mesh p && Nat.eqb (fst p) first)).
      - rewrite Hfirst. cbn [map]. unfold upd, selected_if_mesh. cbn [fst snd].
        rewrite Nat.eqb_refl, Hmesh_first. reflexivity.
      - intros p Hp. cbv beta. rewrite (Hkeep p Hp).
        destruct (Hism p) as [->|[E ->]].
        + destruct (is_mesh p), (Nat.eqb (fst p) first); reflexivity.
        + subst first. rewrite Nat.eqb_refl.
          assert (p = (fst p, o)) as Ep by (apply (unique_object l); auto).
          assert (Emp : is_mesh p = true) by (rewrite Ep; exact Hmesh_first).
          rewrite Emp. reflexivity. }
    assert (Hoo3 : filter (fun p => negb (is_mesh p)) (st_objects s3)
                   = map deselected (filter (fun p => negb (is_mesh p)) l)).
    { rewrite Hl3, filter_bool_filter, map_map, filter_bool_map.
      rewrite (filter_bool_ext _ (fun p => negb (is_mesh p))).
      - apply map_ext_in. intros p Hp. apply list_elem_of_In in Hp.
        apply filter_bool_elem in Hp as [Hp1 Hp2].
        unfold upd, selected_if_mesh, deselected. cbn [fst snd].
        destruct (Nat.eqb first (fst p)) eqn:E.
        + apply Nat.eqb_eq in E. subst first.
          assert (p = (fst p, o)) as Ep by (apply (unique_object l); auto).
          rewrite Ep, Hmesh_first in Hp1. discriminate.
        + now destruct (is_mesh p).
      - intros p Hp. cbv beta. rewrite (Hkeep p Hp).
        destruct (Hism p) as [->|[E Hx]].
        + destruct (is_mesh p), (Nat.eqb (fst p) first); reflexivity.
        + subst first. assert (p = (fst p, o)) as Ep by (apply (unique_object l); auto).
          assert (Emp : is_mesh p = true) by (rewrite Ep; exact Hmesh_first).
          rewrite Hx, Emp, Nat.eqb_refl. reflexivity. }
    assert (Hk3 : NoDup (map fst (st_objects s3))).
    { rewrite Hl3. apply filter_handles_NoDup. rewrite !map_map.
      rewrite (map_ext _ fst Hfst). exact Hnd. }
    assert (Hf3 : exists o3, find_object (st_objects s3) first = Some o3).
    { apply find_object_elem. apply (list_elem_of_fmap fst).
      exists (first, merged_object o (r :: rest)). split; [reflexivity|].
      assert (H : (first, merged_object o (r :: rest)) ∈ filter is_mesh (st_objects s3))
        by (rewrite Hmo3; apply list_elem_of_here).
      now apply filter_bool_elem in H. }
    destruct Hf3 as [o3 Ho3].
    exists (add_call CallJoin (clear_pointers s3)).
    rewrite bind_unfold. unfold get. cbv beta iota.
    assert (Hact : st_active (add_call CallJoin (clear_pointers s3)) = Some first).
    { change (st_active (add_call CallJoin (clear_pointers s3)))
        with (match find_object (st_objects s3) first with
              | Some _ => Some first
              | None => None
              end).
      now rewrite Ho3. }
    split; [now rewrite Hact|]. split; [exact Hact|].
    unfold mesh_objects, other_objects.
    change (st_objects (add_call CallJoin (clear_pointers s3))) with (st_objects s3).
    rewrite Hmo3, Hoo3.
    split; [reflexivity|]. split; [reflexivity|]. split; [reflexivity|].
    split; [exact Hk3|]. split; [exact Hm|]. repeat split.
Qed.

End MergeRun2.

Section FolderFacts.
Context {host : Host}.

Lemma os_makedirs_run (path : string) (s : State) :
  path ∈ st_dirs s \/ can_write path = true ->
  exists s', os_makedirs path s = (Ret tt, s')
    /\ st_dirs s' = {[ path ]} ∪ st_dirs s
    /\ st_objects s' = st_objects s /\ st_active s' = st_active s /\ st_mode s' = st_mode s
    /\ st_materials s' = st_materials s /\ st_camera s' = st_camera s
    /\ st_filepath s' = st_filepath s /\ st_files s' = st_files s
    /\ st_stdout s' = st_stdout s /\ st_calls s' = st_calls s.
Proof.
  intros H. unfold os_makedirs. rewrite bind_unfold. unfold get. cbv beta iota.
  destruct (bool_decide (path ∈ st_dirs s)) eqn:E.
  - apply bool_decide_eq_true_1 in E. exists s. split; [reflexivity|].
    split; [|repeat split]. symmetry. apply subseteq_union_1_L.
    now apply singleton_subseteq_l.
  - apply bool_decide_eq_false_1 in E. destruct H as [H|H]; [contradiction|].
    rewrite H. exists (add_dir path s). repeat split.
Qed.

Lemma os_makedirs_fails (path : string) (s : State) :
  path ∉ st_dirs s -> can_write path = false -> os_makedirs path s = (Raise OSError, s).
Proof.
  intros H1 H2. unfold os_makedirs. rewrite bind_unfold. unfold get. cbv beta iota.
  rewrite bool_decide_eq_false_2 by exact H1. now rewrite H2.
Qed.

End FolderFacts.

Section ReduceFacts.
Context {host : Host}.

(** Applying the modifier that was just added leaves the stack as it
    was before. *)
Lemma apply_drops_new_modifier (mods : list Modifier) (i : ModId) (name : string)
    (k : ModifierKind) (g : ModifierKind -> ModifierKind) :
  max_list (map mod_id mods) < i ->
  filter (fun m => negb (Nat.eqb (mod_id m) i))
         (update_modifier g i (mods ++ [mkModifier i name k])) = mods.
Proof.
  induction mods as [|x mods IH]; intros Hlt.
  - cbn [app update_modifier map mod_id]. rewrite Nat.eqb_refl.
    rewrite filter_bool_cons. cbn [mod_id]. now rewrite Nat.eqb_refl.
  - cbn in Hlt.
    change (update_modifier g i ((x :: mods) ++ [mkModifier i name k]))
      with ((if Nat.eqb (mod_id x) i then mkModifier (mod_id x) (mod_name x) (g (mod_kind x)) else x)
            :: update_modifier g i (mods ++ [mkModifier i name k])).
    assert (E : Nat.eqb (mod_id x) i = false) by (apply Nat.eqb_neq; lia).
    rewrite E, filter_bool_cons, E. cbn [negb]. f_equal. apply IH. lia.
Qed.

Lemma reduce_vertices_over_run (s : State) (obj : ObjId) (o : Object) (m : Mesh) (target : Z) :
  find_object (st_objects s) obj = Some o ->
  obj_data o = MeshData m ->
  st_active s = Some obj ->
  (target < Z.of_nat (length (vertices (mesh_geom m))))%Z ->
  vertices (mesh_geom m) <> [] ->
  let ratio := clamp01 (inject_Z target / inject_Z (Z.of_nat (length (vertices (mesh_geom m))))) in
  let decimated := decimate COLLAPSE ratio true (mesh_geom m) in
  let welded := remove_doubles (1 # 10000) (seq 0 (length (vertices decimated))) decimated in
  exists s',
    reduce_vertices obj target s = (Ret tt, s')
    /\ find_object (st_objects s') obj
       = Some (with_data (MeshData (mkMesh welded (materials m)
                                      (seq 0 (length (vertices decimated))))) o)
    /\ (forall j, j <> obj -> find_object (st_objects s') j = find_object (st_objects s) j)
    /\ map fst (st_objects s') = map fst (st_objects s)
    /\ st_calls s' = st_calls s ++ [CallDecimate COLLAPSE ratio true; CallRemoveDoubles (1 # 10000)]
    /\ st_stdout s'
       = st_stdout s ++ [MsgReduced (length (vertices (mesh_geom m))) (length (vertices welded))]
    /\ st_mode s' = OBJECT
    /\ st_active s' = st_active s
    /\ st_materials s' = st_materials s
    /\ st_camera s' = st_camera s
    /\ st_filepath s' = st_filepath s
    /\ st_dirs s' = st_dirs s
    /\ st_files s' = st_files s.
Proof.
  intros Hfind Hdata Hact Hlt Hne. cbv zeta.
  set (q := (inject_Z target / inject_Z (Z.of_nat (length (vertices (mesh_geom m)))))%Q).
  destruct o as [name data loc rot sc mw sel mods cons]. cbn in Hdata. subst data.
  unfold reduce_vertices.
  run_with deref_some. cbn [obj_type obj_data].
  rewrite bool_decide_eq_false_2 by (intros H; now apply H).
  run_with mode_set_run.
  run_with select_mode_run.
  run_with mesh_select_all_run.
  run_with from_edit_mesh_run.
  cbn [mesh_geom with_selected].
  rewrite (proj2 (Z.leb_gt _ _) Hlt).
  destruct (Nat.eqb (length (vertices (mesh_geom m))) 0) eqn:E0;
    [apply Nat.eqb_eq in E0; destruct (vertices (mesh_geom m)); [congruence | discriminate]|].
  erewrite bind_run; [|reflexivity]. fold q. clearbody q.
  run_with mode_set_run.
  run_with modifiers_new_run.
  unfold set_ratio, set_use_collapse_triangulate.
  run_with set_attr_run.
  run_with set_attr_run.
  erewrite bind_run;
    [| eapply modifier_apply_decimate_run;
       [reflexivity | exact Hact | solve_find
       | cbn -[update_modifier fresh_modifier_id]; rewrite update_modifier_compose;
         rewrite find_fresh_modifier; [reflexivity | unfold fresh_modifier_id; lia] ] ].
  run_with mode_set_run.
  run_with mesh_select_all_run.
  run_with remove_doubles_run.
  run_with from_edit_mesh_run.
  run_with mode_set_run.
  eexists. split; [reflexivity|].
  cbn [st_objects st_active st_mode st_materials st_camera st_filepath st_dirs st_files
       st_stdout st_calls set_objects set_mode add_call add_stdout].
  split; [|split; [|split; [|split; [|split; [|now repeat split]]]]].
  - match goal with
    | |- find_object ?l obj = _ =>
        let H := fresh in
        eassert (H : find_object l obj = Some _) by solve_find; rewrite H
    end.
    cbv [on_mesh with_modifiers with_data with_geom with_selected
         obj_name obj_data location rotation_euler scale matrix_world
         obj_select modifiers constraints mesh_geom materials mesh_selected].
    rewrite update_modifier_compose.
    rewrite apply_drops_new_modifier by (unfold fresh_modifier_id; lia).
    reflexivity.
  - intros j Hj. rewrite !find_update_other by congruence. reflexivity.
  - rewrite !update_object_handles. reflexivity.
  - rewrite <- app_assoc. reflexivity.
  - reflexivity.
Qed.

Lemma reduce_vertices_zero_division_run (s : State) (obj : ObjId) (o : Object) (m : Mesh)
    (target : Z) :
  find_object (st_objects s) obj = Some o ->
  obj_data o = MeshData m ->
  st_active s = Some obj ->
  vertices (mesh_geom m) = [] ->
  (target < 0)%Z ->
  reduce_vertices obj target s
  = (Raise ZeroDivisionError,
     set_objects (update_object (on_mesh (with_selected [])) obj) (set_mode EDIT s)).
Proof.
  intros Hfind Hdata Hact Hnil Hneg.
  destruct o as [name data loc rot sc mw sel mods cons]. cbn in Hdata. subst data.
  unfold reduce_vertices.
  run_with deref_some. cbn [obj_type obj_data].
  rewrite bool_decide_eq_false_2 by (intros H; now apply H).
  run_with mode_set_run.
  run_with select_mode_run.
  run_with mesh_select_all_run.
  run_with from_edit_mesh_run.
  cbn [mesh_geom with_selected]. rewrite Hnil. cbn [length Nat.eqb].
  change (Z.of_nat 0) with 0%Z.
  rewrite (proj2 (Z.leb_gt _ _) Hneg). reflexivity.
Qed.

Lemma clamp01_nonpositive (target : Z) (n : nat) :
  (target <= 0)%Z -> n <> 0 ->
  clamp01 (inject_Z target / inject_Z (Z.of_nat n)) = 0%Q.
Proof.
  intros Ht Hn. unfold clamp01.
  assert (H : Qle_bool (inject_Z target / inject_Z (Z.of_nat n)) 0 = true).
  { apply Qle_bool_iff. destruct n as [|n]; [congruence|].
    unfold Qdiv, Qinv, inject_Z, Qmult, Qle. cbn [Qnum Qden].
    rewrite Nat2Z.inj_succ. unfold Z.succ.
    destruct (Z.of_nat n + 1)%Z eqn:E; try lia. cbn [Qnum Qden]. lia. }
  now rewrite H.
Qed.

End ReduceFacts.

(** ** What a stage leaves alone *)

Section KeepsFacts.
Context {host : Host}.
Variable R : State -> State -> Prop.
Hypothesis R_refl : forall s, R s s.
Hypothesis R_trans : forall s1 s2 s3, R s1 s2 -> R s2 s3 -> R s1 s3.

Lemma keeps_ret {A} (a : A) : keeps R (mret a).
Proof. intros s. apply R_refl. Qed.

Lemma keeps_raise {A} (e : Exc) : keeps R (raise e : M A).
Proof. intros s. apply R_refl. Qed.

Lemma keeps_get : keeps R get.
Proof. intros s. apply R_refl. Qed.

Lemma keeps_modify (f : State -> State) : (forall s, R s (f s)) -> keeps R (modify f).
Proof. intros H s. apply H. Qed.

Lemma keeps_bind {A B} (c : M A) (k : A -> M B) :
  keeps R c -> (forall a, keeps R (k a)) -> keeps R (c ≫= k).
Proof.
  intros Hc Hk s. rewrite bind_unfold. specialize (Hc s).
  destruct (c s) as [[a|e] s']; cbn [snd] in *; [|exact Hc].
  eapply R_trans; [exact Hc | apply Hk].
Qed.

Lemma keeps_for_each {A} (xs : list A) (body : A -> M unit) :
  (forall x, keeps R (body x)) -> keeps R (for_each xs body).
Proof.
  intros H. induction xs as [|x xs IH]; cbn [for_each].
  - apply keeps_ret.
  - apply keeps_bind; [apply H | intros _; exact IH].
Qed.

Lemma keeps_deref (i : ObjId) : keeps R (deref i).
Proof. intros s. unfold deref. destruct (find_object _ _); apply R_refl. Qed.

Lemma keeps_deref_material (i : MatId) : keeps R (deref_material i).
Proof. intros s. unfold deref_material. destruct (_ !! _); apply R_refl. Qed.

End KeepsFacts.

Section TextureFacts.
Context {host : Host}.

Lemma scene_untouched_refl (s : State) : scene_untouched s s.
Proof. repeat split. Qed.

Lemma scene_untouched_trans (s1 s2 s3 : State) :
  scene_untouched s1 s2 -> scene_untouched s2 s3 -> scene_untouched s1 s3.
Proof.
  unfold scene_untouched. intros (A1 & A2 & A3 & A4 & A5 & A6 & A7 & A8)
    (B1 & B2 & B3 & B4 & B5 & B6 & B7 & B8).
  repeat split; congruence.
Qed.

Lemma set_material_keeps_scene (mat : MatId) (f : Material -> Material) :
  keeps scene_untouched (set_material mat f).
Proof.
  unfold set_material.
  apply keeps_bind;
    [exact scene_untouched_trans | apply keeps_deref_material; exact scene_untouched_refl |].
  intros m. apply keeps_modify. intros s. repeat split.
Qed.

Lemma strip_material_keeps_scene (slot : option MatId) :
  keeps scene_untouched (strip_material slot).
Proof.
  pose proof scene_untouched_refl as Hr. pose proof scene_untouched_trans as Ht.
  unfold strip_material. destruct slot as [mat|]; [|now apply keeps_raise].
  apply keeps_bind; [assumption | now apply keeps_deref_material |]. intros m.
  destruct (use_nodes m); [|now apply keeps_ret].
  destruct (node_tree m) as [tree|]; [|now apply keeps_ret].
  apply keeps_bind; [assumption | | intros _; apply set_material_keeps_scene].
  apply keeps_for_each; [assumption | assumption |]. intros node.
  destruct (bool_decide _); [apply set_material_keeps_scene | now apply keeps_ret].
Qed.

Lemma remove_textures_keeps_scene (obj : ObjId) : keeps scene_untouched (remove_textures obj).
Proof.
  pose proof scene_untouched_refl as Hr. pose proof scene_untouched_trans as Ht.
  unfold remove_textures.
  apply keeps_bind; [assumption | now apply keeps_deref |]. intros o.
  destruct (obj_data o) as [mesh| | | |]; try now apply keeps_raise.
  destruct (materials mesh) as [|slot slots].
  - unfold print. apply keeps_modify. intros s. repeat split.
  - apply keeps_for_each; [assumption | assumption |]. intros x.
    apply strip_material_keeps_scene.
Qed.

Lemma strip_nodes_clean (snapshot : list Node) (t : NodeTree) :
  existsb (fun n => bool_decide (node_type n = TEX_IMAGE)) snapshot = false ->
  strip_nodes snapshot t = t.
Proof.
  unfold strip_nodes. revert t. induction snapshot as [|x snapshot IH]; intros t H; [reflexivity|].
  cbn [existsb] in H. apply orb_false_iff in H as [Hx H].
  cbn [foldl]. rewrite Hx. now apply IH.
Qed.

Lemma strip_idem (m : Material) : strip (strip m) = strip m.
Proof.
  unfold strip. destruct m as [name use tree color]. cbn [use_nodes node_tree].
  destruct use; [|reflexivity]. destruct tree as [tree|]; [|reflexivity].
  unfold with_diffuse_color, with_node_tree.
  cbn [use_nodes node_tree mat_name diffuse_color option_map].
  rewrite (strip_nodes_clean _ _ (strip_nodes_no_texture tree)). reflexivity.
Qed.

Lemma strip_slot_lookup (mats : gmap MatId Material) (slot : option MatId) (mat : MatId) :
  strip_slot mats slot !! mat
  = if bool_decide (slot = Some mat) then strip <$> (mats !! mat) else mats !! mat.
Proof.
  unfold strip_slot. destruct slot as [i|].
  - destruct (decide (i = mat)) as [->|Hne].
    + rewrite bool_decide_eq_true_2 by reflexivity.
      destruct (mats !! mat) as [m|] eqn:E; [now rewrite lookup_insert_eq | now rewrite E].
    + rewrite bool_decide_eq_false_2 by congruence.
      destruct (mats !! i); [now rewrite lookup_insert_ne | reflexivity].
  - now rewrite bool_decide_eq_false_2.
Qed.

(** What the loop over the slots leaves of each material: stripped once
    if it sits in a slot, however many slots hold it; untouched if not. *)
Lemma strip_loop_lookup (slots : list (option MatId)) (mats : gmap MatId Material) (mat : MatId) :
  foldl strip_slot mats slots !! mat
  = if bool_decide (Some mat ∈ slots) then strip <$> (mats !! mat) else mats !! mat.
Proof.
  revert mats. induction slots as [|slot slots IH]; intros mats.
  - cbn [foldl]. now rewrite bool_decide_eq_false_2 by apply not_elem_of_nil.
  - cbn [foldl]. rewrite IH, strip_slot_lookup.
    destruct (decide (slot = Some mat)) as [->|Hne].
    + rewrite (bool_decide_eq_true_2 (Some mat = Some mat)) by reflexivity.
      rewrite (bool_decide_eq_true_2 (Some mat ∈ Some mat :: slots)) by apply list_elem_of_here.
      destruct (bool_decide (Some mat ∈ slots)); [|reflexivity].
      destruct (mats !! mat) as [m|]; [|reflexivity]. cbn. now rewrite strip_idem.
    + rewrite (bool_decide_eq_false_2 (slot = Some mat)) by exact Hne.
      destruct (bool_decide (Some mat ∈ slots)) eqn:E.
      * apply bool_decide_eq_true_1 in E.
        rewrite bool_decide_eq_true_2; [reflexivity | now apply list_elem_of_further].
      * apply bool_decide_eq_false_1 in E.
        rewrite bool_decide_eq_false_2; [reflexivity|].
        intros H. apply elem_of_cons in H as [H|H]; [congruence | contradiction].
Qed.

Lemma strip_loop_fixed (slots : list (option MatId)) (mats : gmap MatId Material) :
  foldl strip_slot (foldl strip_slot mats slots) slots = foldl strip_slot mats slots.
Proof.
  apply map_eq. intros mat. rewrite !strip_loop_lookup.
  destruct (bool_decide (Some mat ∈ slots)); [|reflexivity].
  destruct (mats !! mat) as [m|]; [|reflexivity]. cbn. now rewrite strip_idem.
Qed.

Lemma strip_nodes_links (snapshot : list Node) (t : NodeTree) :
  links (strip_nodes snapshot t)
  = filter (fun l : string * string =>
              negb (existsb (fun x => bool_decide (node_type x = TEX_IMAGE)
                                      && (String.eqb (fst l) (node_name x)
                                          || String.eqb (snd l) (node_name x))) snapshot))
           (links t).
Proof.
  unfold strip_nodes. revert t.
  induction snapshot as [|x snapshot IH]; intros t; cbn [foldl existsb].
  - symmetry. apply filter_bool_all. reflexivity.
  - rewrite IH. destruct (bool_decide (node_type x = TEX_IMAGE)) eqn:E; cbn [andb orb].
    + cbn [nodes_remove links]. rewrite filter_bool_filter.
      apply filter_bool_ext. intros l _.
      destruct (String.eqb (fst l) (node_name x)), (String.eqb (snd l) (node_name x));
        cbn [negb andb orb]; try reflexivity.
    + reflexivity.
Qed.

Lemma NoDup_map_inj {A B} (f : A -> B) (l : list A) (x y : A) :
  NoDup (map f l) -> x ∈ l -> y ∈ l -> f x = f y -> x = y.
Proof.
  induction l as [|a l IH]; intros Hnd Hx Hy E.
  - now apply elem_of_nil in Hx.
  - cbn [map] in Hnd. apply NoDup_cons in Hnd as [Ha Hnd].
    apply elem_of_cons in Hx as [->|Hx], Hy as [->|Hy]; auto.
    + exfalso. apply Ha. rewrite E. apply (list_elem_of_fmap f). now exists y.
    + exfalso. apply Ha. rewrite <- E. apply (list_elem_of_fmap f). now exists x.
Qed.

Lemma existsb_split {A} (a b c : A -> bool) (l : list A) :
  existsb (fun x => a x && (b x || c x)) l
  = existsb (fun x => a x && b x) l || existsb (fun x => a x && c x) l.
Proof.
  induction l as [|x l IH]; [reflexivity|]. cbn [existsb]. rewrite IH.
  destruct (a x), (b x), (c x), (existsb (fun x => a x && b x) l); reflexivity.
Qed.

(** With unique node names, the loop over the nodes leaves the nodes
    that are no image texture, in their order. *)
Lemma strip_nodes_exact (t : NodeTree) :
  NoDup (map node_name (nodes t)) ->
  nodes (strip_nodes (nodes t) t)
  = filter (fun n => negb (bool_decide (node_type n = TEX_IMAGE))) (nodes t).
Proof.
  intros Hnd. rewrite strip_nodes_nodes. apply filter_bool_ext. intros n Hn. f_equal.
  destruct (bool_decide (node_type n = TEX_IMAGE)) eqn:E.
  - apply existsb_exists. exists n. split; [now apply list_elem_of_In|].
    now rewrite E, String.eqb_refl.
  - apply not_true_is_false. intros H. apply existsb_exists in H as (x & Hx & Hp).
    apply list_elem_of_In in Hx. apply andb_true_iff in Hp as [Htex Hname].
    apply String.eqb_eq in Hname.
    rewrite (NoDup_map_inj node_name _ n x Hnd Hn Hx Hname) in E. congruence.
Qed.

Lemma strip_nodes_links_exact (t : NodeTree) :
  links (strip_nodes (nodes t) t)
  = filter (fun l : string * string =>
              negb (texture_node_named t (fst l)) && negb (texture_node_named t (snd l)))
           (links t).
Proof.
  rewrite strip_nodes_links. apply filter_bool_ext. intros l _.
  unfold texture_node_named. rewrite existsb_split. apply negb_orb.
Qed.

Lemma remove_textures_run (s : State) (obj : ObjId) (o : Object) (mesh : Mesh) :
  find_object (st_objects s) obj = Some o ->
  obj_data o = MeshData mesh ->
  materials mesh <> [] ->
  (forall slot, slot ∈ materials mesh ->
     exists mat, slot = Some mat /\ is_Some (st_materials s !! mat)) ->
  remove_textures obj s
  = (Ret tt, set_materials (fun mats => foldl strip_slot mats (materials mesh)) s).
Proof.
  intros Hfind Hdata Hne Hslots. unfold remove_textures.
  rewrite (bind_run _ _ _ _ _ (deref_some _ _ _ Hfind)), Hdata.
  destruct (materials mesh) as [|slot slots] eqn:E; [congruence|].
  now apply strip_loop_run.
Qed.

End TextureFacts.

(** ** Staging the plane and the light *)

Section StageFacts.
Context {host : Host}.

Lemma set_attr_at (s : State) (pre post : list (ObjId * Object)) (i : ObjId) (o : Object)
    (f : Object -> Object) :
  st_objects s = pre ++ (i, o) :: post ->
  find_object pre i = None ->
  set_attr i f s = (Ret tt, set_objects (fun _ => pre ++ (i, f o) :: post) s).
Proof.
  intros Hl Hpre.
  assert (Hfind : find_object (st_objects s) i = Some o).
  { rewrite Hl, find_object_app, Hpre. cbn [find_object]. now rewrite Nat.eqb_refl. }
  rewrite (set_attr_run _ _ _ f Hfind). f_equal. apply set_objects_ext.
  rewrite Hl, update_object_app by exact Hpre. now rewrite update_singleton.
Qed.

Lemma set_name_at (s : State) (pre post : list (ObjId * Object)) (i : ObjId) (o : Object)
    (name : string) :
  st_objects s = pre ++ (i, o) :: post ->
  find_object pre i = None ->
  set_name i name s
  = (Ret tt,
     set_objects
       (fun _ => pre ++ (i, with_name (unique_name
                                         (object_names (remove_object i (st_objects s))) name) o)
                        :: post) s).
Proof.
  intros Hl Hpre. unfold set_name. rewrite bind_unfold. unfold get. cbv beta iota.
  exact (set_attr_at s pre post i o _ Hl Hpre).
Qed.

Lemma constraints_new_at (s : State) (pre post : list (ObjId * Object)) (i : ObjId)
    (o : Object) :
  st_objects s = pre ++ (i, o) :: post ->
  find_object pre i = None ->
  constraints_new_TRACK_TO i s
  = (Ret (length (constraints o)),
     set_objects (fun _ => pre ++ (i, with_constraints
                                        (fun l => l ++ [mkConstraint None TRACK_Y UP_Z]) o)
                                  :: post) s).
Proof.
  intros Hl Hpre. unfold constraints_new_TRACK_TO.
  assert (Hfind : find_object (st_objects s) i = Some o).
  { rewrite Hl, find_object_app, Hpre. cbn [find_object]. now rewrite Nat.eqb_refl. }
  rewrite (bind_run _ _ _ _ _ (deref_some _ _ _ Hfind)).
  now rewrite (bind_run _ _ _ _ _ (set_attr_at _ _ _ _ _ _ Hl Hpre)).
Qed.

Lemma find_object_snoc_None (pre : list (ObjId * Object)) (i j : ObjId) (o : Object) :
  find_object (pre ++ [(i, o)]) j = None -> find_object pre j = None /\ j <> i.
Proof.
  rewrite find_object_app. destruct (find_object pre j); [discriminate|].
  cbn [find_object]. destruct (Nat.eqb j i) eqn:E; [discriminate|].
  intros _. split; [reflexivity | now apply Nat.eqb_neq].
Qed.

Lemma fresh_material_None (mats : gmap MatId Material) : mats !! fresh_material_id mats = None.
Proof. apply not_elem_of_dom. unfold fresh_material_id. apply is_fresh. Qed.

Lemma plane_add_run (s : State) (size : Q) (loc : Vector) :
  st_mode s = OBJECT ->
  let plane := fresh_object_id (set_objects (map deselected) s) in
  let name := unique_name (object_names (map deselected (st_objects s))) "Plane" in
  ops_mesh_primitive_plane_add size loc s
  = (Ret tt,
     set_active (Some plane)
       (set_objects (fun _ => map deselected (st_objects s)
                              ++ [(plane, with_select true (with_location loc
                                     (new_object name
                                        (MeshData (mkMesh (plane_geometry size) [] [])))))])
          s)).
Proof.
  intros Hm plane name. unfold ops_mesh_primitive_plane_add.
  rewrite bind_unfold. unfold get at 1. cbv beta iota. rewrite Hm.
  rewrite (bind_run _ _ _ _ _ (select_all_run _ _ Hm)).
  change (set_objects (map (fun p : ObjId * Object => (fst p, with_select false (snd p)))) s)
    with (set_objects (map deselected) s).
  rewrite (bind_run _ _ _ _ _ (data_objects_new_run _ _ _)). fold plane.
  change (st_objects (set_objects (map deselected) s)) with (map deselected (st_objects s)).
  fold name.
  erewrite bind_run;
    [| eapply (set_attr_at _ (map deselected (st_objects s)) [] plane);
       [reflexivity | exact (find_object_fresh (set_objects (map deselected) s))]].
  unfold modify. rewrite !set_objects_twice. reflexivity.
Qed.

Lemma add_plane_and_light_run (s : State) :
  st_mode s = OBJECT ->
  exists plane light tgt mat plane_name light_name tgt_name,
    add_plane_and_light s
    = (Ret (plane, light),
       set_objects (fun _ => map deselected (st_objects s)
                             ++ [(plane, ground_plane plane_name mat); (light, sun light_name tgt);
                                 (tgt, light_target tgt_name)])
         (set_materials
            (insert mat (plane_material (unique_name (material_names (st_materials s))
                                                     "Plane_Mat")))
            (set_active (Some plane) s)))
    /\ find_object (map deselected (st_objects s)) plane = None
    /\ find_object (map deselected (st_objects s)) light = None
    /\ find_object (map deselected (st_objects s)) tgt = None
    /\ plane <> light /\ plane <> tgt /\ light <> tgt
    /\ st_materials s !! mat = None.
Proof.
  intros Hm.
  remember (add_plane_and_light s) as r eqn:Hr.
  unfold add_plane_and_light in Hr.
  rewrite (bind_run _ _ _ _ _ (plane_add_run s 10 (mkVector 0 (-10) 0) Hm)) in Hr.
  cbv zeta in Hr.
  set (name0 := unique_name (object_names (map deselected (st_objects s))) "Plane") in Hr.
  clearbody name0.
  pose proof (find_object_fresh (set_objects (map deselected) s)) as Hplane.
  change (st_objects (set_objects (map deselected) s))
    with (map deselected (st_objects s)) in Hplane.
  set (plane := fresh_object_id (set_objects (map deselected) s)) in *. clearbody plane.
  set (l1 := map deselected (st_objects s)) in *.
  rewrite bind_unfold in Hr. unfold get at 1 in Hr. cbv beta iota in Hr.
  cbn [st_active set_active] in Hr.
  erewrite bind_run in Hr;
    [| eapply (set_name_at _ l1 [] plane); [reflexivity | exact Hplane]].
  match type of Hr with
  | context [with_name ?n] => set (plane_name := n) in Hr; clearbody plane_name
  end.
  unfold data_materials_new at 1 in Hr.
  erewrite bind_run in Hr; [|reflexivity]. cbv beta in Hr.
  cbn [st_materials set_objects set_active] in Hr.
  pose proof (fresh_material_None (st_materials s)) as Hmat.
  set (mat := fresh_material_id (st_materials s)) in *. clearbody mat.
  erewrite bind_run in Hr;
    [| eapply set_material_run; cbn [st_materials set_materials]; apply lookup_insert_eq].
  erewrite bind_run in Hr;
    [| eapply (set_attr_at _ l1 [] plane); [reflexivity | exact Hplane]].
  rewrite (bind_run _ _ _ _ _ (data_objects_new_run _ _ _)) in Hr.
  match type of Hr with
  | context [new_object ?n LightData] => set (light_name := n) in Hr; clearbody light_name
  end.
  match type of Hr with
  | context [fresh_object_id ?st] =>
      pose proof (find_object_fresh st) as Hlight;
      cbn [st_objects set_objects set_materials set_active] in Hlight;
      set (light := fresh_object_id st) in *; clearbody light
  end.
  destruct (find_object_snoc_None _ _ _ _ Hlight) as [Hlight1 Hlp].
  unfold collection_objects_link in Hr.
  erewrite bind_run in Hr; [|reflexivity]. cbv beta in Hr.
  erewrite bind_run in Hr;
    [| eapply (set_attr_at _ _ [] light); [reflexivity | exact Hlight]].
  erewrite bind_run in Hr;
    [| eapply (constraints_new_at _ _ [] light); [reflexivity | exact Hlight]].
  rewrite (bind_run _ _ _ _ _ (data_objects_new_run _ _ _)) in Hr.
  match type of Hr with
  | context [new_object ?n NoData] => set (tgt_name := n) in Hr; clearbody tgt_name
  end.
  match type of Hr with
  | context [fresh_object_id ?st] =>
      pose proof (find_object_fresh st) as Htgt;
      set (tgt := fresh_object_id st) in *; clearbody tgt
  end.
  pose proof Htgt as Htgt3.
  cbn [st_objects set_objects set_materials set_active] in Htgt3.
  destruct (find_object_snoc_None _ _ _ _ Htgt3) as [Htgt2 Htl].
  destruct (find_object_snoc_None _ _ _ _ Htgt2) as [Htgt1 Htp].
  erewrite bind_run in Hr;
    [| eapply (set_attr_at _ _ [] tgt); [reflexivity | exact Htgt]].
  erewrite bind_run in Hr; [|reflexivity]. cbv beta in Hr.
  unfold set_constraint in Hr.
  erewrite bind_run in Hr;
    [| eapply (set_attr_at _ _ [(tgt, _)] light);
       [cbn [st_objects set_objects set_materials set_active];
        rewrite <- app_assoc; reflexivity
       | exact Hlight]].
  erewrite bind_run in Hr;
    [| eapply (set_attr_at _ _ [(tgt, _)] light); [reflexivity | exact Hlight]].
  erewrite bind_run in Hr;
    [| eapply (set_attr_at _ _ [(tgt, _)] light); [reflexivity | exact Hlight]].
  exists plane, light, tgt, mat, plane_name, light_name, tgt_name. subst r.
  split; [|repeat split; auto].
  unfold mret, M_ret, ret. f_equal.
  destruct s as [objs act mode mats cam path dirs files out calls].
  cbv [set_objects set_materials set_active st_objects st_active st_mode st_materials
       st_camera st_filepath st_dirs st_files st_stdout st_calls].
  f_equal.
  - rewrite <- app_assoc. reflexivity.
  - rewrite insert_insert_eq. reflexivity.
Qed.

Lemma find_object_deselected (l : list (ObjId * Object)) (i : ObjId) :
  find_object (map deselected l) i = option_map (with_select false) (find_object l i).
Proof.
  induction l as [|[j o] l IH]; [reflexivity|]. cbn [map deselected fst snd find_object].
  destruct (Nat.eqb i j); [reflexivity | exact IH].
Qed.

Lemma find_object_deselected_None (l : list (ObjId * Object)) (i : ObjId) :
  find_object (map deselected l) i = None -> find_object l i = None.
Proof. rewrite find_object_deselected. now destruct (find_object l i). Qed.

End StageFacts.

(** ** Rendering *)


(** ** One asset, from the import to the JSON file *)

Section AssetFacts.
Context {host : Host}.

Lemma merged_object_joined (o : Object) (rest : list (ObjId * Object)) :
  merged_object o rest = joined o (map snd rest).
Proof.
  unfold merged_object, joined. destruct rest as [|r rest]; [reflexivity|].
  cbn [map]. now rewrite map_map.
Qed.

Lemma reduce_vertices_run_any (s : State) (obj : ObjId) (o : Object) (m : Mesh) (target : Z) :
  find_object (st_objects s) obj = Some o ->
  obj_data o = MeshData m ->
  st_active s = Some obj ->
  (0 <= target)%Z ->
  exists s' m' msg,
    reduce_vertices obj target s = (Ret tt, s')
    /\ find_object (st_objects s') obj = Some (with_data (MeshData m') o)
    /\ materials m' = materials m
    /\ mesh_geom m' = reduced target (mesh_geom m)
    /\ (forall j, j <> obj -> find_object (st_objects s') j = find_object (st_objects s) j)
    /\ map fst (st_objects s') = map fst (st_objects s)
    /\ st_mode s' = OBJECT
    /\ st_active s' = st_active s
    /\ st_materials s' = st_materials s
    /\ st_camera s' = st_camera s
    /\ st_filepath s' = st_filepath s
    /\ st_dirs s' = st_dirs s
    /\ st_files s' = st_files s
    /\ st_stdout s' = st_stdout s ++ [msg].
Proof.
  intros Hfind Hdata Hact Hpos. unfold reduced.
  destruct (Z.leb_spec (Z.of_nat (length (vertices (mesh_geom m)))) target) as [Hle|Hlt].
  - eexists _, (with_selected [] m), _.
    split; [exact (reduce_vertices_noop_run s obj o m target Hfind Hdata Hact Hle)|].
    cbn [st_objects st_active st_mode st_materials st_camera st_filepath st_dirs st_files
         st_stdout st_calls set_objects set_mode add_stdout].
    split.
    { rewrite (find_update_same _ _ _ _ Hfind). unfold on_mesh. now rewrite Hdata. }
    split; [reflexivity|]. split; [reflexivity|].
    split; [intros j Hj; now rewrite find_update_other by congruence|].
    split; [apply update_object_handles|]. repeat split.
  - assert (Hne : vertices (mesh_geom m) <> []).
    { intros E. rewrite E in Hlt. cbn in Hlt. lia. }
    destruct (reduce_vertices_over_run s obj o m target Hfind Hdata Hact Hlt Hne)
      as (s' & Hrun & Ho' & Hother & Hk & _ & Hout & Hmode & Ha & Hmat & Hcam & Hpath & Hd & Hf).
    eexists s', _, _. split; [exact Hrun|]. split; [exact Ho'|].
    split; [reflexivity|]. split; [reflexivity|].
    repeat (split; [assumption|]). exact Hout.
Qed.

Lemma remove_textures_succeeds (s : State) (obj : ObjId) (o : Object) (mesh : Mesh) :
  find_object (st_objects s) obj = Some o ->
  obj_data o = MeshData mesh ->
  (forall slot, slot ∈ materials mesh ->
     exists mat, slot = Some mat /\ is_Some (st_materials s !! mat)) ->
  exists s', remove_textures obj s = (Ret tt, s') /\ scene_untouched s s'.
Proof.
  intros Hfind Hdata Hslots.
  assert (Hrun : exists s', remove_textures obj s = (Ret tt, s')).
  { destruct (materials mesh) as [|slot slots] eqn:E.
    - eexists. unfold remove_textures.
      rewrite (bind_run _ _ _ _ _ (deref_some _ _ _ Hfind)), Hdata, E. reflexivity.
    - eexists. apply (remove_textures_run s obj o mesh Hfind Hdata); [now rewrite E|].
      now rewrite E. }
  destruct Hrun as [s' Hrun]. exists s'. split; [exact Hrun|].
  pose proof (remove_textures_keeps_scene obj s) as H. now rewrite Hrun in H.
Qed.

Lemma import_after_clear (s : State) (filepath : string) (objs : list Object)
    (mats : gmap MatId Material) :
  st_mode s = OBJECT ->
  gltf_import filepath (snd (clear_scene s)) = Some (objs, mats) ->
  exists l,
    import_glb filepath (set_camera None (set_active None (set_objects (fun _ => []) s)))
    = (Ret tt, add_call (CallImport filepath)
                 (set_materials (fun _ => mats)
                    (set_objects (fun _ => l)
                       (set_camera None (set_active None s)))))
    /\ map snd l = objs
    /\ NoDup (map fst l).
Proof.
  intros Hm Himp. rewrite (clear_scene_run s Hm) in Himp. cbn [snd] in Himp.
  destruct (import_glb_run _ _ _ _ Himp) as (l & Hrun & Hl).
  exists l. split; [|split; [exact Hl|]].
  - rewrite Hrun. reflexivity.
  - pose proof (add_objects_handles objs
                  (set_camera None (set_active None (set_objects (fun _ => []) s)))
                  (NoDup_nil_2 : NoDup (map fst []))) as Hnd.
    unfold import_glb, ops_import_scene_gltf in Hrun.
    rewrite bind_unfold in Hrun. unfold get in Hrun. cbv beta iota in Hrun.
    rewrite Himp, bind_unfold in Hrun.
    destruct (for_each objs _ _) as [[[]|e] s1]; [|discriminate].
    cbn [snd] in Hnd. injection Hrun as Hrun. now rewrite <- Hrun.
Qed.

Lemma mesh_objects_of_import (l : list (ObjId * Object)) (om : Object) (others : list Object) :
  filter (fun o => bool_decide (obj_type o = MESH)) (map snd l) = om :: others ->
  exists first rest, filter is_mesh l = (first, om) :: rest /\ map snd rest = others.
Proof.
  rewrite filter_bool_map.
  match goal with
  | |- map snd ?f = _ -> _ => destruct f as [|[first o] rest] eqn:E
  end; [intros H; discriminate H|].
  cbn [map snd]. intros [= -> <-]. exists first, rest. split; [exact E | reflexivity].
Qed.

End AssetFacts.

(** ** What a batch asks of the host *)

Section ListingFacts.
Context {host : Host}.
Variable files : list string.
Variable output_folder : string.
Variable render_angle : Z.

Lemma adds_only_for_each_in {A} (ok : HostCall -> Prop) (xs : list A) (body : A -> M unit) :
  (forall x, x ∈ xs -> adds_only ok (body x)) -> adds_only ok (for_each xs body).
Proof.
  induction xs as [|x xs IH]; intros H; cbn [for_each].
  - apply adds_only_ret.
  - apply adds_only_bind; [apply H, list_elem_of_here|].
    intros _. apply IH. intros y Hy. apply H. now apply list_elem_of_further.
Qed.

Lemma import_glb_asked (filepath : string) :
  filepath ∈ files ->
  adds_only (asked_for files output_folder render_angle) (import_glb filepath).
Proof.
  intros Hin. unfold import_glb, ops_import_scene_gltf.
  apply adds_only_bind; [apply adds_only_get|]. intros s0.
  destruct (gltf_import filepath s0) as [[objs mats]|]; [|apply adds_only_raise].
  apply adds_only_bind; [adds|]. intros _.
  apply adds_only_bind; [adds|]. intros _.
  apply adds_only_add_call. exact Hin.
Qed.

Lemma merge_all_meshes_asked :
  adds_only (asked_for files output_folder render_angle) merge_all_meshes.
Proof. unfold merge_all_meshes, ops_object_select_all, ops_object_join. adds. Qed.

Lemma reduce_vertices_asked (obj : ObjId) (target : Z) :
  adds_only (asked_for files output_folder render_angle) (reduce_vertices obj target).
Proof.
  unfold reduce_vertices, ops_object_mode_set, ops_mesh_select_mode_VERT, ops_mesh_select_all,
    edit_mesh_poll, bmesh_from_edit_mesh, modifiers_new_DECIMATE, set_ratio,
    set_use_collapse_triangulate, ops_object_modifier_apply, ops_mesh_remove_doubles.
  adds.
Qed.

Lemma render_image_asked (glb_file : string) :
  glb_file ∈ files ->
  let base_name := fst (path_splitext (path_basename glb_file)) in
  adds_only (asked_for files output_folder render_angle)
            (render_image (path_join output_folder base_name) base_name render_angle None None).
Proof.
  intros Hin base_name s.
  destruct (can_write (path_join (path_join output_folder base_name)
                                 (image_name base_name render_angle))) eqn:Hw.
  - destruct (render_image_run s _ base_name render_angle None None Hw)
      as (s' & still & Hrun & _ & _ & _ & _ & _ & _ & _ & Hcalls).
    rewrite Hrun. eexists. split; [exact Hcalls|]. constructor; [|constructor].
    exists glb_file. split; [exact Hin | reflexivity].
  - destruct (render_image_unwritable s _ base_name render_angle None None Hw)
      as (e & s' & Hrun & _ & _ & _ & Hcalls).
    rewrite Hrun. now apply calls_extend_refl.
Qed.

Lemma process_glb_file_asked (target_vertex_count : Z) (glb_file : string) :
  glb_file ∈ files ->
  adds_only (asked_for files output_folder render_angle)
            (process_glb_file output_folder target_vertex_count render_angle glb_file).
Proof.
  intros Hin. unfold process_glb_file.
  repeat first
    [ apply adds_only_clear_scene | apply (import_glb_asked _ Hin) | apply merge_all_meshes_asked
    | apply reduce_vertices_asked | apply adds_only_remove_textures
    | apply adds_only_add_plane_and_light | apply adds_only_os_makedirs
    | apply (render_image_asked _ Hin) | apply adds_only_export_to_json
    | apply adds_only_print
    | adds_step ].
Qed.

End ListingFacts.

Section ModeFacts.
Context {host : Host}.

Lemma process_glb_file_edit_mode (output_folder : string)
    (target_vertex_count render_angle : Z) (glb_file : string) (s : State) :
  st_mode s = EDIT ->
  process_glb_file output_folder target_vertex_count render_angle glb_file s
  = (Raise RuntimeError, add_stdout (MsgProcessing glb_file) s).
Proof.
  intros Hm. unfold process_glb_file.
  rewrite (bind_run _ _ _ _ _ (print_run _ _)).
  apply bind_fail. unfold clear_scene. apply bind_fail.
  unfold ops_object_select_all. rewrite bind_unfold. unfold get. cbv beta iota.
  cbn [st_mode add_stdout]. now rewrite Hm.
Qed.

End ModeFacts.

(** * Further properties of the script *)

Section Extras.
Context {host : Host}.

(** X1: [clear_scene], called in object mode, returns with no object left in
    the scene (every object being visible and selectable, as the
    embedding takes them), whatever was selected before; the active object
    and the scene camera are unset; the material store, the directories,
    the files, standard output and the history of the host are as they
    were. *)
Theorem clear_scene_empties_scene (s : State) :
  st_mode s = OBJECT ->
  exists s',
    clear_scene s = (Ret tt, s')
    /\ st_objects s' = []
    /\ st_active s' = None
    /\ st_camera s' = None
    /\ st_mode s' = OBJECT
    /\ st_materials s' = st_materials s
    /\ st_dirs s' = st_dirs s
    /\ st_files s' = st_files s
    /\ st_stdout s' = st_stdout s
    /\ st_calls s' = st_calls s.
Proof.
  intros Hm. eexists. split; [exact (clear_scene_run s Hm)|].
  cbn. repeat split. exact Hm.
Qed.

(** X2: in object mode, [clear_scene] followed by [import_glb] of a readable
    file leaves in the scene exactly the objects the importer creates for
    the file, in the importer's order and under pairwise distinct handles:
    nothing of what the scene held before survives.  The material store
    is the importer's, one import is added to the history of the host,
    and no file is written. *)
Theorem clear_scene_then_import_glb (s : State) (filepath : string) (objs : list Object)
    (mats : gmap MatId Material) :
  st_mode s = OBJECT ->
  gltf_import filepath (snd (clear_scene s)) = Some (objs, mats) ->
  exists s',
    (clear_scene ;; import_glb filepath) s = (Ret tt, s')
    /\ map snd (st_objects s') = objs
    /\ NoDup (map fst (st_objects s'))
    /\ st_mode s' = OBJECT
    /\ st_materials s' = mats
    /\ st_files s' = st_files s
    /\ st_calls s' = st_calls s ++ [CallImport filepath].
Proof.
  intros Hm Himp. rewrite (clear_scene_run s Hm) in Himp. cbn [snd] in Himp.
  destruct (import_glb_run _ _ _ _ Himp) as (l & Hrun & Hl).
  eexists. split.
  - rewrite (bind_run _ _ _ _ _ (clear_scene_run s Hm)). exact Hrun.
  - cbn [st_objects add_call set_materials set_objects st_mode st_materials st_files st_calls
         set_camera set_active].
    split; [exact Hl|]. split; [|now repeat split].
    pose proof (add_objects_handles objs
                  (set_camera None (set_active None (set_objects (fun _ => []) s)))
                  (NoDup_nil_2 : NoDup (map fst []))) as Hnd.
    unfold import_glb, ops_import_scene_gltf in Hrun.
    rewrite bind_unfold in Hrun. unfold get in Hrun. cbv beta iota in Hrun.
    rewrite Himp, bind_unfold in Hrun.
    destruct (for_each objs _ _) as [[[]|e] s1]; [|discriminate].
    cbn [snd] in Hnd. injection Hrun as Hrun. now rewrite <- Hrun.
Qed.

(** X3: in object mode, on a scene with distinct handles that has at
    least one mesh object, [merge_all_meshes] returns the first mesh
    object in scene order; it is the active object and the only mesh
    object left; with no other mesh the join changes nothing but the
    selection and with others its mesh is the join of all of them (one
    join added to the history of the host, none otherwise); the objects
    that are no mesh stay, deselected; nothing is printed. *)
Theorem merge_all_meshes_joins_into_first (s : State) (first : ObjId) (o : Object)
    (rest : list (ObjId * Object)) :
  st_mode s = OBJECT ->
  NoDup (map fst (st_objects s)) ->
  mesh_objects s = (first, o) :: rest ->
  exists s',
    merge_all_meshes s = (Ret (Some first), s')
    /\ st_active s' = Some first
    /\ mesh_objects s' = [(first, merged_object o rest)]
    /\ other_objects s' = map deselected (other_objects s)
    /\ st_calls s' = st_calls s ++ match rest with [] => [] | _ :: _ => [CallJoin] end
    /\ st_stdout s' = st_stdout s.
Proof.
  intros Hm Hnd Hf.
  destruct (merge_run s first o rest Hm Hnd Hf)
    as (s' & Hrun & Ha & Hmo & Hoo & Hc & _ & _ & _ & _ & _ & _ & Hout).
  exists s'. repeat (split; [assumption|]). assumption.
Qed.

(** X4: for a mesh object that is active and has more vertices than the
    target (the mesh not being empty), [reduce_vertices] returns with
    Blender back in object mode and the object still active; the object
    keeps its name, location, world matrix, material slots and modifier
    stack (the Decimate modifier it added is gone); every other object and
    the material store are as they were; and the line it prints gives the
    vertex count on entry and the vertex count the mesh really has at the
    end. *)
Theorem reduce_vertices_over_target_effects (s : State) (obj : ObjId) (o : Object)
    (m : Mesh) (target_vertex_count : Z) :
  find_object (st_objects s) obj = Some o ->
  obj_data o = MeshData m ->
  st_active s = Some obj ->
  (target_vertex_count < Z.of_nat (length (vertices (mesh_geom m))))%Z ->
  vertices (mesh_geom m) <> [] ->
  exists s' o' m',
    reduce_vertices obj target_vertex_count s = (Ret tt, s')
    /\ find_object (st_objects s') obj = Some o'
    /\ obj_data o' = MeshData m'
    /\ materials m' = materials m
    /\ modifiers o' = modifiers o
    /\ obj_name o' = obj_name o
    /\ location o' = location o
    /\ matrix_world o' = matrix_world o
    /\ (forall j, j <> obj -> find_object (st_objects s') j = find_object (st_objects s) j)
    /\ st_mode s' = OBJECT
    /\ st_active s' = Some obj
    /\ st_materials s' = st_materials s
    /\ st_stdout s'
       = st_stdout s ++ [MsgReduced (length (vertices (mesh_geom m)))
                                    (length (vertices (mesh_geom m')))].
Proof.
  intros Hfind Hdata Hact Hlt Hne.
  destruct (reduce_vertices_over_run s obj o m _ Hfind Hdata Hact Hlt Hne)
    as (s' & Hrun & Ho' & Hother & _ & _ & Hout & Hmode & Ha & Hmat & _).
  eexists s', _, _. split; [exact Hrun|]. split; [exact Ho'|].
  split; [reflexivity|]. split; [reflexivity|]. split; [reflexivity|].
  split; [reflexivity|]. split; [reflexivity|]. split; [reflexivity|].
  split; [exact Hother|]. split; [exact Hmode|]. split; [now rewrite Ha|].
  split; [exact Hmat|]. exact Hout.
Qed.

(** X5: for a non-empty mesh that is active and a target of zero or less,
    [reduce_vertices] returns after one decimation whose ratio is exactly
    0 (the ratio [target_vertex_count / initial_vertex_count] is not
    positive and the [ratio] property is clamped to [0, 1]), followed by
    one weld with threshold [1e-4]; the mesh is left with the weld of that
    decimation. *)
Theorem reduce_vertices_nonpositive_target (s : State) (obj : ObjId) (o : Object)
    (m : Mesh) (target_vertex_count : Z) :
  find_object (st_objects s) obj = Some o ->
  obj_data o = MeshData m ->
  st_active s = Some obj ->
  vertices (mesh_geom m) <> [] ->
  (target_vertex_count <= 0)%Z ->
  let decimated := decimate COLLAPSE 0 true (mesh_geom m) in
  exists s',
    reduce_vertices obj target_vertex_count s = (Ret tt, s')
    /\ st_calls s' = st_calls s ++ [CallDecimate COLLAPSE 0 true; CallRemoveDoubles (1 # 10000)]
    /\ geometry_of s' obj
       = Some (remove_doubles (1 # 10000) (seq 0 (length (vertices decimated))) decimated).
Proof.
  intros Hfind Hdata Hact Hne Hle decimated.
  assert (Hn : length (vertices (mesh_geom m)) <> 0)
    by (destruct (vertices (mesh_geom m)); [congruence | discriminate]).
  assert (Hlt : (target_vertex_count < Z.of_nat (length (vertices (mesh_geom m))))%Z) by lia.
  destruct (reduce_vertices_over_run s obj o m _ Hfind Hdata Hact Hlt Hne)
    as (s' & Hrun & Ho' & _ & _ & Hc & _).
  rewrite (clamp01_nonpositive _ _ Hle Hn) in Ho', Hc.
  exists s'. split; [exact Hrun|]. split; [exact Hc|].
  unfold geometry_of. rewrite Ho'. reflexivity.
Qed.

(** X6: for an active mesh object without vertices and a negative target,
    [reduce_vertices] raises [ZeroDivisionError] (the count is not within
    the target and the ratio divides by it) and leaves Blender in edit
    mode; no geometry changes, the host is asked nothing and nothing is
    printed. *)
Theorem reduce_vertices_empty_mesh_negative_target (s : State) (obj : ObjId) (o : Object)
    (m : Mesh) (target_vertex_count : Z) :
  find_object (st_objects s) obj = Some o ->
  obj_data o = MeshData m ->
  st_active s = Some obj ->
  vertices (mesh_geom m) = [] ->
  (target_vertex_count < 0)%Z ->
  exists s',
    reduce_vertices obj target_vertex_count s = (Raise ZeroDivisionError, s')
    /\ st_mode s' = EDIT
    /\ (forall i, geometry_of s' i = geometry_of s i)
    /\ st_calls s' = st_calls s
    /\ st_stdout s' = st_stdout s.
Proof.
  intros Hfind Hdata Hact Hnil Hneg. eexists.
  split; [exact (reduce_vertices_zero_division_run s obj o m _ Hfind Hdata Hact Hnil Hneg)|].
  split; [reflexivity|]. split; [|split; reflexivity].
  intros i. exact (geometry_of_reselect (set_mode EDIT s) (fun _ => []) obj i).
Qed.

(** X7: for a mesh whose slots are all filled, and a material of the mesh
    that uses a shading graph whose nodes have unique names,
    [remove_textures] returns and leaves in the graph exactly the nodes
    that are no image texture, in their order, and exactly the links that
    touch no image texture node; the material keeps its name and goes on
    using nodes; and the materials that sit in no slot of the mesh are as
    they were. *)
Theorem remove_textures_removes_only_image_textures (s : State) (obj : ObjId) (o : Object)
    (mesh : Mesh) (mat : MatId) (before : Material) (tree : NodeTree) :
  find_object (st_objects s) obj = Some o ->
  obj_data o = MeshData mesh ->
  (forall slot, slot ∈ materials mesh ->
     exists mat, slot = Some mat /\ is_Some (st_materials s !! mat)) ->
  Some mat ∈ materials mesh ->
  st_materials s !! mat = Some before ->
  use_nodes before = true ->
  node_tree before = Some tree ->
  NoDup (map node_name (nodes tree)) ->
  exists s' after tree',
    remove_textures obj s = (Ret tt, s')
    /\ st_materials s' !! mat = Some after
    /\ mat_name after = mat_name before
    /\ use_nodes after = true
    /\ node_tree after = Some tree'
    /\ nodes tree' = filter (fun n => negb (bool_decide (node_type n = TEX_IMAGE))) (nodes tree)
    /\ links tree'
       = filter (fun l : string * string =>
                   negb (texture_node_named tree (fst l))
                   && negb (texture_node_named tree (snd l)))
                (links tree)
    /\ forall other, Some other ∉ materials mesh ->
         st_materials s' !! other = st_materials s !! other.
Proof.
  intros Hfind Hdata Hslots Hin Hbefore Huse Htree Hnd.
  assert (Hne : materials mesh <> []).
  { intros E. rewrite E in Hin. now apply elem_of_nil in Hin. }
  eexists _, (strip before), (strip_nodes (nodes tree) tree).
  split; [exact (remove_textures_run s obj o mesh Hfind Hdata Hne Hslots)|].
  cbn [st_materials set_materials].
  split.
  { rewrite strip_loop_lookup, bool_decide_eq_true_2 by exact Hin. now rewrite Hbefore. }
  unfold strip. rewrite Huse, Htree.
  split; [reflexivity|]. split; [exact Huse|].
  split; [cbn; now rewrite Htree|].
  split; [exact (strip_nodes_exact tree Hnd)|].
  split; [exact (strip_nodes_links_exact tree)|].
  intros other Hother. rewrite strip_loop_lookup. now rewrite bool_decide_eq_false_2.
Qed.

(** X8: [remove_textures] is idempotent: for a mesh with material slots,
    all filled, running it a second time returns and changes nothing. *)
Theorem remove_textures_idempotent (s : State) (obj : ObjId) (o : Object) (mesh : Mesh) :
  find_object (st_objects s) obj = Some o ->
  obj_data o = MeshData mesh ->
  materials mesh <> [] ->
  (forall slot, slot ∈ materials mesh ->
     exists mat, slot = Some mat /\ is_Some (st_materials s !! mat)) ->
  exists s',
    remove_textures obj s = (Ret tt, s')
    /\ remove_textures obj s' = (Ret tt, s').
Proof.
  intros Hfind Hdata Hne Hslots.
  set (s' := set_materials (fun mats => foldl strip_slot mats (materials mesh)) s).
  exists s'. split; [exact (remove_textures_run s obj o mesh Hfind Hdata Hne Hslots)|].
  rewrite (remove_textures_run s' obj o mesh Hfind Hdata Hne).
  - f_equal. unfold s', set_materials. cbn. f_equal. apply strip_loop_fixed.
  - intros slot Hslot. destruct (Hslots slot Hslot) as (mat & -> & [m Hm]).
    exists mat. split; [reflexivity|]. unfold s'. cbn [st_materials set_materials].
    rewrite strip_loop_lookup, bool_decide_eq_true_2 by exact Hslot.
    rewrite Hm. now eexists.
Qed.

(** X9: on a mesh whose material slots hold an empty slot,
    [remove_textures] raises [AttributeError] when the loop reaches the
    first empty slot; the materials of the slots before it have been
    stripped by then and stay stripped, those after it are not visited. *)
Theorem remove_textures_empty_slot (s : State) (obj : ObjId) (o : Object) (mesh : Mesh)
    (filled rest : list (option MatId)) :
  find_object (st_objects s) obj = Some o ->
  obj_data o = MeshData mesh ->
  materials mesh = filled ++ None :: rest ->
  (forall slot, slot ∈ filled ->
     exists mat, slot = Some mat /\ is_Some (st_materials s !! mat)) ->
  remove_textures obj s
  = (Raise AttributeError, set_materials (fun mats => foldl strip_slot mats filled) s).
Proof.
  intros Hfind Hdata Hmat Hfilled. unfold remove_textures.
  rewrite (bind_run _ _ _ _ _ (deref_some _ _ _ Hfind)), Hdata, Hmat.
  destruct (filled ++ None :: rest) as [|x xs] eqn:E; [now destruct filled|].
  rewrite <- E. rewrite (for_each_app _ _ _ _ _ (strip_loop_run filled s Hfilled)).
  now apply for_each_raise.
Qed.

(** X10: whatever the object and whatever the outcome, [remove_textures]
    changes nothing but the material store and standard output: the
    objects (geometry and slots included), the active object, the mode,
    the scene camera, the render file path, the directories, the files and
    the history of the host are as they were. *)
Theorem remove_textures_leaves_scene_alone (s : State) (obj : ObjId) :
  let s' := snd (remove_textures obj s) in
  st_objects s' = st_objects s
  /\ st_active s' = st_active s
  /\ st_mode s' = st_mode s
  /\ st_camera s' = st_camera s
  /\ st_filepath s' = st_filepath s
  /\ st_dirs s' = st_dirs s
  /\ st_files s' = st_files s
  /\ st_calls s' = st_calls s.
Proof. exact (remove_textures_keeps_scene obj s). Qed.

(** X11: in object mode, [add_plane_and_light] returns the plane and the
    light after adding exactly three objects under new, pairwise distinct
    handles, after the objects the scene had, which are deselected: the
    plane of size 10 at [(0, -10, 0)], selected and active, its only
    material slot holding a new material of opaque black; the light at
    [(5, 5, 10)] with one constraint tracking the third object along [-Z]
    with [Y] up; and an empty at the origin.  The material is the only
    change to the material store.  No file is written and the host is
    asked nothing.  (The names of the new datablocks are Blender's to
    choose and are not stated.) *)
Theorem add_plane_and_light_stages_scene (s : State) :
  st_mode s = OBJECT ->
  exists s' plane light tgt mat po pm lo to black,
    add_plane_and_light s = (Ret (plane, light), s')
    /\ st_objects s' = map deselected (st_objects s) ++ [(plane, po); (light, lo); (tgt, to)]
    /\ find_object (st_objects s) plane = None
    /\ find_object (st_objects s) light = None
    /\ find_object (st_objects s) tgt = None
    /\ plane <> light /\ plane <> tgt /\ light <> tgt
    /\ st_active s' = Some plane
    /\ obj_data po = MeshData pm
    /\ mesh_geom pm = plane_geometry 10
    /\ materials pm = [Some mat]
    /\ location po = mkVector 0 (-10) 0
    /\ obj_select po = true
    /\ st_materials s !! mat = None
    /\ st_materials s' = <[ mat := black ]> (st_materials s)
    /\ diffuse_color black = mkRGBA 0 0 0 1
    /\ obj_type lo = LIGHT
    /\ location lo = mkVector 5 5 10
    /\ constraints lo = [mkConstraint (Some tgt) TRACK_NEGATIVE_Z UP_Y]
    /\ obj_type to = EMPTY
    /\ location to = mkVector 0 0 0
    /\ st_mode s' = OBJECT
    /\ st_files s' = st_files s
    /\ st_calls s' = st_calls s.
Proof.
  intros Hm.
  destruct (add_plane_and_light_run s Hm)
    as (plane & light & tgt & mat & plane_name & light_name & tgt_name
        & Hrun & Hp & Hl & Ht & Hpl & Hpt & Hlt & Hmat).
  eexists _, plane, light, tgt, mat, (ground_plane plane_name mat), _, (sun light_name tgt),
    (light_target tgt_name), _.
  split; [exact Hrun|]. split; [reflexivity|].
  split; [exact (find_object_deselected_None _ _ Hp)|].
  split; [exact (find_object_deselected_None _ _ Hl)|].
  split; [exact (find_object_deselected_None _ _ Ht)|].
  split; [exact Hpl|]. split; [exact Hpt|]. split; [exact Hlt|].
  split; [reflexivity|]. split; [reflexivity|]. split; [reflexivity|].
  split; [reflexivity|]. split; [reflexivity|]. split; [reflexivity|].
  split; [exact Hmat|].
  split; [reflexivity|]. split; [reflexivity|]. split; [reflexivity|].
  split; [reflexivity|]. split; [reflexivity|]. split; [reflexivity|].
  split; [reflexivity|]. split; [exact Hm|]. split; reflexivity.
Qed.

(** X12: in any state, [setup_camera] returns; it appends exactly two
    objects under new, distinct handles, a camera at the given location
    whose only constraint tracks the second along [-Z] with [Y] up, and an
    empty at the origin; it does not make the camera the scene camera, and
    the active object, the mode and the history of the host are as they
    were. *)
Theorem setup_camera_adds_tracking_camera (s : State) (loc : Vector) :
  exists s' cam tgt c t,
    setup_camera loc s = (Ret (cam, tgt), s')
    /\ st_objects s' = st_objects s ++ [(cam, c); (tgt, t)]
    /\ find_object (st_objects s) cam = None
    /\ find_object (st_objects s) tgt = None
    /\ cam <> tgt
    /\ obj_type c = CAMERA
    /\ location c = loc
    /\ constraints c = [mkConstraint (Some tgt) TRACK_NEGATIVE_Z UP_Y]
    /\ obj_type t = EMPTY
    /\ location t = mkVector 0 0 0
    /\ st_camera s' = st_camera s
    /\ st_active s' = st_active s
    /\ st_mode s' = st_mode s
    /\ st_calls s' = st_calls s.
Proof.
  destruct (setup_camera_run s loc) as (tgt & cam_name & tgt_name & Hne & Htgt & Hrun).
  eexists _, (fresh_object_id s), tgt, (camera_object cam_name loc tgt), (target_object tgt_name).
  split; [exact Hrun|]. split; [reflexivity|].
  split; [exact (find_object_fresh s)|]. split; [exact Htgt|].
  split; [congruence|]. repeat split.
Qed.

(** X13: a call of [render_image] whose render succeeds renders exactly
    once, from the position the angle, the distance and the height give,
    looking at the origin, into [<output_dir>/<base_name>_<angle>.png],
    prints one line naming that path, and leaves the scene without a scene
    camera, whichever camera the scene had on entry (it made its own
    camera the scene camera and then removed it). *)
Theorem render_image_drops_scene_camera (s : State) (output_dir base_name : string)
    (angle : Z) (distance height : option Z) :
  can_write (path_join output_dir (image_name base_name angle)) = true ->
  exists s',
    render_image output_dir base_name angle distance height s = (Ret tt, s')
    /\ st_camera s' = None
    /\ st_stdout s' = st_stdout s ++ [MsgRendered (path_join output_dir (image_name base_name angle))]
    /\ st_calls s'
       = st_calls s
         ++ [CallRender
               (mkRenderRequest
                  (Some (camera_position angle (default default_distance distance)
                                         (default default_height height)))
                  (Some (mkVector 0 0 0))
                  (path_join output_dir (image_name base_name angle)))].
Proof.
  intros Hw.
  destruct (render_image_run s output_dir base_name angle distance height Hw)
    as (s' & still & Hrun & _ & _ & _ & _ & _ & _ & Hout & Hcalls).
  exists s'. split; [exact Hrun|]. split; [|split; [exact Hout | exact Hcalls]].
  pose proof (render_image_camera s output_dir base_name angle distance height Hw) as Hc.
  now rewrite Hrun in Hc.
Qed.

(** X14: when the still cannot be written, [render_image] raises
    [RuntimeError] and cleans nothing up: the camera and the target it
    created are still the last two objects of the scene, that camera is
    the scene camera and the render file path is the image path; no file
    is written, nothing is printed and no render is in the history of the
    host. *)
Theorem render_image_failure_leaves_staging (s : State) (output_dir base_name : string)
    (angle : Z) (distance height : option Z) :
  can_write (path_join output_dir (image_name base_name angle)) = false ->
  exists s' cam tgt c t,
    render_image output_dir base_name angle distance height s = (Raise RuntimeError, s')
    /\ st_objects s' = st_objects s ++ [(cam, c); (tgt, t)]
    /\ obj_type c = CAMERA
    /\ obj_type t = EMPTY
    /\ st_camera s' = Some cam
    /\ st_filepath s' = path_join output_dir (image_name base_name angle)
    /\ st_files s' = st_files s
    /\ st_stdout s' = st_stdout s
    /\ st_calls s' = st_calls s.
Proof.
  intros Hw.
  destruct (render_image_fails s output_dir base_name angle distance height Hw)
    as (tgt & cam_name & tgt_name & _ & _ & Hrun).
  eexists _, (fresh_object_id s), tgt, _, _.
  split; [exact Hrun|]. repeat split.
Qed.

(** X15: when [export_to_json] raises, nothing is printed, and only the
    file at the given path can have changed.  It raises [ReferenceError]
    for a handle without object and [AttributeError] for an object that is
    no mesh, the state being as it was; and [OSError] when the file cannot
    be written to the end: then either the file could not be opened and
    the state is as it was, or the file was opened and holds the
    characters of the document that reached it before the write failed, a
    prefix of the document, possibly empty. *)
Theorem export_to_json_failure_touches_only_its_file (s s' : State) (obj : ObjId)
    (output_filepath : string) (e : Exc) :
  export_to_json obj output_filepath s = (Raise e, s') ->
  st_stdout s' = st_stdout s
  /\ (e = ReferenceError /\ find_object (st_objects s) obj = None /\ s' = s
      \/ e = AttributeError /\ s' = s
         /\ (exists o, find_object (st_objects s) obj = Some o /\ obj_type o <> MESH)
      \/ e = OSError /\ can_write output_filepath = false
         /\ exists o mesh,
              find_object (st_objects s) obj = Some o /\ obj_data o = MeshData mesh
              /\ (partial_write output_filepath = None /\ s' = s
                  \/ exists n,
                       partial_write output_filepath = Some n
                       /\ st_files s'
                          = <[ output_filepath
                               := first_chars n (dumps (JDict (export_data o mesh))) ]>
                              (st_files s))).
Proof.
  destruct (find_object (st_objects s) obj) as [o|] eqn:Hfind.
  - destruct (obj_data o) as [mesh| | | |] eqn:Hdata.
    + destruct (can_write output_filepath) eqn:Hw.
      * rewrite (export_to_json_run s obj o mesh _ Hfind Hdata Hw). discriminate.
      * destruct (partial_write output_filepath) as [n|] eqn:Hp.
        -- rewrite (export_to_json_torn s obj o mesh _ n Hfind Hdata Hw Hp).
           intros [= <- <-]. split; [reflexivity|]. right. right.
           split; [reflexivity|]. split; [reflexivity|]. exists o, mesh.
           split; [reflexivity|]. split; [exact Hdata|]. right. exists n.
           split; [reflexivity|]. cbn [st_files write_file]. apply insert_insert_eq.
        -- rewrite (export_to_json_unopened s obj o mesh _ Hfind Hdata Hw Hp).
           intros [= <- <-]. split; [reflexivity|]. right. right.
           split; [reflexivity|]. split; [reflexivity|]. exists o, mesh.
           split; [reflexivity|]. split; [exact Hdata|]. left. now split.
    + unfold export_to_json. rewrite (bind_run _ _ _ _ _ (deref_some _ _ _ Hfind)), Hdata.
      intros [= <- <-]. split; [reflexivity|]. right. left.
      split; [reflexivity|]. split; [reflexivity|].
      exists o. split; [reflexivity|]. unfold obj_type. now rewrite Hdata.
    + unfold export_to_json. rewrite (bind_run _ _ _ _ _ (deref_some _ _ _ Hfind)), Hdata.
      intros [= <- <-]. split; [reflexivity|]. right. left.
      split; [reflexivity|]. split; [reflexivity|].
      exists o. split; [reflexivity|]. unfold obj_type. now rewrite Hdata.
    + unfold export_to_json. rewrite (bind_run _ _ _ _ _ (deref_some _ _ _ Hfind)), Hdata.
      intros [= <- <-]. split; [reflexivity|]. right. left.
      split; [reflexivity|]. split; [reflexivity|].
      exists o. split; [reflexivity|]. unfold obj_type. now rewrite Hdata.
    + unfold export_to_json. rewrite (bind_run _ _ _ _ _ (deref_some _ _ _ Hfind)), Hdata.
      intros [= <- <-]. split; [reflexivity|]. right. left.
      split; [reflexivity|]. split; [reflexivity|].
      exists o. split; [reflexivity|]. unfold obj_type. now rewrite Hdata.
  - unfold export_to_json. rewrite bind_unfold. unfold deref. rewrite Hfind.
    intros [= <- <-]. split; [reflexivity|]. left. now split.
Qed.

(** X16: whatever the object, the path and the outcome, [export_to_json]
    changes nothing of the scene (objects, active object, mode, materials,
    scene camera, render file path), creates no directory, asks the host
    nothing, and touches no file but the one at the given path. *)
Theorem export_to_json_leaves_scene_alone (s : State) (obj : ObjId) (output_filepath : string) :
  let s' := snd (export_to_json obj output_filepath s) in
  st_objects s' = st_objects s
  /\ st_active s' = st_active s
  /\ st_mode s' = st_mode s
  /\ st_materials s' = st_materials s
  /\ st_camera s' = st_camera s
  /\ st_filepath s' = st_filepath s
  /\ st_dirs s' = st_dirs s
  /\ st_calls s' = st_calls s
  /\ forall p, p <> output_filepath -> st_files s' !! p = st_files s !! p.
Proof.
  destruct (find_object (st_objects s) obj) as [o|] eqn:Hf.
  - destruct (obj_data o) as [mesh| | | |] eqn:Hd.
    + destruct (can_write output_filepath) eqn:Hw.
      * rewrite (export_to_json_run s obj o mesh _ Hf Hd Hw).
        cbn [snd st_objects st_active st_mode st_materials st_camera st_filepath st_dirs
             st_files st_calls add_stdout write_file].
        repeat split. intros p Hp. now rewrite !lookup_insert_ne by congruence.
      * destruct (partial_write output_filepath) as [n|] eqn:Hp.
        -- rewrite (export_to_json_torn s obj o mesh _ n Hf Hd Hw Hp).
           cbn [snd st_objects st_active st_mode st_materials st_camera st_filepath st_dirs
                st_files st_calls write_file].
           repeat split. intros p Hp'. now rewrite !lookup_insert_ne by congruence.
        -- rewrite (export_to_json_unopened s obj o mesh _ Hf Hd Hw Hp). now repeat split.
    + unfold export_to_json. rewrite (bind_run _ _ _ _ _ (deref_some _ _ _ Hf)), Hd.
      now repeat split.
    + unfold export_to_json. rewrite (bind_run _ _ _ _ _ (deref_some _ _ _ Hf)), Hd.
      now repeat split.
    + unfold export_to_json. rewrite (bind_run _ _ _ _ _ (deref_some _ _ _ Hf)), Hd.
      now repeat split.
    + unfold export_to_json. rewrite (bind_run _ _ _ _ _ (deref_some _ _ _ Hf)), Hd.
      now repeat split.
  - unfold export_to_json. rewrite bind_unfold. unfold deref. rewrite Hf. now repeat split.
Qed.



(** X19: when the output folder exists or can be created and the input
    folder holds no [*.glb] file, [process_glb_files] returns after
    printing that no GLB file was found; the output folder is among the
    directories, and the files, the scene, the material store and the
    history of the host are as they were. *)
Theorem process_glb_files_empty_folder (input_folder output_folder : string)
    (target_vertex_count render_angle : Z) (s : State) :
  glob (path_join input_folder "*.glb") = [] ->
  output_folder ∈ st_dirs s \/ can_write output_folder = true ->
  exists s',
    process_glb_files input_folder output_folder target_vertex_count render_angle s = (Ret tt, s')
    /\ st_stdout s' = st_stdout s ++ [MsgNoGlb]
    /\ st_dirs s' = {[ output_folder ]} ∪ st_dirs s
    /\ st_files s' = st_files s
    /\ st_objects s' = st_objects s
    /\ st_materials s' = st_materials s
    /\ st_calls s' = st_calls s.
Proof.
  intros Hg Hw. destruct (os_makedirs_run output_folder s Hw)
    as (s1 & Hrun & Hd & Ho & _ & _ & Hmat & _ & _ & Hf & Hout & Hc).
  exists (add_stdout MsgNoGlb s1). unfold process_glb_files.
  rewrite (bind_run _ _ _ _ _ Hrun). rewrite Hg. cbn.
  repeat split; try assumption. now rewrite Hout.
Qed.

(** X20: when the output folder neither exists nor can be created,
    [process_glb_files] raises [OSError] before the input folder is
    listed, whatever it holds: nothing is printed, no file is written, the
    scene and the materials are untouched and the host is asked
    nothing. *)
Theorem process_glb_files_output_folder_unwritable (input_folder output_folder : string)
    (target_vertex_count render_angle : Z) (s : State) :
  output_folder ∉ st_dirs s ->
  can_write output_folder = false ->
  exists s',
    process_glb_files input_folder output_folder target_vertex_count render_angle s
    = (Raise OSError, s')
    /\ st_stdout s' = st_stdout s
    /\ st_files s' = st_files s
    /\ st_calls s' = st_calls s
    /\ st_objects s' = st_objects s
    /\ st_active s' = st_active s
    /\ st_mode s' = st_mode s
    /\ st_materials s' = st_materials s
    /\ st_camera s' = st_camera s
    /\ st_filepath s' = st_filepath s.
Proof.
  intros H1 H2. exists s. unfold process_glb_files.
  rewrite (bind_fail _ _ _ _ _ (os_makedirs_fails _ _ H1 H2)). now repeat split.
Qed.

(** X21: when Blender is in edit mode at the start of a batch whose
    output folder exists or can be created and whose input folder lists
    at least one file, [process_glb_files] raises [RuntimeError] at the
    [clear_scene] of the first file: the line naming that file has been
    printed, Blender is still in edit mode, and nothing is deleted,
    imported or written. *)
Theorem process_glb_files_needs_object_mode (input_folder output_folder : string)
    (target_vertex_count render_angle : Z) (s : State) (glb_file : string)
    (rest : list string) :
  st_mode s = EDIT ->
  output_folder ∈ st_dirs s \/ can_write output_folder = true ->
  glob (path_join input_folder "*.glb") = glb_file :: rest ->
  exists s',
    process_glb_files input_folder output_folder target_vertex_count render_angle s
    = (Raise RuntimeError, s')
    /\ st_objects s' = st_objects s
    /\ st_mode s' = EDIT
    /\ st_stdout s' = st_stdout s ++ [MsgProcessing glb_file]
    /\ st_files s' = st_files s
    /\ st_calls s' = st_calls s.
Proof.
  intros Hm Hw Hg.
  destruct (os_makedirs_run output_folder s Hw)
    as (s1 & Hrun & _ & Ho & _ & Hmode & _ & _ & _ & Hf & Hout & Hc).
  assert (Hm1 : st_mode s1 = EDIT) by congruence.
  exists (add_stdout (MsgProcessing glb_file) s1). split.
  - unfold process_glb_files. rewrite (bind_run _ _ _ _ _ Hrun), Hg.
    apply for_each_raise.
    exact (process_glb_file_edit_mode output_folder target_vertex_count render_angle
             glb_file s1 Hm1).
  - cbn [st_objects st_mode st_stdout st_files st_calls add_stdout].
    repeat split; try assumption. now rewrite Hout.
Qed.

(** X22: for a file the importer cannot read, the pipeline of the asset
    raises [RuntimeError] at the import; by then the scene has been
    cleared and the line naming the file printed; no directory is created,
    no file is written and the history of the host is as it was. *)
Theorem process_glb_file_unreadable (output_folder : string)
    (target_vertex_count render_angle : Z) (glb_file : string) (s : State) :
  st_mode s = OBJECT ->
  gltf_import glb_file (snd (clear_scene (add_stdout (MsgProcessing glb_file) s))) = None ->
  exists s',
    process_glb_file output_folder target_vertex_count render_angle glb_file s
    = (Raise RuntimeError, s')
    /\ st_objects s' = []
    /\ st_stdout s' = st_stdout s ++ [MsgProcessing glb_file]
    /\ st_dirs s' = st_dirs s
    /\ st_files s' = st_files s
    /\ st_calls s' = st_calls s.
Proof.
  intros Hm Himp. unfold process_glb_file.
  rewrite (bind_run _ _ _ _ _ (print_run _ _)).
  assert (Hm' : st_mode (add_stdout (MsgProcessing glb_file) s) = OBJECT) by exact Hm.
  rewrite (clear_scene_run _ Hm') in Himp. cbn [snd] in Himp.
  rewrite (bind_run _ _ _ _ _ (clear_scene_run _ Hm')).
  rewrite (bind_fail _ _ _ _ _ (import_glb_fails _ _ Himp)).
  eexists. split; [reflexivity|]. cbn. repeat split.
Qed.

(** X23: in object mode, for a file the importer reads and that holds at
    least one mesh, with every material slot of the merged mesh filled, a
    target that is not negative, and the folder of the model, the still
    and the JSON file writable, the pipeline of the asset returns.  It
    has created [<output_folder>/<base_name>], written the still to
    [<base_name>_<angle>.png] and the JSON to [<base_name>.json] in it,
    and touched no other file; the JSON is the export of the merged
    object as the scene holds it at the end, which has the location,
    rotation, scale and world matrix of the first mesh object of the file
    and the geometry [reduce_vertices] leaves of the merged mesh; the
    last line printed names the JSON file. *)
Theorem process_glb_file_completes
    (output_folder : string) (target_vertex_count render_angle : Z) (glb_file : string)
    (s : State) (objs : list Object) (mats : gmap MatId Material)
    (om : Object) (others : list Object) (m : Mesh) :
  let base_name := fst (path_splitext (path_basename glb_file)) in
  let model_folder := path_join output_folder base_name in
  let image_path := path_join model_folder (image_name base_name render_angle) in
  let json_path := path_join model_folder (base_name +:+ ".json") in
  st_mode s = OBJECT ->
  gltf_import glb_file (snd (clear_scene (add_stdout (MsgProcessing glb_file) s)))
  = Some (objs, mats) ->
  filter (fun o => bool_decide (obj_type o = MESH)) objs = om :: others ->
  obj_data (joined om others) = MeshData m ->
  (forall slot, slot ∈ materials m -> exists mat, slot = Some mat /\ is_Some (mats !! mat)) ->
  (0 <= target_vertex_count)%Z ->
  model_folder ∈ st_dirs s \/ can_write model_folder = true ->
  can_write image_path = true ->
  can_write json_path = true ->
  exists s' merged o' m' still,
    process_glb_file output_folder target_vertex_count render_angle glb_file s = (Ret tt, s')
    /\ find_object (st_objects s') merged = Some o'
    /\ obj_data o' = MeshData m'
    /\ mesh_geom m' = reduced target_vertex_count (mesh_geom m)
    /\ location o' = location om
    /\ rotation_euler o' = rotation_euler om
    /\ scale o' = scale om
    /\ matrix_world o' = matrix_world om
    /\ st_dirs s' = {[ model_folder ]} ∪ st_dirs s
    /\ st_files s'
       = <[ json_path := dumps (JDict (export_data o' m')) ]>
           (<[ image_path := still ]> (st_files s))
    /\ last (st_stdout s') = Some (MsgExported json_path).
Proof.
  intros base_name model_folder image_path json_path
         Hm Himp Hmesh Hdata Hslots Hpos Hdir Hwi Hwj.
  set (s0 := add_stdout (MsgProcessing glb_file) s) in *.
  assert (Hm0 : st_mode s0 = OBJECT) by exact Hm.
  destruct (import_after_clear s0 glb_file objs mats Hm0 Himp) as (l & Hrun_i & Hl & Hnd).
  set (s_i := add_call (CallImport glb_file) _) in Hrun_i.
  rewrite <- Hl in Hmesh.
  destruct (mesh_objects_of_import l om others Hmesh) as (first & rest & Hmo & Hrest).
  destruct (merge_run s_i first om rest Hm Hnd Hmo)
    as (s_m & Hrun_m & Ha_m & Hmo_m & _ & _ & Hnd_m & Hmode_m & Hmat_m & _ & Hd_m & Hf_m & _).
  rewrite merged_object_joined, Hrest in Hmo_m.
  assert (Hfind_m : find_object (st_objects s_m) first = Some (joined om others)).
  { apply find_object_unique; [exact Hnd_m|].
    assert (H : (first, joined om others) ∈ mesh_objects s_m)
      by (rewrite Hmo_m; apply list_elem_of_here).
    unfold mesh_objects in H. now apply filter_bool_elem in H. }
  destruct (reduce_vertices_run_any s_m first _ m target_vertex_count Hfind_m Hdata Ha_m Hpos)
    as (s_r & m_r & msg & Hrun_r & Hfind_r & Hmats_r & Hgeom_r & _ & _ & Hmode_r & _
        & Hmat_r & _ & _ & Hd_r & Hf_r & _).
  assert (Hslots_r : forall slot, slot ∈ materials m_r ->
                       exists mat, slot = Some mat /\ is_Some (st_materials s_r !! mat)).
  { rewrite Hmats_r, Hmat_r, Hmat_m. exact Hslots. }
  destruct (remove_textures_succeeds s_r first _ m_r Hfind_r eq_refl Hslots_r)
    as (s_t & Hrun_t & Ho_t & _ & Hmode_t & _ & _ & Hd_t & Hf_t & _).
  assert (Hmode_t' : st_mode s_t = OBJECT) by congruence.
  destruct (add_plane_and_light_run s_t Hmode_t')
    as (plane & light & tgt & mat & plane_name & light_name & tgt_name & Hrun_p & _).
  set (s_p := set_objects _ _) in Hrun_p.
  assert (Hdir_p : model_folder ∈ st_dirs s_p \/ can_write model_folder = true).
  { change (st_dirs s_p) with (st_dirs s_t). rewrite Hd_t, Hd_r, Hd_m. exact Hdir. }
  destruct (os_makedirs_run model_folder s_p Hdir_p)
    as (s_d & Hrun_d & Hd_d & Ho_d & _ & _ & _ & _ & _ & Hf_d & _).
  destruct (render_image_run s_d model_folder base_name render_angle None None Hwi)
    as (s_n & still & Hrun_n & Ho_n & _ & _ & _ & Hd_n & Hf_n & _).
  set (o_e := with_select false (with_data (MeshData m_r) (joined om others))).
  assert (Hfind_n : find_object (st_objects s_n) first = Some o_e).
  { rewrite Ho_n, Ho_d. change (st_objects s_p)
      with (map deselected (st_objects s_t)
            ++ [(plane, ground_plane plane_name mat); (light, sun light_name tgt);
                (tgt, light_target tgt_name)]).
    rewrite find_object_app, find_object_deselected, Ho_t, Hfind_r. reflexivity. }
  eexists _, first, o_e, m_r, still. split.
  - unfold process_glb_file.
    rewrite (bind_run _ _ _ _ _ (print_run _ _)). fold s0.
    rewrite (bind_run _ _ _ _ _ (clear_scene_run s0 Hm0)).
    rewrite (bind_run _ _ _ _ _ Hrun_i).
    rewrite (bind_run _ _ _ _ _ Hrun_m).
    rewrite (bind_run _ _ _ _ _ Hrun_r).
    rewrite (bind_run _ _ _ _ _ Hrun_t).
    rewrite (bind_run _ _ _ _ _ Hrun_p).
    fold base_name. fold model_folder.
    rewrite (bind_run _ _ _ _ _ Hrun_d).
    rewrite (bind_run _ _ _ _ _ Hrun_n).
    exact (export_to_json_run s_n first o_e m_r json_path Hfind_n eq_refl Hwj).
  - cbn [st_objects st_dirs st_files st_stdout add_stdout write_file].
    split; [exact Hfind_n|]. split; [reflexivity|]. split; [exact Hgeom_r|].
    split; [unfold joined; now destruct others|].
    split; [unfold joined; now destruct others|].
    split; [unfold joined; now destruct others|].
    split; [unfold joined; now destruct others|].
    split.
    { rewrite Hd_n, Hd_d. change (st_dirs s_p) with (st_dirs s_t).
      now rewrite Hd_t, Hd_r, Hd_m. }
    split.
    { rewrite insert_insert_eq, Hf_n, Hf_d. change (st_files s_p) with (st_files s_t).
      now rewrite Hf_t, Hf_r, Hf_m. }
    apply last_snoc.
Qed.

(** X24: whatever the outcome of a batch, everything it asked of the
    host beyond joins, decimations and welds is an import of a file of the
    listing of the input folder or a render into the still of such a
    file, [<output_folder>/<base_name>/<base_name>_<angle>.png]: no other
    file is imported and no other still is rendered. *)
Theorem process_glb_files_asks_only_for_listed_files (input_folder output_folder : string)
    (target_vertex_count render_angle : Z) (s : State) :
  calls_extend
    (asked_for (glob (path_join input_folder "*.glb")) output_folder render_angle)
    s (snd (process_glb_files input_folder output_folder target_vertex_count render_angle s)).
Proof.
  revert s. change (adds_only
    (asked_for (glob (path_join input_folder "*.glb")) output_folder render_angle)
    (process_glb_files input_folder output_folder target_vertex_count render_angle)).
  unfold process_glb_files.
  apply adds_only_bind; [apply adds_only_os_makedirs|]. intros _.
  destruct (glob (path_join input_folder "*.glb")) as [|f fs] eqn:E.
  - apply adds_only_print.
  - apply adds_only_for_each_in. intros x Hx. now apply process_glb_file_asked.
Qed.

End Extras.

(** * The further properties on the concrete host *)

(** Witness of X1. *)
Lemma clear_scene_empties_scene_witness :
  st_mode Demo.scene = OBJECT
  /\ exists s', clear_scene Demo.scene = (Ret tt, s') /\ st_objects s' = [].
Proof.
  split; [reflexivity|].
  destruct (clear_scene_empties_scene Demo.scene eq_refl) as (s' & H1 & H2 & _).
  exists s'. split; assumption.
Defined.

(** Witness of X2: the two meshes of ["in/a.glb"] replace the object of
    [Demo.scene]. *)
Lemma clear_scene_then_import_glb_witness :
  (st_mode Demo.scene = OBJECT
   /\ gltf_import (Host := Demo.h) "in/a.glb" (snd (clear_scene Demo.scene))
      = Some ([Demo.hull; Cases.wing],
              <[ 1%nat := Demo.textured ]> (<[ 2%nat := Demo.plain ]> (st_materials Demo.scene))))
  /\ exists s',
       (clear_scene ;; import_glb (host := Demo.h) "in/a.glb") Demo.scene = (Ret tt, s')
       /\ map snd (st_objects s') = [Demo.hull; Cases.wing]
       /\ NoDup (map fst (st_objects s')).
Proof.
  split; [split; reflexivity|].
  destruct (clear_scene_then_import_glb (host := Demo.h) Demo.scene "in/a.glb" _ _
              eq_refl eq_refl) as (s' & H1 & H2 & H3 & _).
  exists s'. repeat split; assumption.
Defined.

(** Witness of X3: the hull, a camera and the wing; the wing is joined
    into the hull. *)
Lemma merge_all_meshes_joins_into_first_witness :
  (st_mode Cases.two_meshes = OBJECT
   /\ NoDup (map fst (st_objects Cases.two_meshes))
   /\ mesh_objects Cases.two_meshes = (1%nat, Demo.hull) :: [(3%nat, Cases.wing)])
  /\ exists s',
       merge_all_meshes (host := Demo.h) Cases.two_meshes = (Ret (Some 1%nat), s')
       /\ st_active s' = Some 1%nat
       /\ map fst (mesh_objects s') = [1%nat]
       /\ st_calls s' = [CallJoin].
Proof.
  assert (Hnd : NoDup (map fst (st_objects Cases.two_meshes))).
  { apply (bool_decide_unpack _). vm_compute. exact I. }
  split; [split; [reflexivity | split; [exact Hnd | reflexivity]]|].
  destruct (merge_all_meshes_joins_into_first (host := Demo.h) Cases.two_meshes 1
              Demo.hull [(3%nat, Cases.wing)] eq_refl Hnd eq_refl)
    as (s' & H1 & H2 & H3 & _ & H5 & _).
  exists s'. split; [exact H1|]. split; [exact H2|]. split; [now rewrite H3 | exact H5].
Defined.

(** Witness of X4: four vertices, target two. *)
Lemma reduce_vertices_over_target_effects_witness :
  (find_object (st_objects Demo.scene) 1 = Some Demo.hull
   /\ obj_data Demo.hull = MeshData Demo.hull_mesh
   /\ st_active Demo.scene = Some 1%nat
   /\ (2 < Z.of_nat (length (vertices (mesh_geom Demo.hull_mesh))))%Z
   /\ vertices (mesh_geom Demo.hull_mesh) <> [])
  /\ exists s' o',
       reduce_vertices (host := Demo.h) 1 2 Demo.scene = (Ret tt, s')
       /\ find_object (st_objects s') 1 = Some o'
       /\ modifiers o' = modifiers Demo.hull
       /\ st_mode s' = OBJECT.
Proof.
  assert (Hlt : (2 < Z.of_nat (length (vertices (mesh_geom Demo.hull_mesh))))%Z)
    by (vm_compute; reflexivity).
  assert (Hne : vertices (mesh_geom Demo.hull_mesh) <> []) by discriminate.
  split; [split; [reflexivity | split; [reflexivity | split; [reflexivity
          | split; [exact Hlt | exact Hne]]]]|].
  destruct (reduce_vertices_over_target_effects (host := Demo.h) Demo.scene 1 Demo.hull
              Demo.hull_mesh 2 eq_refl eq_refl eq_refl Hlt Hne)
    as (s' & o' & m' & H1 & H2 & _ & _ & H5 & _ & _ & _ & _ & H10 & _).
  exists s', o'. repeat split; assumption.
Defined.

(** Witness of X5: four vertices, target zero. *)
Lemma reduce_vertices_nonpositive_target_witness :
  (find_object (st_objects Demo.scene) 1 = Some Demo.hull
   /\ obj_data Demo.hull = MeshData Demo.hull_mesh
   /\ st_active Demo.scene = Some 1%nat
   /\ vertices (mesh_geom Demo.hull_mesh) <> []
   /\ (0 <= 0)%Z)
  /\ exists s',
       reduce_vertices (host := Demo.h) 1 0 Demo.scene = (Ret tt, s')
       /\ st_calls s'
          = st_calls Demo.scene ++ [CallDecimate COLLAPSE 0 true; CallRemoveDoubles (1 # 10000)].
Proof.
  assert (Hne : vertices (mesh_geom Demo.hull_mesh) <> []) by discriminate.
  assert (Hle : (0 <= 0)%Z) by (vm_compute; discriminate).
  split; [split; [reflexivity | split; [reflexivity | split; [reflexivity
          | split; [exact Hne | exact Hle]]]]|].
  destruct (reduce_vertices_nonpositive_target (host := Demo.h) Demo.scene 1 Demo.hull
              Demo.hull_mesh 0 eq_refl eq_refl eq_refl Hne Hle)
    as (s' & H1 & H2 & _).
  exists s'. split; assumption.
Defined.

(** Witness of X6: no vertex, target minus one. *)
Lemma reduce_vertices_empty_mesh_negative_target_witness :
  (find_object (st_objects Cases.bare_scene) 1 = Some Cases.bare
   /\ obj_data Cases.bare = MeshData Cases.bare_mesh
   /\ st_active Cases.bare_scene = Some 1%nat
   /\ vertices (mesh_geom Cases.bare_mesh) = []
   /\ (-1 < 0)%Z)
  /\ exists s',
       reduce_vertices (host := Demo.h) 1 (-1) Cases.bare_scene = (Raise ZeroDivisionError, s')
       /\ st_mode s' = EDIT.
Proof.
  assert (Hneg : (-1 < 0)%Z) by reflexivity.
  split; [split; [reflexivity | split; [reflexivity | split; [reflexivity
          | split; [reflexivity | exact Hneg]]]]|].
  destruct (reduce_vertices_empty_mesh_negative_target (host := Demo.h) Cases.bare_scene 1
              Cases.bare Cases.bare_mesh (-1) eq_refl eq_refl eq_refl eq_refl Hneg)
    as (s' & H1 & H2 & _).
  exists s'. split; assumption.
Defined.

(** The shading graph of [Demo.textured]. *)
Lemma textured_tree :
  node_tree Demo.textured
  = Some (mkNodeTree [mkNode "Image Texture" TEX_IMAGE; mkNode "Principled BSDF" BSDF_PRINCIPLED;
                      mkNode "Material Output" OUTPUT_MATERIAL]
                     [("Image Texture", "Principled BSDF");
                      ("Principled BSDF", "Material Output")]).
Proof. reflexivity. Qed.

Lemma hull_slots_filled (slot : option MatId) :
  slot ∈ materials Demo.hull_mesh ->
  exists mat, slot = Some mat /\ is_Some (st_materials Demo.scene !! mat).
Proof.
  intros H. apply elem_of_cons in H as [->|H].
  - exists 1%nat. split; [reflexivity|]. vm_compute. eauto.
  - apply elem_of_cons in H as [->|H]; [|inversion H].
    exists 2%nat. split; [reflexivity|]. vm_compute. eauto.
Defined.

(** Witness of X7: the first material of the hull loses its image
    texture node and the link that left it; the other two nodes and the
    link between them stay. *)
Lemma remove_textures_removes_only_image_textures_witness :
  (find_object (st_objects Demo.scene) 1 = Some Demo.hull
   /\ obj_data Demo.hull = MeshData Demo.hull_mesh
   /\ Some 1%nat ∈ materials Demo.hull_mesh
   /\ st_materials Demo.scene !! 1%nat = Some Demo.textured
   /\ use_nodes Demo.textured = true
   /\ NoDup ["Image Texture"; "Principled BSDF"; "Material Output"])
  /\ exists s' after tree',
       remove_textures 1 Demo.scene = (Ret tt, s')
       /\ st_materials s' !! 1%nat = Some after
       /\ node_tree after = Some tree'
       /\ nodes tree' = [mkNode "Principled BSDF" BSDF_PRINCIPLED;
                         mkNode "Material Output" OUTPUT_MATERIAL]
       /\ links tree' = [("Principled BSDF", "Material Output")].
Proof.
  assert (Hin : Some 1%nat ∈ materials Demo.hull_mesh) by apply list_elem_of_here.
  assert (Hmat : st_materials Demo.scene !! 1%nat = Some Demo.textured)
    by (vm_compute; reflexivity).
  assert (Hnd : NoDup ["Image Texture"; "Principled BSDF"; "Material Output"]).
  { apply (bool_decide_unpack _). vm_compute. exact I. }
  split; [split; [reflexivity | split; [reflexivity | split; [exact Hin
          | split; [exact Hmat | split; [reflexivity | exact Hnd]]]]]|].
  destruct (remove_textures_removes_only_image_textures Demo.scene 1 Demo.hull Demo.hull_mesh
              1 Demo.textured _ eq_refl eq_refl hull_slots_filled Hin Hmat eq_refl
              textured_tree Hnd)
    as (s' & after & tree' & H1 & H2 & _ & _ & H5 & H6 & H7 & _).
  exists s', after, tree'. repeat split; assumption.
Defined.

(** Witness of X8. *)
Lemma remove_textures_idempotent_witness :
  (find_object (st_objects Demo.scene) 1 = Some Demo.hull
   /\ obj_data Demo.hull = MeshData Demo.hull_mesh
   /\ materials Demo.hull_mesh <> [])
  /\ exists s', remove_textures 1 Demo.scene = (Ret tt, s')
                /\ remove_textures 1 s' = (Ret tt, s').
Proof.
  assert (Hne : materials Demo.hull_mesh <> []) by discriminate.
  split; [split; [reflexivity | split; [reflexivity | exact Hne]]|].
  exact (remove_textures_idempotent Demo.scene 1 Demo.hull Demo.hull_mesh eq_refl eq_refl Hne
           hull_slots_filled).
Defined.

(** Witness of X9: the second of three slots is empty; the material of
    the first has been stripped when the loop fails. *)
Lemma remove_textures_empty_slot_witness :
  (find_object (st_objects Cases.gapped_scene) 1 = Some Cases.gapped
   /\ obj_data Cases.gapped = MeshData Cases.gapped_mesh
   /\ materials Cases.gapped_mesh = [Some 1%nat] ++ None :: [Some 2%nat])
  /\ remove_textures 1 Cases.gapped_scene
     = (Raise AttributeError,
        set_materials (fun mats => foldl strip_slot mats [Some 1%nat]) Cases.gapped_scene).
Proof.
  split; [split; [reflexivity | split; reflexivity]|].
  apply (remove_textures_empty_slot Cases.gapped_scene 1 Cases.gapped Cases.gapped_mesh
           [Some 1%nat] [Some 2%nat] eq_refl eq_refl eq_refl).
  intros slot H. apply list_elem_of_singleton in H as ->.
  exists 1%nat. split; [reflexivity|]. vm_compute. eauto.
Defined.

(** Witness of X11. *)
Lemma add_plane_and_light_stages_scene_witness :
  st_mode Demo.scene = OBJECT
  /\ exists s' plane light,
       add_plane_and_light (host := Demo.h) Demo.scene = (Ret (plane, light), s')
       /\ st_active s' = Some plane
       /\ length (st_objects s') = 4.
Proof.
  split; [reflexivity|].
  destruct (add_plane_and_light_stages_scene (host := Demo.h) Demo.scene eq_refl)
    as (s' & plane & light & tgt & mat & po & pm & lo & to & black & H1 & H2 & _ & _ & _
        & _ & _ & _ & H9 & _).
  exists s', plane, light. split; [exact H1|]. split; [exact H9|]. now rewrite H2.
Defined.

(** Witness of X13. *)
Lemma render_image_drops_scene_camera_witness :
  can_write (Host := Demo.h) (path_join (Host := Demo.h) "out/hull" (image_name "hull" 45)) = true
  /\ exists s',
       render_image (host := Demo.h) "out/hull" "hull" 45 None None Demo.scene = (Ret tt, s')
       /\ st_camera s' = None
       /\ st_stdout s' = [MsgRendered "out/hull/hull_45.png"].
Proof.
  split; [reflexivity|].
  destruct (render_image_drops_scene_camera (host := Demo.h) Demo.scene "out/hull" "hull" 45
              None None eq_refl) as (s' & H1 & H2 & H3 & _).
  exists s'. split; [exact H1|]. split; [exact H2 | exact H3].
Defined.

(** Witness of X14: nothing can be written. *)
Lemma render_image_failure_leaves_staging_witness :
  can_write (Host := Cases.h_locked)
    (path_join (Host := Cases.h_locked) "out/hull" (image_name "hull" 45)) = false
  /\ exists s' cam,
       render_image (host := Cases.h_locked) "out/hull" "hull" 45 None None Demo.scene
       = (Raise RuntimeError, s')
       /\ st_camera s' = Some cam
       /\ length (st_objects s') = 3
       /\ st_filepath s' = "out/hull/hull_45.png".
Proof.
  split; [reflexivity|].
  destruct (render_image_failure_leaves_staging (host := Cases.h_locked) Demo.scene "out/hull"
              "hull" 45 None None eq_refl)
    as (s' & cam & tgt & c & t & H1 & H2 & _ & _ & H5 & H6 & _).
  exists s', cam. split; [exact H1|]. split; [exact H5|]. split; [now rewrite H2 | exact H6].
Defined.

(** Witness of X15: the file is opened and the write fails after twelve
    characters. *)
Lemma export_to_json_failure_touches_only_its_file_witness :
  export_to_json (host := Cases.h_torn) 1 "out/hull.json" Demo.scene
  = (Raise OSError, snd (export_to_json (host := Cases.h_torn) 1 "out/hull.json" Demo.scene))
  /\ st_stdout (snd (export_to_json (host := Cases.h_torn) 1 "out/hull.json" Demo.scene))
     = st_stdout Demo.scene
  /\ (OSError = ReferenceError /\ find_object (st_objects Demo.scene) 1 = None
        /\ snd (export_to_json (host := Cases.h_torn) 1 "out/hull.json" Demo.scene) = Demo.scene
      \/ OSError = AttributeError
         /\ snd (export_to_json (host := Cases.h_torn) 1 "out/hull.json" Demo.scene) = Demo.scene
         /\ (exists o, find_object (st_objects Demo.scene) 1 = Some o /\ obj_type o <> MESH)
      \/ OSError = OSError /\ can_write (Host := Cases.h_torn) "out/hull.json" = false
         /\ exists o mesh,
              find_object (st_objects Demo.scene) 1 = Some o /\ obj_data o = MeshData mesh
              /\ (partial_write (Host := Cases.h_torn) "out/hull.json" = None
                  /\ snd (export_to_json (host := Cases.h_torn) 1 "out/hull.json" Demo.scene)
                     = Demo.scene
                  \/ exists n,
                       partial_write (Host := Cases.h_torn) "out/hull.json" = Some n
                       /\ st_files (snd (export_to_json (host := Cases.h_torn) 1 "out/hull.json"
                                           Demo.scene))
                          = <[ "out/hull.json"
                               := first_chars n (dumps (JDict (export_data o mesh))) ]>
                              (st_files Demo.scene))).
Proof.
  assert (H : export_to_json (host := Cases.h_torn) 1 "out/hull.json" Demo.scene
              = (Raise OSError,
                 snd (export_to_json (host := Cases.h_torn) 1 "out/hull.json" Demo.scene)))
    by (vm_compute; reflexivity).
  split; [exact H|].
  exact (export_to_json_failure_touches_only_its_file (host := Cases.h_torn) Demo.scene _
           1 "out/hull.json" OSError H).
Defined.

(** Witness of X19: an empty input folder. *)
Lemma process_glb_files_empty_folder_witness :
  (glob (Host := Cases.h_no_files) (path_join (Host := Cases.h_no_files) "in" "*.glb") = []
   /\ ("out" ∈ st_dirs Demo.empty_state
       \/ can_write (Host := Cases.h_no_files) "out" = true))
  /\ exists s',
       process_glb_files (host := Cases.h_no_files) "in" "out" 3 45 Demo.empty_state
       = (Ret tt, s')
       /\ st_stdout s' = [MsgNoGlb]
       /\ st_files s' = st_files Demo.empty_state.
Proof.
  assert (Hw : "out" ∈ st_dirs Demo.empty_state
               \/ can_write (Host := Cases.h_no_files) "out" = true) by (right; reflexivity).
  split; [split; [reflexivity | exact Hw]|].
  destruct (process_glb_files_empty_folder (host := Cases.h_no_files) "in" "out" 3 45
              Demo.empty_state eq_refl Hw) as (s' & H1 & H2 & _ & H4 & _).
  exists s'. split; [exact H1|]. split; [exact H2 | exact H4].
Defined.

(** Witness of X20: the output folder cannot be created. *)
Lemma process_glb_files_output_folder_unwritable_witness :
  (("out" ∉ st_dirs Demo.empty_state)
   /\ can_write (Host := Cases.h_locked) "out" = false)
  /\ exists s',
       process_glb_files (host := Cases.h_locked) "in" "out" 3 45 Demo.empty_state
       = (Raise OSError, s')
       /\ st_stdout s' = st_stdout Demo.empty_state
       /\ st_files s' = st_files Demo.empty_state
       /\ st_calls s' = st_calls Demo.empty_state
       /\ st_objects s' = st_objects Demo.empty_state
       /\ st_active s' = st_active Demo.empty_state
       /\ st_mode s' = st_mode Demo.empty_state
       /\ st_materials s' = st_materials Demo.empty_state
       /\ st_camera s' = st_camera Demo.empty_state
       /\ st_filepath s' = st_filepath Demo.empty_state.
Proof.
  assert (Hd : "out" ∉ st_dirs Demo.empty_state) by apply not_elem_of_empty.
  split; [split; [exact Hd | reflexivity]|].
  exact (process_glb_files_output_folder_unwritable (host := Cases.h_locked) "in" "out" 3 45
           Demo.empty_state Hd eq_refl).
Defined.

(** Witness of X21. *)
Lemma process_glb_files_needs_object_mode_witness :
  (st_mode Cases.edit_scene = EDIT
   /\ ("out" ∈ st_dirs Cases.edit_scene \/ can_write (Host := Demo.h) "out" = true)
   /\ glob (Host := Demo.h) (path_join (Host := Demo.h) "in" "*.glb")
      = "in/a.glb" :: ["in/none.glb"; "in/b.glb"])
  /\ exists s',
       process_glb_files (host := Demo.h) "in" "out" 3 45 Cases.edit_scene
       = (Raise RuntimeError, s')
       /\ st_objects s' = st_objects Cases.edit_scene
       /\ st_stdout s' = [MsgProcessing "in/a.glb"].
Proof.
  assert (Hw : "out" ∈ st_dirs Cases.edit_scene \/ can_write (Host := Demo.h) "out" = true)
    by (right; reflexivity).
  split; [split; [reflexivity | split; [exact Hw | reflexivity]]|].
  destruct (process_glb_files_needs_object_mode (host := Demo.h) "in" "out" 3 45
              Cases.edit_scene "in/a.glb" ["in/none.glb"; "in/b.glb"] eq_refl Hw eq_refl)
    as (s' & H1 & H2 & _ & H4 & _).
  exists s'. split; [exact H1|]. split; [exact H2 | exact H4].
Defined.

(** Witness of X22: a file that is not there. *)
Lemma process_glb_file_unreadable_witness :
  (st_mode Demo.scene = OBJECT
   /\ gltf_import (Host := Demo.h) "in/missing.glb"
        (snd (clear_scene (add_stdout (MsgProcessing "in/missing.glb") Demo.scene))) = None)
  /\ exists s',
       process_glb_file (host := Demo.h) "out" 3 45 "in/missing.glb" Demo.scene
       = (Raise RuntimeError, s')
       /\ st_objects s' = []
       /\ st_files s' = st_files Demo.scene.
Proof.
  split; [split; reflexivity|].
  destruct (process_glb_file_unreadable (host := Demo.h) "out" 3 45 "in/missing.glb" Demo.scene
              eq_refl eq_refl) as (s' & H1 & H2 & _ & _ & H5 & _).
  exists s'. split; [exact H1|]. split; [exact H2 | exact H5].
Defined.

(** The mesh the join of the two meshes of ["in/a.glb"] leaves. *)
Lemma joined_a :
  obj_data (joined (host := Demo.h) Demo.hull [Cases.wing])
  = MeshData (Demo.join_meshes (with_select true Demo.hull) [with_select true Cases.wing]).
Proof. reflexivity. Qed.

(** Witness of X23: asset [a], two meshes and two materials, target
    three. *)
Lemma process_glb_file_completes_witness :
  (st_mode Demo.empty_state = OBJECT
   /\ gltf_import (Host := Demo.h) "in/a.glb"
        (snd (clear_scene (add_stdout (MsgProcessing "in/a.glb") Demo.empty_state)))
      = Some ([Demo.hull; Cases.wing],
              <[ 1%nat := Demo.textured ]> (<[ 2%nat := Demo.plain ]> ∅))
   /\ filter (fun o => bool_decide (obj_type o = MESH)) [Demo.hull; Cases.wing]
      = Demo.hull :: [Cases.wing]
   /\ (0 <= 3)%Z
   /\ can_write (Host := Demo.h) "out/a" = true
   /\ can_write (Host := Demo.h) "out/a/a_45.png" = true
   /\ can_write (Host := Demo.h) "out/a/a.json" = true)
  /\ exists s',
       process_glb_file (host := Demo.h) "out" 3 45 "in/a.glb" Demo.empty_state = (Ret tt, s')
       /\ st_dirs s' = {[ "out/a" ]} ∪ st_dirs Demo.empty_state
       /\ is_Some (st_files s' !! "out/a/a.json")
       /\ last (st_stdout s') = Some (MsgExported "out/a/a.json").
Proof.
  assert (Hpos : (0 <= 3)%Z) by (vm_compute; discriminate).
  assert (Hslots : forall slot,
            slot ∈ materials (Demo.join_meshes (with_select true Demo.hull)
                                [with_select true Cases.wing]) ->
            exists mat, slot = Some mat
                        /\ is_Some ((<[ 1%nat := Demo.textured ]> (<[ 2%nat := Demo.plain ]> ∅)
                                      : gmap MatId Material) !! mat)).
  { intros slot H. apply elem_of_cons in H as [->|H].
    - exists 1%nat. split; [reflexivity|]. vm_compute. eauto.
    - apply elem_of_cons in H as [->|H]; [|inversion H].
      exists 2%nat. split; [reflexivity|]. vm_compute. eauto. }
  split; [split; [reflexivity | split; [reflexivity | split; [reflexivity
          | split; [exact Hpos | split; [reflexivity | split; reflexivity]]]]]|].
  destruct (process_glb_file_completes (host := Demo.h) "out" 3 45 "in/a.glb" Demo.empty_state
              [Demo.hull; Cases.wing]
              (<[ 1%nat := Demo.textured ]> (<[ 2%nat := Demo.plain ]> ∅))
              Demo.hull [Cases.wing] _ eq_refl eq_refl eq_refl joined_a Hslots Hpos
              (or_intror eq_refl) eq_refl eq_refl)
    as (s' & merged & o' & m' & still & H1 & _ & _ & _ & _ & _ & _ & _ & H9 & H10 & H11).
  exists s'. split; [exact H1|]. split; [exact H9|]. split; [|exact H11].
  rewrite H10. rewrite lookup_insert_eq. eauto.
Defined.
